(** * Plan execution engine of the web task automator

    A shallow embedding of [browser_actions.py]: the Action Library
    ([navigate], [type_text], [click_element], [wait], [extract_text],
    [scroll_window], [ask_user]) and the Plan Interpreter ([execute_plan])
    of [BrowserAgent], over an explicit session state and an abstract
    browser driver.

    Conventions of the embedding:
    - a Python [str] is a Rocq [string]; the character with code [n]
      stands for the code point [n] (so the model covers Latin-1 text);
    - a plan record is a JSON object: an association list from keys to
      [pyval], in insertion order, read at the first binding of a key;
      a JSON number is an [int] or a [float], a float being a binary64
      number paired with the text of its [repr];
    - [exn] models instances of subclasses of Python's [Exception]; the
      asynchronous signals that are not ([KeyboardInterrupt],
      [SystemExit]) are outside the model;
    - the browser, the clock and the operator are a [Browser]: a world
      type and one total function per primitive, which answers with a
      value or an exception and the next world, and the depth to which
      the interpreter renders a nested value (one depth for every print
      of a run: the frames of the calls between two prints are not
      counted);
    - the limits are those of CPython 3.11: 4300 digits for a conversion
      between [int] and [str], a 64-bit count of nanoseconds for a
      sleep;
    - of what the code prints, the model keeps what rendering the text
      can raise: every f-string field that holds a value of the plan or
      the store is a [fmt], which raises when [str] of the value does;
      writing the text to the console is taken to succeed. The entry of
      each operation of the Action Library is an event of the trace. *)

From Stdlib Require Import ZArith Ascii String List Bool Lia.
From Stdlib Require Import PrimFloat SpecFloat FloatOps.
From stdpp Require Import base decidable countable gmap strings pretty.
Import ListNotations.

Set Warnings "-register-all".

Local Open Scope string_scope.
Local Open Scope list_scope.
Local Open Scope Z_scope.

(* ===================================================================== *)
(** ** Python values *)
(* ===================================================================== *)

Inductive pyval : Type :=
| PNone
| PBool (b : bool)
| PInt (z : Z)
| PFloat (x : float) (text : string)
| PStr (s : string)
| PList (l : list pyval)
| PDict (d : list (string * pyval)).

(** A plan record ([Dict[str, Any]]) and a plan ([List[Dict[str, Any]]]). *)
Definition pydict : Type := list (string * pyval).
Definition plan : Type := list pydict.

(** [bool(v)]: the truth value Python's [if] and [not] use. *)
Definition truthy (v : pyval) : bool :=
  match v with
  | PNone => false
  | PBool b => b
  | PInt z => negb (z =? 0)
  | PFloat x _ => negb (PrimFloat.is_zero x)
  | PStr s => negb (String.eqb s "")
  | PList l => match l with [] => false | _ => true end
  | PDict d => match d with [] => false | _ => true end
  end.

(** [v == s] for a string literal [s]: only a [str] equals a [str]. *)
Definition py_eq_str (v : pyval) (s : string) : bool :=
  match v with
  | PStr t => String.eqb t s
  | _ => false
  end.

(** [type(v).__name__] *)
Definition type_name (v : pyval) : string :=
  match v with
  | PNone => "NoneType"
  | PBool _ => "bool"
  | PInt _ => "int"
  | PFloat _ _ => "float"
  | PStr _ => "str"
  | PList _ => "list"
  | PDict _ => "dict"
  end.

(* --------------------------------------------------------------------- *)
(** *** Characters and strings *)

Definition code (c : ascii) : N := N_of_ascii c.

(** [str.isspace] on a single character. *)
Definition is_space (c : ascii) : bool :=
  let n := code c in
  ((9 <=? n) && (n <=? 13) || (28 <=? n) && (n <=? 32)
   || (n =? 133) || (n =? 160))%N.

Fixpoint lstrip (s : string) : string :=
  match s with
  | String c rest => if is_space c then lstrip rest else s
  | EmptyString => EmptyString
  end.

Fixpoint rstrip (s : string) : string :=
  match s with
  | String c rest =>
      match rstrip rest with
      | EmptyString => if is_space c then EmptyString else String c EmptyString
      | r => String c r
      end
  | EmptyString => EmptyString
  end.

(** [s.strip()] *)
Definition py_strip (s : string) : string := rstrip (lstrip s).

Definition lower_char (c : ascii) : ascii :=
  let n := code c in
  if ((65 <=? n) && (n <=? 90)
      || (192 <=? n) && (n <=? 222) && negb (n =? 215))%N
  then ascii_of_N (n + 32) else c.

(** [s.lower()] *)
Fixpoint py_lower (s : string) : string :=
  match s with
  | String c rest => String (lower_char c) (py_lower rest)
  | EmptyString => EmptyString
  end.

Fixpoint contains_char (c : ascii) (s : string) : bool :=
  match s with
  | String d rest => Ascii.eqb c d || contains_char c rest
  | EmptyString => false
  end.

Definition hex_digit (n : N) : ascii :=
  if (n <? 10)%N then ascii_of_N (48 + n) else ascii_of_N (87 + n).

(** Characters [repr] writes as an escape: controls, the no-break space
    and the soft hyphen. *)
Definition unprintable (c : ascii) : bool :=
  let n := code c in
  ((n <? 32) || (127 <=? n) && (n <=? 160) || (n =? 173))%N.

Definition repr_char (quote c : ascii) : string :=
  if Ascii.eqb c "\" then "\\"
  else if Ascii.eqb c quote then String "\" (String quote "")
  else if Ascii.eqb c "009" then "\t"
  else if Ascii.eqb c "010" then "\n"
  else if Ascii.eqb c "013" then "\r"
  else if unprintable c then
    String "\" (String "x" (String (hex_digit (code c / 16))
                              (String (hex_digit (code c mod 16)) "")))
  else String c "".

Fixpoint repr_chars (quote : ascii) (s : string) : string :=
  match s with
  | String c rest => repr_char quote c +:+ repr_chars quote rest
  | EmptyString => EmptyString
  end.

Definition dquote : ascii := ascii_of_N 34.

(** [repr(s)] of a [str]: single quotes, unless the text has a single
    quote and no double quote. *)
Definition repr_str (s : string) : string :=
  let quote : ascii :=
    if contains_char "'" s && negb (contains_char dquote s) then dquote
    else "'"%char in
  String quote (repr_chars quote s +:+ String quote "").

Fixpoint join (sep : string) (l : list string) : string :=
  match l with
  | [] => ""
  | [x] => x
  | x :: rest => x +:+ sep +:+ join sep rest
  end.

(** [repr(v)] *)
Fixpoint py_repr (v : pyval) : string :=
  match v with
  | PNone => "None"
  | PBool b => if b then "True" else "False"
  | PInt z => @pretty Z _ z
  | PFloat _ text => text
  | PStr s => repr_str s
  | PList l => "[" +:+ join ", " (map py_repr l) +:+ "]"
  | PDict d =>
      "{" +:+ join ", " (map (fun kv => repr_str (fst kv) +:+ ": " +:+ py_repr (snd kv)) d) +:+ "}"
  end.

(** [str(v)], which an f-string applies to each field. *)
Definition py_str (v : pyval) : string :=
  match v with
  | PStr s => s
  | _ => py_repr v
  end.

(** [str(step)] of a plan record. *)
Definition dict_str (d : pydict) : string := py_repr (PDict d).

(* ===================================================================== *)
(** ** Exceptions and results *)
(* ===================================================================== *)

(** The exception classes the handlers of [browser_actions.py] tell
    apart; [OtherError] is any other subclass of [Exception]. *)
Inductive exn_class : Type :=
| KeyError
| ValueError
| TypeError
| AttributeError
| TimeoutException
| NoSuchElementException
| ElementNotInteractableException
| StaleElementReferenceException
| OtherError.

(** An exception instance: its class and [str(e)]. *)
Record exn : Type := Exn { exn_cls : exn_class; exn_text : string }.

Definition exn_class_eqb (a b : exn_class) : bool :=
  match a, b with
  | KeyError, KeyError | ValueError, ValueError | TypeError, TypeError
  | AttributeError, AttributeError | TimeoutException, TimeoutException
  | NoSuchElementException, NoSuchElementException
  | ElementNotInteractableException, ElementNotInteractableException
  | StaleElementReferenceException, StaleElementReferenceException
  | OtherError, OtherError => true
  | _, _ => false
  end.

(** [isinstance(e, (c1, ..., cn))], the test of an [except] clause. *)
Definition is_instance (e : exn) (classes : list exn_class) : bool :=
  existsb (exn_class_eqb (exn_cls e)) classes.

Inductive result (A : Type) : Type :=
| Ok (a : A)
| Raise (e : exn).
Arguments Ok {A} a.
Arguments Raise {A} e.

(* --------------------------------------------------------------------- *)
(** *** Built-ins that can raise *)

Fixpoint dict_find (k : string) (d : pydict) : option pyval :=
  match d with
  | [] => None
  | (k', v) :: rest => if String.eqb k k' then Some v else dict_find k rest
  end.

(** [d.get(k, default)] *)
Definition dict_get (d : pydict) (k : string) (default : pyval) : pyval :=
  match dict_find k d with
  | Some v => v
  | None => default
  end.

(** [d[k]]: [KeyError(k)], whose text is [repr(k)], when [k] is absent. *)
Definition dict_item (d : pydict) (k : string) : result pyval :=
  match dict_find k d with
  | Some v => Ok v
  | None => Raise (Exn KeyError (repr_str k))
  end.

Definition is_digit (c : ascii) : bool :=
  ((48 <=? code c) && (code c <=? 57))%N.

(** The white space [int] skips around a literal: the ASCII white space
    and, of the other characters, those [str.isspace] accepts. *)
Definition is_int_space (c : ascii) : bool :=
  let n := code c in
  ((9 <=? n) && (n <=? 13) || (n =? 32) || (n =? 133) || (n =? 160))%N.

Fixpoint skip_int_space (s : string) : string :=
  match s with
  | String c rest => if is_int_space c then skip_int_space rest else s
  | EmptyString => EmptyString
  end.

(** The limit of CPython on a conversion between [int] and [str]
    ([sys.get_int_max_str_digits()]). *)
Definition int_max_str_digits : Z := 4300.

(** What the scan of the digits of a literal ends with. *)
Inductive scanned : Type :=
| BadLiteral
| Digits (value : Z) (count : Z) (rest : string).

(** The run of digits at the head of a literal, with single underscores
    between digits: its value, the number of its digits and what follows
    it. *)
Fixpoint scan_digits (s : string) (acc count : Z) (after_underscore : bool)
    : scanned :=
  match s with
  | String c rest =>
      if is_digit c then
        scan_digits rest (10 * acc + Z.of_N (code c - 48)) (count + 1) false
      else if Ascii.eqb c "_" then
        if after_underscore then BadLiteral
        else scan_digits rest acc count true
      else if after_underscore then BadLiteral
      else Digits acc count s
  | EmptyString =>
      if after_underscore then BadLiteral else Digits acc count s
  end.

(** The text shows the first 200 characters of [repr(s)]. *)
Definition invalid_literal (s : string) : exn :=
  Exn ValueError
    ("invalid literal for int() with base 10: "
     +:+ String.substring 0 200 (repr_str s)).

(** [int(s)] for a [str]: white space, a sign, the digits, white space.
    A run of more than 4300 digits is refused before what follows it is
    looked at. *)
Definition int_of_str (s : string) : result Z :=
  let t := skip_int_space s in
  let '(negative, digits) :=
    match t with
    | String "-" rest => (true, rest)
    | String "+" rest => (false, rest)
    | _ => (false, t)
    end in
  match digits with
  | String "_" _ => Raise (invalid_literal s)
  | _ =>
      match scan_digits digits 0 0 false with
      | BadLiteral => Raise (invalid_literal s)
      | Digits value count rest =>
          if count =? 0 then Raise (invalid_literal s)
          else if int_max_str_digits <? count then
            Raise (Exn ValueError
                     ("Exceeds the limit (4300 digits) for integer string conversion: value has "
                      +:+ @pretty Z _ count
                      +:+ " digits; use sys.set_int_max_str_digits() to increase the limit"))
          else
            match skip_int_space rest with
            | EmptyString => Ok (if negative then - value else value)
            | _ => Raise (invalid_literal s)
            end
      end
  end.

(** [int(x)] for a [float]: the number without its fraction. *)
Definition int_of_float (x : float) : result Z :=
  match Prim2SF x with
  | S754_zero _ => Ok 0
  | S754_infinity _ =>
      Raise (Exn OtherError "cannot convert float infinity to integer")
  | S754_nan => Raise (Exn ValueError "cannot convert float NaN to integer")
  | S754_finite negative m e =>
      let magnitude :=
        if 0 <=? e then Z.pos m * 2 ^ e else Z.pos m / 2 ^ (- e) in
      Ok (if negative then - magnitude else magnitude)
  end.

(** [int(v)]. The [OverflowError] of an infinite float is an
    [OtherError]. *)
Definition py_int (v : pyval) : result Z :=
  match v with
  | PInt z => Ok z
  | PBool b => Ok (if b then 1 else 0)
  | PFloat x _ => int_of_float x
  | PStr s => int_of_str s
  | _ =>
      Raise (Exn TypeError
               ("int() argument must be a string, a bytes-like object or a real number, not '"
                +:+ type_name v +:+ "'"))
  end.

(** [v.lower()]: only a [str] has the method. *)
Definition str_lower (v : pyval) : result string :=
  match v with
  | PStr s => Ok (py_lower s)
  | _ =>
      Raise (Exn AttributeError
               ("'" +:+ type_name v +:+ "' object has no attribute 'lower'"))
  end.

(* --------------------------------------------------------------------- *)
(** *** Keys of the Extracted-Data Store *)

(** The hashable values, up to Python's key equality ([True == 1 ==
    1.0]): a float that is a whole number is the key of that number. *)
Inductive key : Type :=
| KNone
| KInt (z : Z)
| KStr (s : string)
| KFloat (negative : bool) (m : positive) (e : Z)
| KInf (negative : bool)
| KNan.

#[global] Instance key_eq_dec : EqDecision key.
Proof. solve_decision. Defined.

Definition key_to_sum (k : key)
    : unit + (Z + (string + (bool * positive * Z + (bool + unit)))) :=
  match k with
  | KNone => inl tt
  | KInt z => inr (inl z)
  | KStr s => inr (inr (inl s))
  | KFloat negative m e => inr (inr (inr (inl (negative, m, e))))
  | KInf negative => inr (inr (inr (inr (inl negative))))
  | KNan => inr (inr (inr (inr (inr tt))))
  end.

Definition key_of_sum
    (x : unit + (Z + (string + (bool * positive * Z + (bool + unit))))) : key :=
  match x with
  | inl _ => KNone
  | inr (inl z) => KInt z
  | inr (inr (inl s)) => KStr s
  | inr (inr (inr (inl (negative, m, e)))) => KFloat negative m e
  | inr (inr (inr (inr (inl negative)))) => KInf negative
  | inr (inr (inr (inr (inr _)))) => KNan
  end.

#[global] Instance key_countable : Countable key.
Proof.
  apply (inj_countable' key_to_sum key_of_sum).
  intros []; reflexivity.
Defined.

(** The range of a binary64 number: a mantissa below [2^53] and an
    exponent of at most 971. *)
Definition binary64_range (m : positive) (e : Z) : bool :=
  (Z.pos m <? 2 ^ 53) && (e <=? 971).

(** The key of a float: the whole number it equals, if any. *)
Definition float_key (x : float) : key :=
  match Prim2SF x with
  | S754_zero _ => KInt 0
  | S754_infinity negative => KInf negative
  | S754_nan => KNan
  | S754_finite negative m e =>
      if negb (binary64_range m e) then KFloat negative m e
      else if 0 <=? e then
        KInt (if negative then - (Z.pos m * 2 ^ e) else Z.pos m * 2 ^ e)
      else if Z.pos m mod 2 ^ (- e) =? 0 then
        KInt (if negative then - (Z.pos m / 2 ^ (- e))
              else Z.pos m / 2 ^ (- e))
      else KFloat negative m e
  end.

(** [hash(v)]: lists and dicts are unhashable. *)
Definition hash_key (v : pyval) : result key :=
  match v with
  | PNone => Ok KNone
  | PBool b => Ok (KInt (if b then 1 else 0))
  | PInt z => Ok (KInt z)
  | PFloat x _ => Ok (float_key x)
  | PStr s => Ok (KStr s)
  | _ => Raise (Exn TypeError ("unhashable type: '" +:+ type_name v +:+ "'"))
  end.

(* --------------------------------------------------------------------- *)
(** *** What rendering a value can raise *)

(** [str(z)] of an [int] of more than 4300 digits is a [ValueError]. *)
Definition int_str_fault (z : Z) : option exn :=
  if 10 ^ int_max_str_digits <=? Z.abs z then
    Some (Exn ValueError
            "Exceeds the limit (4300 digits) for integer string conversion; use sys.set_int_max_str_digits() to increase the limit")
  else None.
Arguments int_str_fault : simpl never.

(** The [RecursionError] of a value nested too deep, an [OtherError]. *)
Definition recursion_error : exn :=
  Exn OtherError
    "maximum recursion depth exceeded while getting the repr of an object".

Fixpoint first_fault (faults : list (option exn)) : option exn :=
  match faults with
  | [] => None
  | Some e :: _ => Some e
  | None :: rest => first_fault rest
  end.

(** The exception [repr(v)] (and [str(v)], which differs for a [str]
    only, where neither raises) ends with, if any, when the interpreter
    can enter [depth] containers: the elements are rendered from left to
    right and the first fault is raised. *)
Fixpoint repr_fault (depth : nat) (v : pyval) {struct v} : option exn :=
  match v with
  | PInt z => int_str_fault z
  | PList l =>
      match depth with
      | O => Some recursion_error
      | S d => first_fault (map (repr_fault d) l)
      end
  | PDict kvs =>
      match depth with
      | O => Some recursion_error
      | S d => first_fault (map (fun kv => repr_fault d (snd kv)) kvs)
      end
  | _ => None
  end.

(** [repr] of a key of the store. *)
Definition key_fault (k : key) : option exn :=
  match k with
  | KInt z => int_str_fault z
  | _ => None
  end.

(** [str(d)] of the store, whose values can be entered to [depth]
    containers. Python renders the entries in the order of their
    insertion, which decides the fault raised when several entries have
    one; the store of the model keeps no such order and its entries are
    taken in the order of their keys. *)
Definition store_fault (depth : nat) (d : gmap key pyval) : option exn :=
  first_fault
    (map (fun kv =>
            match key_fault (fst kv) with
            | Some e => Some e
            | None => repr_fault depth (snd kv)
            end)
       (map_to_list d)).

(* ===================================================================== *)
(** ** The browser driver and the session state *)
(* ===================================================================== *)

(** Selenium's locator strategies ([By.*]). *)
Inductive By : Type :=
| ByCssSelector | ByXpath | ById | ByName
| ByLinkText | ByPartialLinkText | ByTagName.

(** A [WebElement] handle. *)
Definition element : Type := nat.

(** The readiness predicate of a bounded wait:
    [EC.presence_of_element_located] or [EC.element_to_be_clickable]. *)
Inductive wait_cond : Type := Presence | Clickable.

(** What [send_keys] is given: a text, or [Keys.RETURN]. *)
Inductive keys : Type :=
| KeysText (text : pyval)
| KeysReturn.

(** An entry into an operation of the Action Library. *)
Inductive call : Type :=
| CallNavigate (url : pyval)
| CallTypeText (selector_type selector_value text enter_after : pyval)
| CallClickElement (selector_type selector_value : pyval)
| CallWait (seconds : Z)
| CallExtractText (selector_type selector_value variable_name : pyval)
| CallScrollWindow (direction : pyval) (pixels : Z)
| CallAskUser (question : pyval).

(** What a run does to the outside, in order: operations entered and
    primitives of the driver, the clock and the console invoked. *)
Inductive event : Type :=
| EvCall (c : call)
| EvGet (url : pyval)
| EvWaitReady (timeout : Z)
| EvFind (c : wait_cond) (by_strategy : By) (value : pyval) (timeout : Z)
| EvScript (script : string) (args : list element)
| EvIsDisplayed (e : element)
| EvIsEnabled (e : element)
| EvClear (e : element)
| EvSendKeys (e : element) (k : keys)
| EvClick (e : element)
| EvText (e : element)
| EvGetAttribute (e : element) (name : string)
| EvSleep (millis : Z)
| EvInput (prompt : string).

(** The environment of an agent. Each primitive is total: it answers
    with a value or an exception, and with the next world. A bounded wait
    that runs out answers [TimeoutException]. [br_max_depth] is the
    number of containers a value can be nested in, below its outermost
    one, for the interpreter to render it: the room its recursion limit
    leaves (the few frames by which the calls of one run differ are not
    told apart). *)
Record Browser : Type := {
  World : Type;
  br_max_depth : nat;
  br_get : pyval -> World -> result unit * World;
  br_wait_ready : Z -> World -> result unit * World;
  br_find : wait_cond -> By -> pyval -> Z -> World -> result element * World;
  br_execute_script : string -> list element -> World -> result unit * World;
  br_is_displayed : element -> World -> result bool * World;
  br_is_enabled : element -> World -> result bool * World;
  br_clear : element -> World -> result unit * World;
  br_send_keys : element -> keys -> World -> result unit * World;
  br_click : element -> World -> result unit * World;
  br_text : element -> World -> result string * World;
  br_get_attribute : element -> string -> World -> result (option string) * World;
  br_input : string -> World -> result string * World
}.

(** Local variables of [execute_plan]. *)
Record locals : Type := Locals {
  executed_successfully : bool;
  error_message_for_llm : pyval
}.

(** How an iteration of the step loop ends: falls through to the next
    step, or [break]. *)
Inductive flow : Type := Next | Break.

(** What the [if]/[elif] chain of [execute_plan] leaves: [step_success]
    assigned from the operation it dispatched to, or (the [error] and the
    unknown-action branches) the message it stops with. *)
Inductive dispatched : Type :=
| Done (step_success : bool)
| Stop (message : pyval).

Definition is_call (ev : event) : bool :=
  match ev with EvCall _ => true | _ => false end.

(** Number of Action Library operations entered in a trace. *)
Definition call_count (t : list event) : nat := length (List.filter is_call t).

Definition is_submit (ev : event) : bool :=
  match ev with EvSendKeys _ KeysReturn => true | _ => false end.

Definition nonempty (s : string) : bool := negb (String.eqb s "").

(** Truth value of a [str] or [None]. *)
Definition opt_truthy (o : option string) : bool :=
  match o with
  | Some s => nonempty s
  | None => false
  end.

Definition strategies (name : string) : option By :=
  if String.eqb name "css" then Some ByCssSelector
  else if String.eqb name "xpath" then Some ByXpath
  else if String.eqb name "id" then Some ById
  else if String.eqb name "name" then Some ByName
  else if String.eqb name "link_text" then Some ByLinkText
  else if String.eqb name "partial_link_text" then Some ByPartialLinkText
  else if String.eqb name "tag_name" then Some ByTagName
  else None.

Definition newline : string := String (ascii_of_N 10) "".

Section Agent.

Variable B : Browser.

(** Session state of a [BrowserAgent]: the world its driver acts on,
    whether [self.driver] is set, [self.extracted_data], and the trace of
    events so far, most recent first. *)
Record state : Type := State {
  world : World B;
  driver_present : bool;
  extracted_data : gmap key pyval;
  trace : list event
}.

Definition set_world (w : World B) (s : state) : state :=
  State w (driver_present s) (extracted_data s) (trace s).

Definition set_extracted_data (d : gmap key pyval) (s : state) : state :=
  State (world s) (driver_present s) d (trace s).

Definition add_event (ev : event) (s : state) : state :=
  State (world s) (driver_present s) (extracted_data s) (ev :: trace s).

(** Computations of the agent: they thread the state and end with a
    value or a raised exception. The state changes made before an
    exception is raised stay. *)
Definition M (A : Type) : Type := state -> result A * state.

Definition ret {A} (a : A) : M A := fun s => (Ok a, s).

Definition raise {A} (e : exn) : M A := fun s => (Raise e, s).

Definition lift {A} (r : result A) : M A := fun s => (r, s).

Definition bind {A C} (m : M A) (f : A -> M C) : M C :=
  fun s =>
    match m s with
    | (Ok a, s') => f a s'
    | (Raise e, s') => (Raise e, s')
    end.

(** [try: body  except ... as e: handler e] *)
Definition try_except {A} (body : M A) (handler : exn -> M A) : M A :=
  fun s =>
    match body s with
    | (Ok a, s') => (Ok a, s')
    | (Raise e, s') => handler e s'
    end.

Notation "'let*' x ':=' m 'in' k" := (bind m (fun x => k))
  (at level 10, x name, m at level 100, k at level 200).

Definition log (ev : event) : M unit := fun s => (Ok tt, add_event ev s).

(** A primitive reached through [self.driver]: without a driver the
    attribute access on [None] raises before anything happens. *)
Definition driver_call {A} (attr : string) (ev : event)
    (f : World B -> result A * World B) : M A :=
  fun s =>
    if driver_present s then
      let (r, w) := f (world s) in (r, set_world w (add_event ev s))
    else
      (Raise (Exn AttributeError
                ("'NoneType' object has no attribute '" +:+ attr +:+ "'")), s).

(** A primitive of an element handle or of the console. *)
Definition world_call {A} (ev : event)
    (f : World B -> result A * World B) : M A :=
  fun s => let (r, w) := f (world s) in (r, set_world w (add_event ev s)).

(** [str(v)] of a value of the plan, as an f-string field renders it. *)
Definition str_fault (v : pyval) : option exn :=
  repr_fault (S (br_max_depth B)) v.

(** An f-string field [{v}]: nothing happens but what [str(v)] raises. *)
Definition fmt (v : pyval) : M unit :=
  fun s =>
    match str_fault v with
    | Some e => (Raise e, s)
    | None => (Ok tt, s)
    end.

(** [print(..., self.extracted_data)] *)
Definition print_store : M unit :=
  fun s =>
    match store_fault (br_max_depth B) (extracted_data s) with
    | Some e => (Raise e, s)
    | None => (Ok tt, s)
    end.

(** [time.sleep], for a length given in milliseconds. The length is
    converted to a signed 64-bit count of nanoseconds first: beyond
    9223372036 seconds either way that is an [OverflowError] (an
    [OtherError]); then a negative length is a [ValueError]. *)
Definition time_sleep (millis : Z) : M unit :=
  if 9223372036854 <? Z.abs millis then
    raise (Exn OtherError "timestamp too large to convert to C _PyTime_t")
  else if millis <? 0 then
    raise (Exn ValueError "sleep length must be non-negative")
  else log (EvSleep millis).

(** [self.extracted_data[k] = v] *)
Definition set_item (k v : pyval) : M unit :=
  let* h := lift (hash_key k) in
  fun s => (Ok tt, set_extracted_data (<[h := v]> (extracted_data s)) s).

Definition execute_script (script : string) (args : list element) : M unit :=
  driver_call "execute_script" (EvScript script args)
    (br_execute_script B script args).

(* ===================================================================== *)
(** ** Action Library *)
(* ===================================================================== *)

Definition get_by_strategy (selector_type : pyval) : M By :=
  let* name := lift (str_lower selector_type) in
  match strategies name with
  | Some strategy => ret strategy
  | None =>
      raise (Exn ValueError
               ("Unsupported selector type: " +:+ py_str selector_type))
  end.

Definition find_element (selector_type selector_value : pyval) : M element :=
  let* by_strategy := get_by_strategy selector_type in
  driver_call "find_element" (EvFind Presence by_strategy selector_value 10)
    (br_find B Presence by_strategy selector_value 10).

Definition find_clickable_element (selector_type selector_value : pyval)
    : M element :=
  let* by_strategy := get_by_strategy selector_type in
  driver_call "find_element" (EvFind Clickable by_strategy selector_value 10)
    (br_find B Clickable by_strategy selector_value 10).

Definition navigate (url : pyval) : M bool :=
  let* _ := log (EvCall (CallNavigate url)) in
  let* _ := fmt url in
  try_except
    (let* _ := driver_call "get" (EvGet url) (br_get B url) in
     let* _ := driver_call "execute_script" (EvWaitReady 15) (br_wait_ready B 15) in
     ret true)
    (fun e =>
       if is_instance e [TimeoutException] then
         let* _ := fmt url in
         ret false
       else
         let* _ := fmt url in
         ret false).

(** [not element.is_displayed() or not element.is_enabled()] *)
Definition not_interactable (e : element) : M bool :=
  let* displayed := world_call (EvIsDisplayed e) (br_is_displayed B e) in
  if negb displayed then ret true
  else
    let* enabled := world_call (EvIsEnabled e) (br_is_enabled B e) in
    ret (negb enabled).

(** Lines 98-106 of [type_text]: resolve the target and make sure it can
    be typed into, scrolling it into view once. *)
Definition typing_target (selector_type selector_value : pyval) : M element :=
  let* e := find_element selector_type selector_value in
  let* blocked := not_interactable e in
  let* _ :=
    (if blocked then
       let* _ := execute_script "arguments[0].scrollIntoView(true);" [e] in
       let* _ := time_sleep 500 in
       let* still_blocked := not_interactable e in
       if still_blocked then
         raise (Exn ElementNotInteractableException
                  ("Message: Element still not interactable after scroll"
                   +:+ newline))
       else ret tt
     else ret tt) in
  ret e.

(** Lines 108-112 of [type_text]: clear, inject the text, then the
    submit key when asked. *)
Definition inject (e : element) (text enter_after : pyval) : M bool :=
  let* _ := world_call (EvClear e) (br_clear B e) in
  let* _ := world_call (EvSendKeys e (KeysText text))
              (br_send_keys B e (KeysText text)) in
  let* _ :=
    (if truthy enter_after then
       world_call (EvSendKeys e KeysReturn) (br_send_keys B e KeysReturn)
     else ret tt) in
  ret true.

Definition type_text (selector_type selector_value text enter_after : pyval)
    : M bool :=
  let* _ := log (EvCall (CallTypeText selector_type selector_value text
                           enter_after)) in
  let* _ := fmt text in
  let* _ := fmt selector_type in
  let* _ := fmt selector_value in
  try_except
    (let* e := typing_target selector_type selector_value in
     inject e text enter_after)
    (fun e =>
       if is_instance e [TimeoutException; NoSuchElementException] then ret false
       else if is_instance e [ElementNotInteractableException] then ret false
       else ret false).

(** Lines 127-136 of [click_element]: the native click on the element
    once it is clickable, after an attempt to scroll it into view whose
    own faults are ignored. *)
Definition native_click (selector_type selector_value : pyval) : M bool :=
  let* e := find_clickable_element selector_type selector_value in
  let* _ :=
    try_except
      (let* _ := execute_script
                   "arguments[0].scrollIntoView({behavior: 'smooth', block: 'center'});"
                   [e] in
       time_sleep 500)
      (fun _ => ret tt) in
  let* _ := world_call (EvClick e) (br_click B e) in
  ret true.

(** Lines 143-149 of [click_element]: the script-driven click on the
    element found again by presence alone. *)
Definition js_click (selector_type selector_value : pyval) : M bool :=
  try_except
    (let* element_to_js_click := find_element selector_type selector_value in
     let* _ := execute_script "arguments[0].click();" [element_to_js_click] in
     ret true)
    (fun _ => ret false).

Definition click_element (selector_type selector_value : pyval) : M bool :=
  let* _ := log (EvCall (CallClickElement selector_type selector_value)) in
  let* _ := fmt selector_type in
  let* _ := fmt selector_value in
  try_except
    (native_click selector_type selector_value)
    (fun e =>
       if is_instance e [TimeoutException; NoSuchElementException] then ret false
       else if is_instance e [ElementNotInteractableException] then
         js_click selector_type selector_value
       else if is_instance e [StaleElementReferenceException] then ret false
       else ret false).

Definition wait (seconds : Z) : M bool :=
  let* _ := log (EvCall (CallWait seconds)) in
  let* _ := fmt (PInt seconds) in
  let* _ := time_sleep (1000 * seconds) in
  ret true.

(** [element.text or element.get_attribute("value")
     or element.get_attribute("innerText")] *)
Definition text_content (e : element) : M (option string) :=
  let* text := world_call (EvText e) (br_text B e) in
  if nonempty text then ret (Some text)
  else
    let* value := world_call (EvGetAttribute e "value")
                    (br_get_attribute B e "value") in
    if opt_truthy value then ret value
    else world_call (EvGetAttribute e "innerText")
           (br_get_attribute B e "innerText").

(** [text_content.strip() if text_content else ""] *)
Definition stripped (content : option string) : pyval :=
  match content with
  | Some s => if nonempty s then PStr (py_strip s) else PStr ""
  | None => PStr ""
  end.

Definition extract_text (selector_type selector_value variable_name : pyval)
    : M bool :=
  let* _ := log (EvCall (CallExtractText selector_type selector_value
                           variable_name)) in
  let* _ := fmt selector_type in
  let* _ := fmt selector_value in
  let* _ := fmt variable_name in
  try_except
    (let* e := find_element selector_type selector_value in
     let* content := text_content e in
     let* _ := set_item variable_name (stripped content) in
     let* _ := fmt variable_name in
     ret true)
    (fun e =>
       if is_instance e [TimeoutException; NoSuchElementException] then
         let* _ := set_item variable_name PNone in
         ret false
       else
         let* _ := set_item variable_name PNone in
         ret false).

(** [pixels if pixels else 'window.innerHeight'], rendered. *)
Definition scroll_amount (pixels : Z) : string :=
  if pixels =? 0 then "window.innerHeight" else @pretty Z _ pixels.

(** The f-string field [{pixels if pixels else 'window.innerHeight'}]. *)
Definition fmt_amount (pixels : Z) : M unit :=
  if pixels =? 0 then ret tt else fmt (PInt pixels).

Definition scroll_window (direction : pyval) (pixels : Z) : M bool :=
  let* _ := log (EvCall (CallScrollWindow direction pixels)) in
  let* _ := fmt direction in
  let* _ :=
    (if (py_eq_str direction "up" || py_eq_str direction "down")
        && negb (pixels =? 0)
     then fmt (PInt pixels) else ret tt) in
  let settle : M bool := (let* _ := time_sleep 500 in ret true) in
  try_except
    (let* d := lift (str_lower direction) in
     if String.eqb d "down" then
       let* _ := fmt_amount pixels in
       let* _ := execute_script
                   ("window.scrollBy(0, " +:+ scroll_amount pixels +:+ ");") [] in
       settle
     else if String.eqb d "up" then
       let* _ := fmt_amount pixels in
       let* _ := execute_script
                   ("window.scrollBy(0, -" +:+ scroll_amount pixels +:+ ");") [] in
       settle
     else if String.eqb d "to_bottom" then
       let* _ := execute_script
                   "window.scrollTo(0, document.body.scrollHeight);" [] in
       settle
     else if String.eqb d "to_top" then
       let* _ := execute_script "window.scrollTo(0, 0);" [] in
       settle
     else
       let* _ := fmt direction in
       ret false)
    (fun _ => ret false).

Definition ask_user (question : pyval) : M string :=
  let* _ := log (EvCall (CallAskUser question)) in
  let* _ := fmt question in
  world_call (EvInput "Your response: ") (br_input B "Your response: ").

(* ===================================================================== *)
(** ** Plan Interpreter *)
(* ===================================================================== *)

(** Lines 228-261 of [execute_plan]: the [if]/[elif] chain on [action].
    Arguments are evaluated left to right before the operation is
    entered. The answer of the operator, a [str], always renders. *)
Definition dispatch (i : nat) (step : pydict) (action : pyval) : M dispatched :=
  if py_eq_str action "navigate" then
    let url := dict_get step "url" PNone in
    if negb (truthy url) then
      raise (Exn ValueError "'url' missing for navigate action.")
    else
      let* step_success := navigate url in
      ret (Done step_success)
  else if py_eq_str action "type" then
    let* selector_type := lift (dict_item step "selector_type") in
    let* selector_value := lift (dict_item step "selector_value") in
    let* text := lift (dict_item step "text") in
    let* step_success :=
      type_text selector_type selector_value text
        (dict_get step "enter_after" (PBool false)) in
    ret (Done step_success)
  else if py_eq_str action "click" then
    let* selector_type := lift (dict_item step "selector_type") in
    let* selector_value := lift (dict_item step "selector_value") in
    let* step_success := click_element selector_type selector_value in
    ret (Done step_success)
  else if py_eq_str action "wait" then
    let* seconds := lift (dict_item step "seconds") in
    let* seconds := lift (py_int seconds) in
    let* step_success := wait seconds in
    ret (Done step_success)
  else if py_eq_str action "extract_text" then
    let* selector_type := lift (dict_item step "selector_type") in
    let* selector_value := lift (dict_item step "selector_value") in
    let* variable_name := lift (dict_item step "variable_name") in
    let* step_success :=
      extract_text selector_type selector_value variable_name in
    ret (Done step_success)
  else if py_eq_str action "scroll" then
    let direction := dict_get step "direction" (PStr "down") in
    let* pixels := lift (py_int (dict_get step "pixels" (PInt 0))) in
    let* step_success := scroll_window direction pixels in
    ret (Done step_success)
  else if py_eq_str action "ask_user" then
    let* question := lift (dict_item step "question") in
    let* user_response := ask_user question in
    let* _ :=
      set_item (PStr ("user_response_to_" +:+ @pretty Z _ (Z.of_nat i + 1)))
        (PStr user_response) in
    ret (Done true)
  else if py_eq_str action "error" then
    let* _ := fmt (dict_get step "message" PNone) in
    ret (Stop (dict_get step "message" PNone))
  else
    let* _ := fmt action in
    let* _ := fmt action in
    ret (Stop (PStr ("Unknown action '" +:+ py_str action +:+ "' in plan."))).

Definition failed_message (action : pyval) (step : pydict) : pyval :=
  PStr ("Action '" +:+ py_str action +:+ "' failed. Params: "
        +:+ dict_str step +:+ ".").

(** Lines 227-271: the body of the [try] of one iteration. *)
Definition step_try (i : nat) (step : pydict) (action : pyval) (loc : locals)
    : M (flow * locals) :=
  let* d := dispatch i step action in
  match d with
  | Stop message => ret (Break, Locals false message)
  | Done step_success =>
      if negb step_success then
        let* _ := fmt action in
        let* _ := fmt (PDict step) in
        ret (Break, Locals false (failed_message action step))
      else
        let* _ := time_sleep 1000 in
        ret (Next, loc)
  end.

(** What the three [except] clauses of the step loop leave in the
    locals. *)
Definition handler_locals (action : pyval) (e : exn) : locals :=
  if is_instance e [KeyError] then
    Locals false
      (PStr ("Missing parameter for action '" +:+ py_str action +:+ "': "
             +:+ exn_text e +:+ "."))
  else if is_instance e [ValueError] then
    Locals false
      (PStr ("Invalid parameter for action '" +:+ py_str action +:+ "': "
             +:+ exn_text e +:+ "."))
  else
    Locals false
      (PStr ("Unexpected error during action '" +:+ py_str action +:+ "': "
             +:+ exn_text e +:+ ".")).

(** Lines 273-287: an [except] clause of the step loop. Each renders
    [action] for what it prints and again for the message. *)
Definition step_handler (action : pyval) (e : exn) : M locals :=
  let* _ := fmt action in
  let* _ := fmt action in
  ret (handler_locals action e).

(** Line 225: the announcement of a step, which renders its action and
    the whole record. The number of the step and the length of the plan,
    machine-size integers, always render. *)
Definition announce (step : pydict) (action : pyval) : M unit :=
  let* _ := fmt action in
  fmt (PDict step).

(** One iteration of [for i, step in enumerate(plan)]. The announcement
    stands before the [try]. *)
Definition step_body (i : nat) (step : pydict) (loc : locals)
    : M (flow * locals) :=
  let action := dict_get step "action" PNone in
  let* _ := announce step action in
  try_except
    (step_try i step action loc)
    (fun e =>
       let* loc' := step_handler action e in
       ret (Break, loc')).

Fixpoint run_steps (i : nat) (steps : plan) (loc : locals) : M locals :=
  match steps with
  | [] => ret loc
  | step :: rest =>
      let* r := step_body i step loc in
      match r with
      | (Break, loc') => ret loc'
      | (Next, loc') => run_steps (S i) rest loc'
      end
  end.

(** Lines 289-295: the report that follows the loop. *)
Definition report (loc : locals) : M unit :=
  let* _ :=
    (if executed_successfully loc then ret tt
     else fmt (error_message_for_llm loc)) in
  print_store.

Definition execute_plan (p : plan) (current_instruction : string)
    : M (bool * pyval) :=
  fun s =>
    if negb (driver_present s) then
      (Ok (false, PStr "Browser not initialized."), s)
    else
      (let* loc := run_steps 0 p (Locals true PNone) in
       let* _ := report loc in
       ret (executed_successfully loc, error_message_for_llm loc)) s.

(** The steps of a plan, from index [i] and state [s], are all
    announced and dispatched to an operation that reports success; [s']
    is the state after the pause that follows the last of them. *)
Inductive all_succeed : nat -> plan -> state -> state -> Prop :=
| all_succeed_nil i s : all_succeed i [] s s
| all_succeed_cons i step rest s s1 s2 s' :
    str_fault (PDict step) = None ->
    dispatch i step (dict_get step "action" PNone) s = (Ok (Done true), s1) ->
    time_sleep 1000 s1 = (Ok tt, s2) ->
    all_succeed (S i) rest s2 s' ->
    all_succeed i (step :: rest) s s'.

End Agent.

Arguments State {B} _ _ _ _.
Arguments world {B} _.
Arguments driver_present {B} _.
Arguments extracted_data {B} _.
Arguments trace {B} _.

(* ===================================================================== *)
(** ** Fake drivers *)
(* ===================================================================== *)

(** A stateless fake driver, configured by what it answers. Navigation,
    scripts and [clear] always work; every element is enabled. *)
Record fake_config : Type := {
  fk_find : wait_cond -> pyval -> result element;
  fk_displayed : bool;
  fk_send_keys : keys -> result unit;
  fk_click : result unit;
  fk_text : string;
  fk_value : option string;
  fk_inner_text : option string;
  fk_input : string
}.

Definition fake (c : fake_config) : Browser := {|
  World := unit;
  br_max_depth := 100;
  br_get := fun _ w => (Ok tt, w);
  br_wait_ready := fun _ w => (Ok tt, w);
  br_find := fun cond _ value _ w => (fk_find c cond value, w);
  br_execute_script := fun _ _ w => (Ok tt, w);
  br_is_displayed := fun _ w => (Ok (fk_displayed c), w);
  br_is_enabled := fun _ w => (Ok true, w);
  br_clear := fun _ w => (Ok tt, w);
  br_send_keys := fun _ k w => (fk_send_keys c k, w);
  br_click := fun _ w => (fk_click c, w);
  br_text := fun _ w => (Ok (fk_text c), w);
  br_get_attribute := fun _ name w =>
    (Ok (if String.eqb name "value" then fk_value c else fk_inner_text c), w);
  br_input := fun _ w => (Ok (fk_input c), w)
|}.

(** The driver on which everything succeeds; elements show [text]. *)
Definition cooperative (text : string) : fake_config := {|
  fk_find := fun _ _ => Ok 7%nat;
  fk_displayed := true;
  fk_send_keys := fun _ => Ok tt;
  fk_click := Ok tt;
  fk_text := text;
  fk_value := None;
  fk_inner_text := None;
  fk_input := "yes"
|}.

(** No selector resolves: every bounded wait runs out. *)
Definition timing_out : fake_config := {|
  fk_find := fun _ _ => Raise (Exn TimeoutException ("Message: " +:+ newline));
  fk_displayed := true;
  fk_send_keys := fun _ => Ok tt;
  fk_click := Ok tt;
  fk_text := "";
  fk_value := None;
  fk_inner_text := None;
  fk_input := "yes"
|}.

(** Elements resolve but are not displayed, before and after a scroll. *)
Definition hidden : fake_config := {|
  fk_find := fun _ _ => Ok 7%nat;
  fk_displayed := false;
  fk_send_keys := fun _ => Ok tt;
  fk_click := Ok tt;
  fk_text := "";
  fk_value := None;
  fk_inner_text := None;
  fk_input := "yes"
|}.

(** The native click raises [fault]; a presence-only lookup answers
    [refound]. *)
Definition click_blocked (fault : exn_class) (refound : result element)
    : fake_config := {|
  fk_find := fun cond _ =>
    match cond with Clickable => Ok 7%nat | Presence => refound end;
  fk_displayed := true;
  fk_send_keys := fun _ => Ok tt;
  fk_click := Raise (Exn fault ("Message: " +:+ newline));
  fk_text := "";
  fk_value := None;
  fk_inner_text := None;
  fk_input := "yes"
|}.

(** Text injection raises; the submit key would be accepted. *)
Definition typing_rejected : fake_config := {|
  fk_find := fun _ _ => Ok 7%nat;
  fk_displayed := true;
  fk_send_keys := fun k =>
    match k with
    | KeysText _ => Raise (Exn OtherError ("Message: invalid element state" +:+ newline))
    | KeysReturn => Ok tt
    end;
  fk_click := Ok tt;
  fk_text := "";
  fk_value := None;
  fk_inner_text := None;
  fk_input := "yes"
|}.

(** A fresh session on a fake driver. *)
Definition new_session (c : fake_config) : state (fake c) :=
  State (B := fake c) tt true ∅ [].

(** A session whose browser was closed ([self.driver = None]). *)
Definition closed_session (c : fake_config) : state (fake c) :=
  State (B := fake c) tt false ∅ [].


Definition navigate_step : pydict :=
  [("action", PStr "navigate"); ("url", PStr "https://example.test")].

Definition type_step : pydict :=
  [("action", PStr "type"); ("selector_type", PStr "name");
   ("selector_value", PStr "q"); ("text", PStr "hello");
   ("enter_after", PBool true)].

Definition wait_step (seconds : pyval) : pydict :=
  [("action", PStr "wait"); ("seconds", seconds)].

Definition extract_step : pydict :=
  [("action", PStr "extract_text"); ("selector_type", PStr "xpath");
   ("selector_value", PStr "//h1"); ("variable_name", PStr "title")].

Definition click_step : pydict :=
  [("action", PStr "click"); ("selector_type", PStr "css");
   ("selector_value", PStr "#go")].


(** An [error] record without its [message] field. *)
Definition bare_error_step : pydict := [("action", PStr "error")].

(** The plan of the end-to-end scenario. *)
Definition scenario_plan : plan :=
  [navigate_step; type_step; wait_step (PInt 1); extract_step].

(* ===================================================================== *)
(** ** Session lifecycle *)
(* ===================================================================== *)

(** The browsers [_initialize_driver] knows how to start. *)
Inductive driver_kind : Type := ChromeDriver | FirefoxDriver.

Section Lifecycle.

Variable B : Browser.

(** [webdriver.Chrome(options=...)] or [webdriver.Firefox(options=...)]:
    the world with the started browser, or the exception of the start. *)
Variable launch : driver_kind -> result (World B).

(** [self.driver.implicitly_wait(seconds)] *)
Variable implicitly_wait : Z -> World B -> result unit * World B.

(** [self.driver.quit()] *)
Variable quit : World B -> result unit * World B.

(** [BrowserAgent()]: [__init__] with [_initialize_driver], for the value
    of [config.SELENIUM_DRIVER_TYPE]. Every exception of the start is
    printed and raised again, so no agent is built then. *)
Definition new_agent (SELENIUM_DRIVER_TYPE : string) : result (state B) :=
  let driver_type := py_lower SELENIUM_DRIVER_TYPE in
  let started :=
    if String.eqb driver_type "chrome" then launch ChromeDriver
    else if String.eqb driver_type "firefox" then launch FirefoxDriver
    else Raise (Exn ValueError
                  ("Unsupported driver type: " +:+ SELENIUM_DRIVER_TYPE)) in
  match started with
  | Ok w =>
      match implicitly_wait 5 w with
      | (Ok _, w') => Ok (State w' true ∅ [])
      | (Raise e, _) => Raise e
      end
  | Raise e => Raise e
  end.

(** The browser [_initialize_driver] leaves behind when it raises: the
    one that had started when the implicit wait raised, in the world the
    failed wait left. The exception is raised again, so no agent holds
    that browser. *)
Definition left_running (SELENIUM_DRIVER_TYPE : string) : option (World B) :=
  let driver_type := py_lower SELENIUM_DRIVER_TYPE in
  let started :=
    if String.eqb driver_type "chrome" then launch ChromeDriver
    else if String.eqb driver_type "firefox" then launch FirefoxDriver
    else Raise (Exn ValueError
                  ("Unsupported driver type: " +:+ SELENIUM_DRIVER_TYPE)) in
  match started with
  | Ok w =>
      match implicitly_wait 5 w with
      | (Ok _, _) => None
      | (Raise _, w') => Some w'
      end
  | Raise _ => None
  end.

(** [try: body  finally: final] *)
Definition try_finally {A} (body : M B A) (final : M B unit) : M B A :=
  fun s =>
    let (r, s1) := body s in
    match final s1 with
    | (Ok _, s2) => (r, s2)
    | (Raise e, s2) => (Raise e, s2)
    end.

(** [self.driver = None] *)
Definition release_driver : M B unit :=
  fun s => (Ok tt, State (world s) false (extracted_data s) (trace s)).

(** [close_browser]: quits the driver when there is one, ignoring the
    fault of the quit, and forgets it in every case. The quit is not an
    event of the trace. *)
Definition close_browser : M B unit :=
  fun s =>
    if driver_present s then
      try_finally
        (try_except B
           (fun s0 => let (r, w) := quit (world s0) in (r, set_world B w s0))
           (fun _ => ret B tt))
        release_driver s
    else (Ok tt, s).

End Lifecycle.

(* ===================================================================== *)
(** ** The table of common sites ([common_sites.py]) *)
(* ===================================================================== *)

Definition FAMOUS_SITES : list (string * string) :=
  [ ("google", "https://www.google.com");
    ("youtube", "https://www.youtube.com");
    ("wikipedia", "https://www.wikipedia.org");
    ("amazon", "https://www.amazon.com");
    ("facebook", "https://www.facebook.com");
    ("twitter", "https://www.twitter.com");
    ("x", "https://www.x.com");
    ("github", "https://www.github.com");
    ("linkedin", "https://www.linkedin.com");
    ("reddit", "https://www.reddit.com");
    ("bbc news", "https://www.bbc.com/news");
    ("cnn", "https://www.cnn.com");
    ("nytimes", "https://www.nytimes.com");
    ("openai", "https://www.openai.com");
    ("hugging face", "https://huggingface.co") ].

(** [table.get(k)] on a table of strings. *)
Fixpoint table_get (k : string) (table : list (string * string))
    : option string :=
  match table with
  | [] => None
  | (k', v) :: rest => if String.eqb k k' then Some v else table_get k rest
  end.

(** [get_url_for_site] *)
Definition get_url_for_site (site_name : string) : option string :=
  table_get (py_lower site_name) FAMOUS_SITES.

(* ===================================================================== *)
(** ** Configuration ([config.py]) and its checks *)
(* ===================================================================== *)

(** The module [config]: the keys are what [os.getenv] gave, a string or
    [None]. *)
Record config : Type := Config {
  LLM_PROVIDER : string;
  GEMINI_MODEL_NAME : string;
  GROQ_MODEL_NAME : string;
  GOOGLE_API_KEY : option string;
  GROQ_API_KEY : option string;
  SELENIUM_DRIVER_TYPE : string;
  MAX_RETRIES_LLM : Z;
  MAX_STEPS_PER_PLAN : Z
}.

(** [check_api_keys] of [main.py]. *)
Definition check_api_keys (c : config) : bool :=
  if String.eqb (LLM_PROVIDER c) "gemini"
     && negb (opt_truthy (GOOGLE_API_KEY c)) then false
  else if String.eqb (LLM_PROVIDER c) "groq"
          && negb (opt_truthy (GROQ_API_KEY c)) then false
  else true.

(** The client [llm_handler.py] builds when it is imported. *)
Inductive llm_client : Type :=
| GeminiModel (api_key model_name : string)
| GroqClient (api_key : string).

(** Lines 15-27 of [llm_handler.py], run at import. *)
Definition configure_llm (c : config) : result llm_client :=
  if String.eqb (LLM_PROVIDER c) "gemini" then
    match GOOGLE_API_KEY c with
    | Some k =>
        if nonempty k then Ok (GeminiModel k (GEMINI_MODEL_NAME c))
        else Raise (Exn ValueError
                      "GOOGLE_API_KEY not found in .env file. Please add it.")
    | None =>
        Raise (Exn ValueError
                 "GOOGLE_API_KEY not found in .env file. Please add it.")
    end
  else if String.eqb (LLM_PROVIDER c) "groq" then
    match GROQ_API_KEY c with
    | Some k =>
        if nonempty k then Ok (GroqClient k)
        else Raise (Exn ValueError
                      "GROQ_API_KEY not found in .env file. Please add it.")
    | None =>
        Raise (Exn ValueError
                 "GROQ_API_KEY not found in .env file. Please add it.")
    end
  else
    Raise (Exn ValueError
             ("Unsupported LLM_PROVIDER: " +:+ LLM_PROVIDER c
              +:+ ". Choose 'gemini' or 'groq'.")).

(** The values of [config.py], for keys [google_key] and [groq_key] of
    the environment. *)
Definition repository_config (google_key groq_key : option string) : config :=
  {| LLM_PROVIDER := "gemini";
     GEMINI_MODEL_NAME := "gemini-1.5-flash-latest";
     GROQ_MODEL_NAME := "llama3-8b-8192";
     GOOGLE_API_KEY := google_key;
     GROQ_API_KEY := groq_key;
     SELENIUM_DRIVER_TYPE := "Chrome";
     MAX_RETRIES_LLM := 2;
     MAX_STEPS_PER_PLAN := 15 |}.

(* ===================================================================== *)
(** ** Cleaning the output of the language model *)
(* ===================================================================== *)

(** [s.startswith(p)] *)
Fixpoint starts_with (p s : string) : bool :=
  match p, s with
  | EmptyString, _ => true
  | String a p', String b s' => Ascii.eqb a b && starts_with p' s'
  | String _ _, EmptyString => false
  end.

(** [s[n:]] *)
Fixpoint str_drop (n : nat) (s : string) : string :=
  match n, s with
  | O, _ => s
  | S n', String _ s' => str_drop n' s'
  | S _, EmptyString => EmptyString
  end.

(** [s[:n]] *)
Fixpoint str_take (n : nat) (s : string) : string :=
  match n, s with
  | O, _ => EmptyString
  | S n', String a s' => String a (str_take n' s')
  | S _, EmptyString => EmptyString
  end.

(** [s.endswith(p)] *)
Definition ends_with (p s : string) : bool :=
  (String.length p <=? String.length s)%nat
  && String.eqb (str_drop (String.length s - String.length p) s) p.

(** [s[:-n]] for a positive [n]. *)
Definition str_drop_last (n : nat) (s : string) : string :=
  str_take (String.length s - n) s.

Definition json_fence : string := "```json".
Definition fence : string := "```".

(** Lines 153-158 of [generate_plan_from_instruction]: the answer without
    the markdown fence some models wrap it in. *)
Definition clean_output (raw_llm_output : string) : string :=
  let cleaned_output := py_strip raw_llm_output in
  let cleaned_output :=
    if starts_with json_fence cleaned_output then str_drop 7 cleaned_output
    else cleaned_output in
  let cleaned_output :=
    if ends_with fence cleaned_output then str_drop_last 3 cleaned_output
    else cleaned_output in
  py_strip cleaned_output.

Fixpoint all_space (s : string) : bool :=
  match s with
  | EmptyString => true
  | String c rest => is_space c && all_space rest
  end.

(* ===================================================================== *)
(** ** The planner ([llm_handler.py]) *)
(* ===================================================================== *)

(** What the [try] of [generate_plan_from_instruction] can raise, as its
    two [except] clauses tell it apart: a [json.JSONDecodeError], or any
    other [Exception]; with [str(e)]. *)
Inductive plan_fault : Type :=
| JSONDecodeError (text : string)
| OtherException (text : string).

Inductive outcome (A : Type) : Type :=
| Returned (a : A)
| Faulted (f : plan_fault).
Arguments Returned {A} a.
Arguments Faulted {A} f.

(** What the code reads of a response of Gemini: whether it has a
    candidate with parts, the block reason of its prompt feedback (when
    both are set), and [response.text]. *)
Record gemini_response : Type := {
  has_parts : bool;
  block_reason : option string;
  response_text : outcome string
}.

(** What a run of the planner does to the outside, most recent first. *)
Inductive plan_event : Type :=
| LlmCall (prompt : string)
| PlanSleep (seconds : Z).

(** The environment of the planner: the two model services, the text
    [get_system_prompt] returns (it depends on the day), and [json]. *)
Record Planner : Type := {
  PWorld : Type;
  get_system_prompt : string;
  gemini_generate_content :
    string -> PWorld -> outcome gemini_response * PWorld;
  groq_create : string -> string -> PWorld -> outcome (option string) * PWorld;
  json_loads : string -> outcome pyval;
  json_dumps : list pydict -> string
}.

(** The plan of one [error] record the planner returns in place of a
    plan. *)
Definition error_plan (message : string) : plan :=
  [[("action", PStr "error"); ("message", PStr message)]].

(** ["action" in step] *)
Definition has_action (step : pydict) : bool :=
  match dict_find "action" step with
  | Some _ => true
  | None => false
  end.

(** Lines 165-167: every step is a [dict] with an ["action"] key. *)
Fixpoint validate_steps (steps : list pyval) : option plan :=
  match steps with
  | [] => Some []
  | PDict d :: rest =>
      if has_action d then option_map (cons d) (validate_steps rest)
      else None
  | _ :: _ => None
  end.

(** [range(n)] *)
Definition py_range (n : Z) : list Z := map Z.of_nat (seq 0 (Z.to_nat n)).

(** How the body of the [try] ends: with a [return], or with a fault. *)
Inductive attempt_end : Type :=
| Plan (steps : plan)
| Fault (f : plan_fault).

Section Planning.

Variable P : Planner.
Variable c : config.

Record pstate : Type := PState {
  pworld : PWorld P;
  plog : list plan_event
}.

(** Lines 112-117: the prompt. *)
Definition full_prompt (instruction : string)
    (previous_actions : option (list pydict)) (error_context : option string)
    : string :=
  get_system_prompt P +:+ newline +:+ newline +:+ "User Instruction: "
  +:+ String dquote instruction +:+ String dquote ""
  +:+ (match previous_actions with
       | Some (step :: rest) =>
           newline +:+ newline
           +:+ "Previous Actions History (for context, if relevant for re-planning):"
           +:+ newline +:+ json_dumps P (step :: rest)
       | _ => ""
       end)
  +:+ (if opt_truthy error_context then
         newline +:+ newline +:+ "Error Context from previous attempt: "
         +:+ match error_context with Some e => e | None => "" end
       else "")
  +:+ newline +:+ newline +:+ "JSON Plan:".

(** Lines 153-168: clean, parse and validate an answer. *)
Definition parse_plan (raw_llm_output : string) : attempt_end :=
  match json_loads P (clean_output raw_llm_output) with
  | Faulted f => Fault f
  | Returned (PList steps) =>
      match validate_steps steps with
      | Some p => Plan p
      | None =>
          Fault (OtherException
                   "Invalid step structure in LLM output: missing 'action' key.")
      end
  | Returned _ => Fault (OtherException "LLM output is not a JSON list.")
  end.

(** Lines 149-168, for the value [raw_llm_output] has by then. *)
Definition use_answer (raw_llm_output : option string) : attempt_end :=
  match raw_llm_output with
  | Some text =>
      if nonempty text then parse_plan text
      else Fault (OtherException "LLM returned empty content.")
  | None => Fault (OtherException "LLM returned empty content.")
  end.

(** Lines 121-168: the body of the [try] of one attempt. It also gives
    the value of the variable [raw_llm_output] when it ends. *)
Definition attempt_body (prompt instruction : string)
    (raw_llm_output : option string) (s : pstate)
    : attempt_end * option string * pstate :=
  if String.eqb (LLM_PROVIDER c) "gemini" then
    let (r, w) := gemini_generate_content P prompt (pworld s) in
    let s' := PState w (LlmCall prompt :: plog s) in
    match r with
    | Faulted f => (Fault f, raw_llm_output, s')
    | Returned response =>
        if negb (has_parts response) then
          match block_reason response with
          | Some reason =>
              (Plan (error_plan ("LLM generation blocked: " +:+ reason)),
               raw_llm_output, s')
          | None =>
              (Plan (error_plan "LLM generation failed (empty response)."),
               raw_llm_output, s')
          end
        else
          match response_text response with
          | Faulted f => (Fault f, raw_llm_output, s')
          | Returned text => (use_answer (Some text), Some text, s')
          end
    end
  else if String.eqb (LLM_PROVIDER c) "groq" then
    let user :=
      "User Instruction: " +:+ String dquote instruction +:+ String dquote ""
      +:+ newline +:+ "JSON Plan:" in
    let (r, w) := groq_create P (get_system_prompt P) user (pworld s) in
    let s' := PState w (LlmCall user :: plog s) in
    match r with
    | Faulted f => (Fault f, raw_llm_output, s')
    | Returned content => (use_answer content, content, s')
    end
  else (use_answer raw_llm_output, raw_llm_output, s).

Definition plan_sleep (seconds : Z) (s : pstate) : pstate :=
  PState (pworld s) (PlanSleep seconds :: plog s).

(** Lines 120-182: the attempts still to make, in order. *)
Fixpoint attempts (prompt instruction : string) (todo : list Z)
    (raw_llm_output : option string) (s : pstate) : plan * pstate :=
  match todo with
  | [] => (error_plan "LLM failed to generate a valid plan.", s)
  | attempt :: rest =>
      let '(e, raw, s') := attempt_body prompt instruction raw_llm_output s in
      match e with
      | Plan steps => (steps, s')
      | Fault (JSONDecodeError _) =>
          if attempt =? MAX_RETRIES_LLM c - 1 then
            (error_plan "Failed to parse LLM JSON output after multiple retries.",
             s')
          else attempts prompt instruction rest raw (plan_sleep 1 s')
      | Fault (OtherException text) =>
          if attempt =? MAX_RETRIES_LLM c - 1 then
            (error_plan ("An unexpected error occurred with the LLM: " +:+ text),
             s')
          else attempts prompt instruction rest raw (plan_sleep 1 s')
      end
  end.

Definition generate_plan_from_instruction (instruction : string)
    (previous_actions : option (list pydict)) (error_context : option string)
    (s : pstate) : plan * pstate :=
  attempts (full_prompt instruction previous_actions error_context)
    instruction (py_range (MAX_RETRIES_LLM c)) None s.

End Planning.

Arguments PState {P} _ _.
Arguments pworld {P} _.
Arguments plog {P} _.

Definition is_llm_call (ev : plan_event) : bool :=
  match ev with LlmCall _ => true | PlanSleep _ => false end.

(** Number of requests to a model in a log. *)
Definition llm_calls (log : list plan_event) : nat :=
  length (List.filter is_llm_call log).

(* ===================================================================== *)
(** ** The operator loop ([main.py]) *)
(* ===================================================================== *)

(** How an iteration of [while True] ends: [continue] (or the end of the
    body), or [break]. *)
Inductive loop_flow : Type := Continue | BreakLoop.

Definition instruction_prompt : string :=
  newline
  +:+ "Enter your instruction (or type 'exit' to quit, 'clear' to reset history):"
  +:+ newline +:+ "> ".

Definition long_plan_prompt : string :=
  "Continue with this long plan? (yes/no): ".

Definition execute_prompt : string :=
  "Do you want to execute this plan? (yes/no): ".

Definition finished_prompt : string :=
  "Execution finished. Press Enter to continue...".

(** [answer in ['yes', 'y']] *)
Definition is_yes (answer : string) : bool :=
  String.eqb answer "yes" || String.eqb answer "y".

(** Line 50 of [main.py], for a plan of the planner: the plan is empty or
    the action of its first record is missing or false. *)
Definition invalid_plan (p : plan) : bool :=
  match p with
  | [] => true
  | first :: _ => negb (truthy (dict_get first "action" PNone))
  end.

(** Line 56: the first record is an [error] record. *)
Definition starts_with_error (p : plan) : bool :=
  match p with
  | [] => false
  | first :: _ => py_eq_str (dict_get first "action" PNone) "error"
  end.

(** [plan[0].get('message')] of line 57, for a plan with a first
    record. *)
Definition first_message (p : plan) : pyval :=
  match p with
  | [] => PNone
  | first :: _ => dict_get first "message" PNone
  end.

(** How [main] ends. *)
Inductive main_end (B : Browser) : Type :=
| KeysMissing
    (* line 26: the key of the provider is not set *)
| NotBuilt (e : exn) (running : option (World B))
    (* [BrowserAgent()] raised [e]; the browser it had started by then,
       if any, as it is left *)
| ShutDown (r : result unit) (s : state B).
    (* the loop ended, by [exit] or with an exception, and the [finally]
       clause closed the browser of the agent *)

Arguments KeysMissing {B}.
Arguments NotBuilt {B} _ _.
Arguments ShutDown {B} _ _.

Section Main.

Variable B : Browser.
Variable P : Planner.
Variable c : config.
Variable launch : driver_kind -> result (World B).
Variable implicitly_wait : Z -> World B -> result unit * World B.
Variable quit : World B -> result unit * World B.

(** [json.dumps(plan, indent=2)] of line 54: the exception it ends
    with, if any (for a plan of records: an integer of more than 4300
    digits, or a nesting too deep for the encoder). *)
Variable dumps_fault : plan -> option exn.

(** What [main] holds while it runs: the agent, the world of the planner
    and [previous_actions_history]. *)
Record session : Type := Session {
  agent : state B;
  planner : pstate P;
  previous_actions_history : list pydict
}.

(** [input(prompt)] *)
Definition console_input (prompt : string) (m : session)
    : result string * session :=
  let (r, s) := world_call B (EvInput prompt) (br_input B prompt) (agent m) in
  (r, Session s (planner m) (previous_actions_history m)).

(** Lines 68-88: ask for the confirmation and execute the plan. *)
Definition confirm_and_execute (p : plan) (instruction : string) (m : session)
    : result loop_flow * session :=
  match console_input execute_prompt m with
  | (Raise e, m1) => (Raise e, m1)
  | (Ok confirm, m1) =>
      if is_yes (py_lower confirm) then
        match execute_plan B p instruction (agent m1) with
        | (Raise e, s) =>
            (Raise e, Session s (planner m1) (previous_actions_history m1))
        | (Ok (success, error_message), s) =>
            (* line 76 renders the message before the plan is added to
               the history *)
            match (if success then None else str_fault B error_message) with
            | Some e =>
                (Raise e,
                 Session s (planner m1) (previous_actions_history m1))
            | None =>
                let m2 :=
                  Session s (planner m1) (previous_actions_history m1 ++ p) in
                match console_input finished_prompt m2 with
                | (Raise e, m3) => (Raise e, m3)
                | (Ok _, m3) => (Ok Continue, m3)
                end
            end
        end
      else (Ok Continue, m1)
  end.

(** Lines 34-88: one iteration of the loop of [main]. *)
Definition main_iteration (m : session) : result loop_flow * session :=
  match console_input instruction_prompt m with
  | (Raise e, m1) => (Raise e, m1)
  | (Ok instruction, m1) =>
      if negb (nonempty (py_strip instruction)) then (Ok Continue, m1)
      else if String.eqb (py_lower instruction) "exit" then (Ok BreakLoop, m1)
      else if String.eqb (py_lower instruction) "clear" then
        (Ok Continue,
         Session (set_extracted_data B ∅ (agent m1)) (planner m1) [])
      else
        let (p, ps) :=
          generate_plan_from_instruction P c instruction None None
            (planner m1) in
        let m2 := Session (agent m1) ps (previous_actions_history m1) in
        if invalid_plan p then (Ok Continue, m2)
        else
          match dumps_fault p with
          | Some e => (Raise e, m2)
          | None =>
              if starts_with_error p then
                match str_fault B (first_message p) with
                | Some e => (Raise e, m2)
                | None => (Ok Continue, m2)
                end
              else if Z.of_nat (length p) >? MAX_STEPS_PER_PLAN c then
                match console_input long_plan_prompt m2 with
                | (Raise e, m3) => (Raise e, m3)
                | (Ok confirm_long_plan, m3) =>
                    if is_yes (py_lower confirm_long_plan) then
                      confirm_and_execute p instruction m3
                    else (Ok Continue, m3)
                end
              else confirm_and_execute p instruction m2
          end
  end.

(** The loop of [main], for at most [fuel] iterations: [None] when the
    operator has not left by then. *)
Fixpoint main_loop (fuel : nat) (m : session)
    : option (result unit * session) :=
  match fuel with
  | O => None
  | S fuel' =>
      match main_iteration m with
      | (Raise e, m1) => Some (Raise e, m1)
      | (Ok BreakLoop, m1) => Some (Ok tt, m1)
      | (Ok Continue, m1) => main_loop fuel' m1
      end
  end.

(** [main]: how it ends, for a loop of at most [fuel] iterations ([None]
    when the operator has not left by then). The [except] clause of
    [main] swallows every exception of [BrowserAgent()] and of the loop;
    the [finally] clause closes the browser of the agent when one was
    built, and does nothing when [browser_agent] is still [None]. *)
Definition main (fuel : nat) (ps : pstate P) : option (main_end B) :=
  if negb (check_api_keys c) then Some KeysMissing
  else
    match new_agent B launch implicitly_wait (SELENIUM_DRIVER_TYPE c) with
    | Raise e =>
        Some (NotBuilt e
                (left_running B launch implicitly_wait
                   (SELENIUM_DRIVER_TYPE c)))
    | Ok s =>
        match main_loop fuel (Session s ps []) with
        | None => None
        | Some (r, m) => Some (ShutDown r (snd (close_browser B quit (agent m))))
        end
    end.

End Main.

Arguments Session {B P} _ _ _.
Arguments agent {B P} _.
Arguments planner {B P} _.
Arguments previous_actions_history {B P} _.

(* ===================================================================== *)
(** ** Properties *)
(* ===================================================================== *)

(** A verdict is coherent when it is a success exactly if it carries no
    message. *)
Definition coherent (verdict : bool * pyval) : Prop :=
  fst verdict = true <-> snd verdict = PNone.

(** The lower-cased direction is none of the four [scroll_window] knows;
    a direction that is not a [str] has no lower-cased form. *)
Definition unknown_direction (direction : pyval) : bool :=
  match str_lower direction with
  | Ok d =>
      negb (String.eqb d "down" || String.eqb d "up"
            || String.eqb d "to_bottom" || String.eqb d "to_top")
  | Raise _ => true
  end.

(** The first non-empty of the three sources [extract_text] reads. *)
Definition first_nonempty (text : string) (value inner_text : option string)
    : option string :=
  if nonempty text then Some text
  else if opt_truthy value then value
  else if opt_truthy inner_text then inner_text
  else None.


Definition is_ok {A} (r : result A) : bool :=
  match r with Ok _ => true | Raise _ => false end.

Definition submit_count (t : list event) : nat := length (List.filter is_submit t).

(** Number of events of kind [P] in the trace of a state. *)
Definition count {B : Browser} (P : event -> bool) (s : state B) : nat :=
  length (List.filter P (trace s)).

(** A computation that logs no event of kind [P], whatever the world
    answers. *)
Definition keeps {B : Browser} (P : event -> bool) {A} (m : M B A) : Prop :=
  forall s, count P (snd (m s)) = count P s.

(** The message of the [error] record the planner returns when its last
    attempt ends with the fault [f]. *)
Definition give_up_message (f : plan_fault) : string :=
  match f with
  | JSONDecodeError _ =>
      "Failed to parse LLM JSON output after multiple retries."
  | OtherException text =>
      "An unexpected error occurred with the LLM: " +:+ text
  end.

(** The attempts of [todo], made in order from the state [s] (each after
    a sleep of one second, but the first), all end with a fault; the
    last one with the fault [f], in the state [s']. *)
Inductive all_faulted (P : Planner) (c : config) (prompt instruction : string)
    : list Z -> option string -> pstate P -> plan_fault -> pstate P -> Prop :=
| all_faulted_last attempt raw s f raw' s' :
    attempt_body P c prompt instruction raw s = (Fault f, raw', s') ->
    all_faulted P c prompt instruction [attempt] raw s f s'
| all_faulted_more attempt next rest raw s f0 raw' s' f s'' :
    attempt_body P c prompt instruction raw s = (Fault f0, raw', s') ->
    all_faulted P c prompt instruction (next :: rest) raw'
      (plan_sleep P 1 s') f s'' ->
    all_faulted P c prompt instruction (attempt :: next :: rest) raw s f s''.

(** A fake planner: the services give the answers of a script, one per
    request, and [json.loads] reads the one text ["[navigate]"] as the
    plan of a single [navigate] record. *)
Definition scripted_planner : Planner := {|
  PWorld := list (outcome (option string));
  get_system_prompt := "You are an expert web automation assistant.";
  gemini_generate_content := fun _ w =>
    match w with
    | [] => (Faulted (OtherException "service unavailable"), [])
    | Faulted f :: rest => (Faulted f, rest)
    | Returned (Some text) :: rest =>
        (Returned {| has_parts := true; block_reason := None;
                     response_text := Returned text |}, rest)
    | Returned None :: rest =>
        (Returned {| has_parts := false; block_reason := Some "SAFETY";
                     response_text := Faulted (OtherException "no text") |},
         rest)
    end;
  groq_create := fun _ _ w =>
    match w with
    | [] => (Faulted (OtherException "service unavailable"), [])
    | answer :: rest => (answer, rest)
    end;
  json_loads := fun text =>
    if String.eqb text "[navigate]" then Returned (PList [PDict navigate_step])
    else Faulted (JSONDecodeError "Expecting value: line 1 column 1 (char 0)");
  json_dumps := fun _ => "[]"
|}.

(** The planner at its start, with a script of answers. *)
Definition planner_start (script : list (outcome (option string)))
    : pstate scripted_planner :=
  PState (P := scripted_planner) script [].

(** A fake browser with an operator at the console: every primitive of
    the driver succeeds, and [input] reads the answers of a script, one
    per prompt; with the script used up it raises as on a closed console. *)
Definition scripted_console : Browser := {|
  World := list string;
  br_max_depth := 100;
  br_get := fun _ w => (Ok tt, w);
  br_wait_ready := fun _ w => (Ok tt, w);
  br_find := fun _ _ _ _ w => (Ok 7%nat, w);
  br_execute_script := fun _ _ w => (Ok tt, w);
  br_is_displayed := fun _ w => (Ok true, w);
  br_is_enabled := fun _ w => (Ok true, w);
  br_clear := fun _ w => (Ok tt, w);
  br_send_keys := fun _ _ w => (Ok tt, w);
  br_click := fun _ w => (Ok tt, w);
  br_text := fun _ w => (Ok "", w);
  br_get_attribute := fun _ _ w => (Ok None, w);
  br_input := fun _ w =>
    match w with
    | [] => (Raise (Exn OtherError "EOF when reading a line"), [])
    | answer :: rest => (Ok answer, rest)
    end
|}.

(** The start of a browser on the scripted console, its implicit wait
    and its quit. *)
Definition console_launch (answers : list string) (kind : driver_kind)
    : result (World scripted_console) := Ok answers.

Definition console_implicitly_wait (seconds : Z) (w : World scripted_console)
    : result unit * World scripted_console := (Ok tt, w).

Definition console_quit (w : World scripted_console)
    : result unit * World scripted_console := (Ok tt, w).

(** A session on the scripted console, with an operator who will give
    [answers]. *)
Definition console_session (answers : list string)
    (script : list (outcome (option string)))
    : session scripted_console scripted_planner :=
  Session (State (B := scripted_console) answers true ∅ [])
    (planner_start script) [].

(** A [json.dumps] that refuses what [repr] refuses at a depth of 100:
    an integer of more than 4300 digits, a record nested deeper. *)
Definition fake_dumps (p : plan) : option exn :=
  first_fault (map (fun step => repr_fault 100 (PDict step)) p).

(** Whether an event is a prompt of the console. *)
Definition is_input (ev : event) : bool :=
  match ev with EvInput _ => true | _ => false end.

(** The cooperative driver with an operator who answers [no] to every
    prompt. *)
Definition declining : fake_config := {|
  fk_find := fun _ _ => Ok 7%nat;
  fk_displayed := true;
  fk_send_keys := fun _ => Ok tt;
  fk_click := Ok tt;
  fk_text := "";
  fk_value := None;
  fk_inner_text := None;
  fk_input := "no"
|}.

(** A plan the interpreter can read: every step is a record with an
    ["action"] key. *)
Definition well_formed (p : plan) : Prop :=
  Forall (fun step => has_action step = true) p.

(** Every record of the plan renders. *)
Definition plan_renders (B : Browser) (p : plan) : Prop :=
  Forall (fun step => str_fault B (PDict step) = None) p.

(** The store of the session renders: [str] of it raises nothing. *)
Definition store_renders {B : Browser} (s : state B) : Prop :=
  store_fault (br_max_depth B) (extracted_data s) = None.

(** A store that renders is left one that renders. *)
Definition renders_kept {B : Browser} (s s' : state B) : Prop :=
  store_renders s -> store_renders s'.

(** A computation that relates every state to the state it leaves it in
    by [R], whatever the world answers. *)
Definition respects {B : Browser} (R : state B -> state B -> Prop) {A}
    (m : M B A) : Prop :=
  forall s, R s (snd (m s)).

(** The store and the driver slot are the same in both states. *)
Definition same_store {B : Browser} (s s' : state B) : Prop :=
  extracted_data s' = extracted_data s
  /\ driver_present s' = driver_present s.

(** The store differs at most at [k], and the driver slot is the same. *)
Definition same_but {B : Browser} (k : key) (s s' : state B) : Prop :=
  (forall k', k' <> k -> extracted_data s' !! k' = extracted_data s !! k')
  /\ driver_present s' = driver_present s.

(** Every name the store binds stays bound, and the driver slot is the
    same. *)
Definition store_grows {B : Browser} (s s' : state B) : Prop :=
  (forall k, is_Some (extracted_data s !! k) ->
             is_Some (extracted_data s' !! k))
  /\ driver_present s' = driver_present s.

(** Events that touch the content of an element: [clear] and
    [send_keys]. *)
Definition is_typing (ev : event) : bool :=
  match ev with
  | EvClear _ | EvSendKeys _ _ => true
  | _ => false
  end.

Definition is_script (ev : event) : bool :=
  match ev with EvScript _ _ => true | _ => false end.


(** The fields the interpreter reads with [step[...]], in the order it
    reads them. *)
Definition required_fields (action : string) : list string :=
  if String.eqb action "type" then ["selector_type"; "selector_value"; "text"]
  else if String.eqb action "click" then ["selector_type"; "selector_value"]
  else if String.eqb action "wait" then ["seconds"]
  else if String.eqb action "extract_text" then
    ["selector_type"; "selector_value"; "variable_name"]
  else if String.eqb action "ask_user" then ["question"]
  else [].

(** The first of [fields] the record lacks. *)
Fixpoint first_missing (fields : list string) (step : pydict) : option string :=
  match fields with
  | [] => None
  | f :: rest =>
      match dict_find f step with
      | Some _ => first_missing rest step
      | None => Some f
      end
  end.

(** The selector type names no strategy: it is not a string, or its
    lower-cased form is none of the seven names. *)
Definition unsupported_selector (selector_type : pyval) : bool :=
  match str_lower selector_type with
  | Ok name => match strategies name with Some _ => false | None => true end
  | Raise _ => true
  end.

(** The key under which the interpreter stores the answer to the
    [ask_user] step of index [i]. *)
Definition user_response_key (i : nat) : key :=
  KStr ("user_response_to_" +:+ @pretty Z _ (Z.of_nat i + 1)).

(** *** Framing: what every computation of the agent preserves *)

Section Framing.

Variable B : Browser.
Variable R : state B -> state B -> Prop.

Hypothesis R_refl : forall s, R s s.
Hypothesis R_trans : forall s1 s2 s3, R s1 s2 -> R s2 s3 -> R s1 s3.
Hypothesis R_event : forall ev s, R s (add_event B ev s).
Hypothesis R_world : forall w s, R s (set_world B w s).

Lemma respects_ret {A} (a : A) : respects R (ret B a).
Proof. intros s. apply R_refl. Qed.

Lemma respects_raise {A} (e : exn) : respects R (@raise B A e).
Proof. intros s. apply R_refl. Qed.

Lemma respects_lift {A} (r : result A) : respects R (lift B r).
Proof. intros s. apply R_refl. Qed.

Lemma respects_bind {A C} (m : M B A) (k : A -> M B C) :
  respects R m -> (forall a, respects R (k a)) -> respects R (bind B m k).
Proof.
  intros Hm Hk s. unfold bind. specialize (Hm s).
  destruct (m s) as [[a | e] s1]; simpl in *.
  - eapply R_trans; [exact Hm | apply Hk].
  - exact Hm.
Qed.

Lemma respects_try {A} (body : M B A) (handler : exn -> M B A) :
  respects R body -> (forall e, respects R (handler e)) ->
  respects R (try_except B body handler).
Proof.
  intros Hm Hk s. unfold try_except. specialize (Hm s).
  destruct (body s) as [[a | e] s1]; simpl in *.
  - exact Hm.
  - eapply R_trans; [exact Hm | apply Hk].
Qed.

Lemma respects_log (ev : event) : respects R (log B ev).
Proof. intros s. apply R_event. Qed.

Lemma respects_driver_call {A} (attr : string) (ev : event)
    (f : World B -> result A * World B) :
  respects R (driver_call B attr ev f).
Proof.
  intros s. unfold driver_call. destruct (driver_present s); [| apply R_refl].
  destruct (f (world s)) as [r w]. simpl.
  eapply R_trans; [apply R_event | apply R_world].
Qed.

Lemma respects_world_call {A} (ev : event)
    (f : World B -> result A * World B) :
  respects R (world_call B ev f).
Proof.
  intros s. unfold world_call. destruct (f (world s)) as [r w]. simpl.
  eapply R_trans; [apply R_event | apply R_world].
Qed.

Lemma respects_time_sleep (millis : Z) : respects R (time_sleep B millis).
Proof.
  unfold time_sleep.
  destruct (9223372036854 <? Z.abs millis); [apply respects_raise |].
  destruct (millis <? 0); [apply respects_raise | apply respects_log].
Qed.

Lemma respects_fmt (v : pyval) : respects R (fmt B v).
Proof.
  intros s. unfold fmt. destruct (str_fault B v); apply R_refl.
Qed.

Lemma respects_print_store : respects R (print_store B).
Proof.
  intros s. unfold print_store.
  destruct (store_fault (br_max_depth B) (extracted_data s)); apply R_refl.
Qed.

(** What follows an f-string field runs only if the value renders. *)
Lemma respects_after_fmt {A} (v : pyval) (k : M B A) :
  (str_fault B v = None -> respects R k) ->
  respects R (bind B (fmt B v) (fun _ => k)).
Proof.
  intros H s. unfold bind, fmt.
  destruct (str_fault B v) eqn:E; [apply R_refl | apply (H eq_refl)].
Qed.

Lemma respects_get_by_strategy (selector_type : pyval) :
  respects R (get_by_strategy B selector_type).
Proof.
  unfold get_by_strategy. apply respects_bind; [apply respects_lift |].
  intros name. destruct (strategies name);
    [apply respects_ret | apply respects_raise].
Qed.

End Framing.

Ltac respects_step :=
  first
    [ apply respects_ret; assumption
    | apply respects_raise; assumption
    | apply respects_lift; assumption
    | apply respects_get_by_strategy; assumption
    | apply respects_log; assumption
    | apply respects_driver_call; assumption
    | apply respects_world_call; assumption
    | apply respects_time_sleep; assumption
    | apply respects_fmt; assumption
    | apply respects_print_store; assumption
    | apply respects_bind; [assumption | | intros ?]
    | apply respects_try; [assumption | | intros ?]
    | match goal with
      | |- respects _ (if ?c then _ else _) => destruct c
      | |- respects _ (match ?c with _ => _ end) => destruct c
      end ].

Ltac respects_auto := repeat respects_step.

Section Properties.

Variable B : Browser.

Abbreviation state := (state B).

(** *** The monad *)




(** The pauses of the agent itself, of half a second and of a second,
    return. *)
Lemma time_sleep_pause (millis : Z) (s : state) :
  millis = 500 \/ millis = 1000 ->
  time_sleep B millis s = (Ok tt, add_event B (EvSleep millis) s).
Proof. intros [-> | ->]; reflexivity. Qed.

(** *** Rendering *)

Lemma fmt_ok (v : pyval) (s : state) :
  str_fault B v = None -> fmt B v s = (Ok tt, s).
Proof. intros H. unfold fmt. rewrite H. reflexivity. Qed.

Lemma fmt_raise (v : pyval) (e : exn) (s : state) :
  str_fault B v = Some e -> fmt B v s = (Raise e, s).
Proof. intros H. unfold fmt. rewrite H. reflexivity. Qed.

Lemma fmt_state (v : pyval) (s : state) : snd (fmt B v s) = s.
Proof. unfold fmt. destruct (str_fault B v); reflexivity. Qed.

Lemma fmt_returns (v : pyval) (s s' : state) :
  fmt B v s = (Ok tt, s') -> str_fault B v = None /\ s' = s.
Proof.
  unfold fmt. destruct (str_fault B v); [discriminate |].
  intros [= <-]. split; reflexivity.
Qed.

Lemma str_fault_str (text : string) : str_fault B (PStr text) = None.
Proof. reflexivity. Qed.

Lemma str_fault_none : str_fault B PNone = None.
Proof. reflexivity. Qed.

Lemma str_fault_bool (b : bool) : str_fault B (PBool b) = None.
Proof. reflexivity. Qed.

Lemma first_fault_in (faults : list (option exn)) :
  first_fault faults = None -> forall f, In f faults -> f = None.
Proof.
  induction faults as [| [e |] rest IH]; simpl; intros H f Hin.
  - destruct Hin.
  - discriminate.
  - destruct Hin as [<- | Hin]; [reflexivity | apply IH; assumption].
Qed.

Lemma first_fault_all (faults : list (option exn)) :
  (forall f, In f faults -> f = None) -> first_fault faults = None.
Proof.
  induction faults as [| [e |] rest IH]; simpl; intros H.
  - reflexivity.
  - discriminate (H (Some e) (or_introl eq_refl)).
  - apply IH. intros f Hin. apply H. right. exact Hin.
Qed.

(** A value that renders with room for [depth] containers renders with
    room for more. *)
Lemma repr_fault_mono (depth : nat) :
  forall v, repr_fault depth v = None -> repr_fault (S depth) v = None.
Proof.
  induction depth as [| d IH]; intros v; destruct v; simpl; try discriminate;
    try (intros H; exact H).
  - intros H. apply first_fault_all. intros f Hin.
    apply in_map_iff in Hin. destruct Hin as [v [<- Hin]]. apply IH.
    apply (first_fault_in _ H). apply in_map. exact Hin.
  - intros H. apply first_fault_all. intros f Hin.
    apply in_map_iff in Hin. destruct Hin as [kv [<- Hin]]. apply IH.
    apply (first_fault_in _ H).
    apply (in_map (fun kv => repr_fault d (snd kv))). exact Hin.
Qed.

Lemma dict_find_in (k : string) (d : pydict) (v : pyval) :
  dict_find k d = Some v -> In (k, v) d.
Proof.
  induction d as [| [k' v'] rest IH]; simpl; [discriminate |].
  destruct (String.eqb k k') eqn:E.
  - apply String.eqb_eq in E. intros [= ->]. left. congruence.
  - intros H. right. apply IH, H.
Qed.

(** A record that renders has fields that render. *)
Lemma str_fault_field (step : pydict) (k : string) (v : pyval) :
  str_fault B (PDict step) = None ->
  dict_find k step = Some v ->
  str_fault B v = None.
Proof.
  unfold str_fault. simpl. intros H Hfind.
  apply repr_fault_mono. apply (first_fault_in _ H).
  apply (in_map (fun kv => repr_fault (br_max_depth B) (snd kv)) _ (k, v)).
  apply dict_find_in, Hfind.
Qed.

Lemma str_fault_get (step : pydict) (k : string) (default : pyval) :
  str_fault B (PDict step) = None ->
  str_fault B default = None ->
  str_fault B (dict_get step k default) = None.
Proof.
  intros H Hd. unfold dict_get.
  destruct (dict_find k step) as [v |] eqn:E.
  - apply (str_fault_field step k v H E).
  - exact Hd.
Qed.

Lemma str_fault_item (step : pydict) (k : string) (v : pyval) :
  str_fault B (PDict step) = None ->
  dict_item step k = Ok v ->
  str_fault B v = None.
Proof.
  intros H. unfold dict_item.
  destruct (dict_find k step) as [v' |] eqn:E; [| discriminate].
  intros [= <-]. apply (str_fault_field step k v' H E).
Qed.

Lemma announce_ok (step : pydict) (s : state) :
  str_fault B (PDict step) = None ->
  announce B step (dict_get step "action" PNone) s = (Ok tt, s).
Proof.
  intros H. unfold announce, bind.
  rewrite (fmt_ok _ _ (str_fault_get step "action" PNone H str_fault_none)).
  apply fmt_ok, H.
Qed.

Lemma announce_state (step : pydict) (action : pyval) (s : state) :
  snd (announce B step action s) = s.
Proof.
  unfold announce, bind, fmt.
  destruct (str_fault B action); [reflexivity |].
  destruct (str_fault B (PDict step)); reflexivity.
Qed.

(** *** The store that renders *)

Lemma store_fault_lookup (depth : nat) (d : gmap key pyval) (k : key)
    (v : pyval) :
  store_fault depth d = None ->
  d !! k = Some v ->
  key_fault k = None /\ repr_fault depth v = None.
Proof.
  unfold store_fault. intros H Hk.
  apply elem_of_map_to_list in Hk. apply list_elem_of_In in Hk.
  pose proof (first_fault_in _ H _
                (in_map (fun kv => match key_fault (fst kv) with
                                   | Some e => Some e
                                   | None => repr_fault depth (snd kv)
                                   end) _ _ Hk)) as Hf.
  simpl in Hf. destruct (key_fault k); [discriminate |].
  split; [reflexivity | exact Hf].
Qed.

Lemma store_fault_all (depth : nat) (d : gmap key pyval) :
  (forall k v, d !! k = Some v ->
               key_fault k = None /\ repr_fault depth v = None) ->
  store_fault depth d = None.
Proof.
  intros H. unfold store_fault. apply first_fault_all. intros f Hin.
  apply in_map_iff in Hin. destruct Hin as [[k v] [<- Hin]].
  apply list_elem_of_In, elem_of_map_to_list in Hin.
  destruct (H k v Hin) as [Hk Hv]. cbn [fst snd]. rewrite Hk. exact Hv.
Qed.

Lemma store_renders_empty (w : World B) (present : bool) (t : list event) :
  store_renders (State w present ∅ t).
Proof.
  apply store_fault_all. intros k v H. simpl in H.
  rewrite lookup_empty in H. discriminate.
Qed.

Lemma store_renders_insert (s : state) (k : key) (v : pyval) :
  store_renders s ->
  key_fault k = None ->
  repr_fault (br_max_depth B) v = None ->
  store_renders (set_extracted_data B (<[k := v]> (extracted_data s)) s).
Proof.
  intros Hs Hk Hv. apply store_fault_all. intros k' v' H. simpl in H.
  destruct (decide (k = k')) as [<- | Hne].
  - rewrite lookup_insert_eq in H. injection H as <-. split; assumption.
  - rewrite lookup_insert_ne in H by exact Hne.
    apply (store_fault_lookup _ _ _ _ Hs H).
Qed.

Lemma int_str_fault_small (z : Z) :
  Z.abs z < 2 ^ 1024 -> int_str_fault z = None.
Proof.
  intros H. unfold int_str_fault.
  destruct (Z.leb_spec (10 ^ int_max_str_digits) (Z.abs z)) as [Hle |];
    [| reflexivity].
  exfalso.
  assert (Hpow : 2 ^ 1024 <= 10 ^ int_max_str_digits)
    by (vm_compute; discriminate).
  revert H Hle Hpow.
  generalize (2 ^ 1024) (10 ^ int_max_str_digits) (Z.abs z). intros. lia.
Qed.

(** The key of a float always renders. *)
Lemma float_key_fault (x : float) : key_fault (float_key x) = None.
Proof.
  unfold float_key. destruct (Prim2SF x) as [sg | sg | | sg m e].
  - apply int_str_fault_small. vm_compute. reflexivity.
  - reflexivity.
  - reflexivity.
  - unfold binary64_range.
    destruct (Z.ltb_spec (Z.pos m) (2 ^ 53)) as [Hm |]; [| reflexivity].
    destruct (Z.leb_spec e 971) as [He |]; [| reflexivity].
    cbn [andb negb].
    assert (Hbound : forall v, 0 <= v < 2 ^ 1024 ->
                               int_str_fault (if sg then - v else v) = None).
    { intros v Hv. apply int_str_fault_small. destruct sg; lia. }
    destruct (Z.leb_spec 0 e) as [Hpos | Hneg].
    + apply Hbound. split; [apply Z.mul_nonneg_nonneg; [lia |]; apply Z.pow_nonneg; lia |].
      assert (H2 : 2 ^ e <= 2 ^ 971) by (apply Z.pow_le_mono_r; lia).
      assert (H3 : 0 < 2 ^ e) by (apply Z.pow_pos_nonneg; lia).
      replace (2 ^ 1024) with (2 ^ 53 * 2 ^ 971)
        by (rewrite <- Z.pow_add_r by lia; reflexivity).
      revert Hm H2 H3.
      generalize (2 ^ 53) (2 ^ 971) (2 ^ e). intros. nia.
    + destruct (Z.pos m mod 2 ^ (- e) =? 0); [| reflexivity].
      apply Hbound.
      assert (H3 : 0 < 2 ^ (- e)) by (apply Z.pow_pos_nonneg; lia).
      split; [apply Z.div_pos; lia |].
      assert (H4 : Z.pos m / 2 ^ (- e) <= Z.pos m)
        by (apply Z.div_le_upper_bound; [lia | nia]).
      assert (H5 : 2 ^ 53 <= 2 ^ 1024) by (apply Z.pow_le_mono_r; lia).
      revert Hm H4 H5. generalize (2 ^ 53) (2 ^ 1024). intros. lia.
Qed.

(** The key of a value that renders renders. *)
Lemma hash_key_fault (v : pyval) (k : key) :
  hash_key v = Ok k -> str_fault B v = None -> key_fault k = None.
Proof.
  destruct v; simpl; try discriminate; intros [= <-]; try reflexivity.
  - intros _. destruct b; apply int_str_fault_small; vm_compute; reflexivity.
  - intros H. exact H.
  - intros _. apply float_key_fault.
Qed.

Lemma renders_kept_refl (s : state) : renders_kept s s.
Proof. intros H. exact H. Qed.

Lemma renders_kept_trans (s1 s2 s3 : state) :
  renders_kept s1 s2 -> renders_kept s2 s3 -> renders_kept s1 s3.
Proof. intros H1 H2 H. apply H2, H1, H. Qed.

Lemma renders_kept_event (ev : event) (s : state) :
  renders_kept s (add_event B ev s).
Proof. intros H. exact H. Qed.

Lemma renders_kept_world (w : World B) (s : state) :
  renders_kept s (set_world B w s).
Proof. intros H. exact H. Qed.

Ltac use_renders :=
  pose proof renders_kept_refl; pose proof renders_kept_trans;
  pose proof renders_kept_event; pose proof renders_kept_world.

(** An assignment to the store of a string or of [None], under a name
    that renders, keeps the store one that renders. *)
Lemma set_item_renders (name v : pyval) :
  str_fault B name = None ->
  repr_fault (br_max_depth B) v = None ->
  respects renders_kept (set_item B name v).
Proof.
  intros Hn Hv s. unfold set_item, bind, lift.
  destruct (hash_key name) as [k | e] eqn:Hk; simpl;
    [| apply renders_kept_refl].
  intros Hs. apply store_renders_insert; [exact Hs | | exact Hv].
  apply (hash_key_fault name k Hk Hn).
Qed.

Lemma stripped_renders (content : option string) :
  repr_fault (br_max_depth B) (stripped content) = None.
Proof.
  destruct content as [t |]; simpl; [| reflexivity].
  destruct (nonempty t); reflexivity.
Qed.

(** *** The step loop *)

(** An iteration leaves the locals alone and goes on, or breaks with the
    success flag cleared and a message that renders, or raises. *)
Lemma step_body_cases (i : nat) (step : pydict) (loc : locals) (s : state) :
  (exists s', step_body B i step loc s = (Ok (Next, loc), s'))
  \/ (exists msg s',
         step_body B i step loc s = (Ok (Break, Locals false msg), s')
         /\ str_fault B msg = None)
  \/ (exists e s', step_body B i step loc s = (Raise e, s')).
Proof.
  destruct (step_body B i step loc s) as [[[fl loc'] | e] s'] eqn:Hb.
  2: { right. right. eexists _, _. reflexivity. }
  revert Hb. unfold step_body. cbv zeta. unfold bind at 1.
  destruct (announce B step (dict_get step "action" PNone) s)
    as [[[] | e0] s0] eqn:Ha; [| discriminate].
  assert (Haction : str_fault B (dict_get step "action" PNone) = None).
  { unfold announce, bind, fmt in Ha.
    destruct (str_fault B (dict_get step "action" PNone));
      [discriminate | reflexivity]. }
  assert (Hstep : str_fault B (PDict step) = None).
  { unfold announce, bind, fmt in Ha. rewrite Haction in Ha.
    destruct (str_fault B (PDict step)); [discriminate | reflexivity]. }
  assert (Hhandler : forall e s1,
             bind B (step_handler B (dict_get step "action" PNone) e)
               (fun loc' => ret B (Break, loc')) s1
             = (Ok (Break, handler_locals (dict_get step "action" PNone) e),
                s1)
             /\ exists msg,
                 handler_locals (dict_get step "action" PNone) e
                 = Locals false (PStr msg)).
  { intros e s1. unfold step_handler, bind. rewrite !fmt_ok by exact Haction.
    split; [reflexivity |]. unfold handler_locals.
    destruct (is_instance e [KeyError]);
      [| destruct (is_instance e [ValueError])]; eexists; reflexivity. }
  unfold try_except, step_try. unfold bind at 1.
  destruct (dispatch B i step (dict_get step "action" PNone) s0)
    as [[[ok | msg] | e] s1] eqn:Hd.
  - destruct ok; cbn [negb]; cbv beta iota.
    + unfold bind at 1.
      destruct (time_sleep B 1000 s1) as [[[] | e] s2].
      * intros [= <- <- <-]. left. eexists. reflexivity.
      * destruct (Hhandler e s2) as [-> [m ->]]. intros [= <- <- <-].
        right. left. eexists _, _. split; reflexivity.
    + unfold bind.
      rewrite (fmt_ok _ _ Haction), (fmt_ok _ _ Hstep).
      intros [= <- <- <-]. right. left. eexists _, _. split; reflexivity.
  - intros [= <- <- <-]. right. left. eexists _, _. split; [reflexivity |].
    revert Hd. unfold dispatch.
    repeat match goal with
      | |- context [if ?c then _ else _] => destruct c
      end;
      unfold bind, lift;
      repeat match goal with
        | |- context [match ?x with _ => _ end] =>
            lazymatch x with
            | fmt _ _ _ => fail
            | _ => destruct x
            end
        end; try discriminate.
    + destruct (fmt B (dict_get step "message" PNone) s0)
        as [[[] | e] s3] eqn:Hf; [| discriminate].
      intros [= <- <-]. apply (fmt_returns _ _ _ Hf).
    + rewrite !fmt_ok by exact Haction. intros [= <- <-]. reflexivity.
  - destruct (Hhandler e s1) as [-> [m ->]]. intros [= <- <- <-].
    right. left. eexists _, _. split; reflexivity.
Qed.



(** Once the flag is cleared the loop has been left: a run that starts
    with the flag set ends with it set only if no iteration broke, and
    then the locals are the initial ones. The message it is left with
    renders. *)
Lemma run_steps_flag (steps : plan) :
  forall (i : nat) (loc loc' : locals) (s s' : state),
    run_steps B i steps loc s = (Ok loc', s') ->
    loc' = loc
    \/ (exists msg, loc' = Locals false msg /\ str_fault B msg = None).
Proof.
  induction steps as [| step rest IH]; intros i loc loc' s s'; simpl.
  - unfold ret. intros [= <- <-]. left. reflexivity.
  - unfold bind.
    destruct (step_body_cases i step loc s)
      as [[s1 H] | [[msg [s1 [H Hm]]] | [e [s1 H]]]]; rewrite H.
    + apply IH.
    + unfold ret. intros [= <- <-]. right. eexists. split; [reflexivity |].
      exact Hm.
    + discriminate.
Qed.

(** Running a plan is running a prefix of it and, when no iteration of
    the prefix broke, the rest. *)
Lemma run_steps_app (pre rest : plan) :
  forall (i : nat) (loc : locals) (s : state),
    executed_successfully loc = true ->
    run_steps B i (pre ++ rest) loc s
    = match run_steps B i pre loc s with
      | (Ok loc', s') =>
          if executed_successfully loc'
          then run_steps B (i + length pre) rest loc s'
          else (Ok loc', s')
      | (Raise e, s') => (Raise e, s')
      end.
Proof.
  induction pre as [| step pre IH]; intros i loc s Hloc; simpl.
  - unfold ret. rewrite Hloc, Nat.add_0_r. reflexivity.
  - unfold bind.
    destruct (step_body_cases i step loc s)
      as [[s1 H] | [[msg [s1 [H _]]] | [e [s1 H]]]]; rewrite H.
    + rewrite (IH (S i) loc s1 Hloc), Nat.add_succ_r. reflexivity.
    + reflexivity.
    + reflexivity.
Qed.

(** A prefix whose steps all succeed is walked through with the locals
    untouched. *)
Lemma run_steps_all_succeed (pre : plan) (i : nat) (s s' : state) :
  all_succeed B i pre s s' ->
  forall loc, run_steps B i pre loc s = (Ok loc, s').
Proof.
  induction 1 as [i s | i step rest s s1 s2 s' Hr Hd Hs _ IH]; intros loc;
    simpl.
  - reflexivity.
  - unfold bind at 1. unfold step_body. cbv zeta. unfold bind at 1.
    rewrite (announce_ok step s Hr).
    unfold try_except, step_try. unfold bind at 1.
    rewrite Hd. cbn [negb]. cbv beta iota. unfold bind at 1. rewrite Hs.
    apply IH.
Qed.

Lemma all_succeed_renders (pre : plan) (i : nat) (s s' : state) :
  all_succeed B i pre s s' -> plan_renders B pre.
Proof.
  induction 1 as [i s | i step rest s s1 s2 s' Hr Hd Hs _ IH].
  - constructor.
  - constructor; assumption.
Qed.

Lemma navigate_renders (url : pyval) :
  respects renders_kept (navigate B url).
Proof. use_renders. unfold navigate. respects_auto. Qed.

Lemma type_text_renders (st sv text enter_after : pyval) :
  respects renders_kept (type_text B st sv text enter_after).
Proof.
  use_renders.
  unfold type_text, typing_target, inject, not_interactable, find_element,
    execute_script.
  respects_auto.
Qed.

Lemma click_element_renders (st sv : pyval) :
  respects renders_kept (click_element B st sv).
Proof.
  use_renders.
  unfold click_element, native_click, js_click, find_clickable_element,
    find_element, execute_script.
  respects_auto.
Qed.

Lemma wait_renders (seconds : Z) : respects renders_kept (wait B seconds).
Proof. use_renders. unfold wait. respects_auto. Qed.

Lemma scroll_window_renders (direction : pyval) (pixels : Z) :
  respects renders_kept (scroll_window B direction pixels).
Proof.
  use_renders. unfold scroll_window, execute_script, fmt_amount. cbv zeta.
  respects_auto.
Qed.

Lemma ask_user_renders (question : pyval) :
  respects renders_kept (ask_user B question).
Proof. use_renders. unfold ask_user. respects_auto. Qed.

Lemma extract_text_renders (st sv variable_name : pyval) :
  respects renders_kept (extract_text B st sv variable_name).
Proof.
  use_renders. unfold extract_text.
  apply respects_bind; [assumption .. | respects_auto |]. intros _.
  apply respects_bind; [assumption .. | respects_auto |]. intros _.
  apply respects_bind; [assumption .. | respects_auto |]. intros _.
  apply respects_after_fmt; [assumption |]. intros Hname.
  pose proof (fun content =>
                set_item_renders variable_name (stripped content) Hname
                  (stripped_renders content)) as Hset.
  pose proof (set_item_renders variable_name PNone Hname eq_refl) as Hnone.
  unfold text_content, find_element.
  repeat first [apply Hset | apply Hnone | respects_step].
Qed.

(** Whatever a step is dispatched to keeps the store one that renders. *)
Lemma dispatch_renders (i : nat) (step : pydict) (action : pyval) :
  respects renders_kept (dispatch B i step action).
Proof.
  use_renders. unfold dispatch.
  repeat first
    [ match goal with
      | |- respects _ (navigate _ _) => apply navigate_renders
      | |- respects _ (type_text _ _ _ _ _) => apply type_text_renders
      | |- respects _ (click_element _ _ _) => apply click_element_renders
      | |- respects _ (wait _ _) => apply wait_renders
      | |- respects _ (extract_text _ _ _ _) => apply extract_text_renders
      | |- respects _ (scroll_window _ _ _) => apply scroll_window_renders
      | |- respects _ (ask_user _ _) => apply ask_user_renders
      | |- respects _ (set_item _ (PStr _) (PStr _)) =>
          apply set_item_renders; reflexivity
      end
    | respects_step ].
Qed.

Lemma step_body_renders (i : nat) (step : pydict) (loc : locals) :
  respects renders_kept (step_body B i step loc).
Proof.
  use_renders.
  unfold step_body, announce, step_try, step_handler. cbv zeta.
  repeat first
    [ match goal with
      | |- respects _ (dispatch _ _ _ _) => apply dispatch_renders
      end
    | respects_step ].
Qed.


Lemma all_succeed_store (pre : plan) (i : nat) (s s' : state) :
  all_succeed B i pre s s' -> store_renders s -> store_renders s'.
Proof.
  induction 1 as [i s | i step rest s s1 s2 s' Hr Hd Hs _ IH]; intros H.
  - exact H.
  - apply IH.
    pose proof (dispatch_renders i step (dict_get step "action" PNone) s)
      as H1.
    rewrite Hd in H1.
    assert (Hs2 : s2 = add_event B (EvSleep 1000) s1).
    { rewrite (time_sleep_pause 1000 s1 (or_intror eq_refl)) in Hs.
      congruence. }
    rewrite Hs2. apply (H1 H).
Qed.

(** *** The report after the loop *)

Lemma report_state (loc : locals) (s : state) : snd (report B loc s) = s.
Proof.
  unfold report, bind, print_store, fmt, ret.
  destruct (executed_successfully loc).
  - destruct (store_fault (br_max_depth B) (extracted_data s)); reflexivity.
  - destruct (str_fault B (error_message_for_llm loc)); [reflexivity |].
    destruct (store_fault (br_max_depth B) (extracted_data s)); reflexivity.
Qed.

Lemma report_ok (loc : locals) (s : state) :
  executed_successfully loc = true
  \/ str_fault B (error_message_for_llm loc) = None ->
  store_renders s ->
  report B loc s = (Ok tt, s).
Proof.
  intros Hloc Hs. unfold report.
  assert (Hp : print_store B s = (Ok tt, s)).
  { unfold print_store. unfold store_renders in Hs. rewrite Hs. reflexivity. }
  unfold bind. destruct (executed_successfully loc).
  - unfold ret. exact Hp.
  - destruct Hloc as [Hloc | Hloc]; [discriminate |].
    rewrite (fmt_ok _ _ Hloc). exact Hp.
Qed.

(** The verdict of a run whose loop returns, on a store that renders. *)
Lemma execute_plan_of_run (p : plan) (instruction : string) (s s' : state)
    (loc : locals) :
  driver_present s = true ->
  run_steps B 0 p (Locals true PNone) s = (Ok loc, s') ->
  store_renders s' ->
  execute_plan B p instruction s
  = (Ok (executed_successfully loc, error_message_for_llm loc), s').
Proof.
  intros Hdrv Hrun Hs. unfold execute_plan. rewrite Hdrv. simpl negb.
  cbv beta iota. unfold bind at 1. rewrite Hrun. unfold bind at 1.
  rewrite report_ok; [reflexivity | | exact Hs].
  destruct (run_steps_flag p 0 _ _ _ _ Hrun) as [-> | [msg [-> Hm]]].
  - left. reflexivity.
  - right. exact Hm.
Qed.

(** *** Counting events *)

Section Keeps.

Variable P : event -> bool.

Lemma keeps_ret {A} (a : A) : keeps P (ret B a).
Proof. intros s. reflexivity. Qed.

Lemma keeps_raise {A} (e : exn) : keeps P (@raise B A e).
Proof. intros s. reflexivity. Qed.

Lemma keeps_lift {A} (r : result A) : keeps P (lift B r).
Proof. intros s. reflexivity. Qed.

Lemma keeps_bind {A C} (m : M B A) (k : A -> M B C) :
  keeps P m -> (forall a, keeps P (k a)) -> keeps P (bind B m k).
Proof.
  intros Hm Hk s. unfold bind. specialize (Hm s).
  destruct (m s) as [[a | e] s1]; simpl in *.
  - rewrite Hk. exact Hm.
  - exact Hm.
Qed.

Lemma keeps_try {A} (body : M B A) (handler : exn -> M B A) :
  keeps P body -> (forall e, keeps P (handler e)) ->
  keeps P (try_except B body handler).
Proof.
  intros Hm Hk s. unfold try_except. specialize (Hm s).
  destruct (body s) as [[a | e] s1]; simpl in *.
  - exact Hm.
  - rewrite Hk. exact Hm.
Qed.

Lemma keeps_log (ev : event) : P ev = false -> keeps P (log B ev).
Proof. intros H s. unfold count. simpl. rewrite H. reflexivity. Qed.

Lemma keeps_driver_call {A} (attr : string) (ev : event)
    (f : World B -> result A * World B) :
  P ev = false -> keeps P (driver_call B attr ev f).
Proof.
  intros H s. unfold driver_call.
  destruct (driver_present s); [| reflexivity].
  destruct (f (world s)) as [r w]. unfold count. simpl. rewrite H. reflexivity.
Qed.

Lemma keeps_world_call {A} (ev : event) (f : World B -> result A * World B) :
  P ev = false -> keeps P (world_call B ev f).
Proof.
  intros H s. unfold world_call.
  destruct (f (world s)) as [r w]. unfold count. simpl. rewrite H. reflexivity.
Qed.

Lemma keeps_time_sleep (millis : Z) :
  P (EvSleep millis) = false -> keeps P (time_sleep B millis).
Proof.
  intros H. unfold time_sleep.
  destruct (9223372036854 <? Z.abs millis); [apply keeps_raise |].
  destruct (millis <? 0); [apply keeps_raise | apply keeps_log, H].
Qed.

Lemma keeps_fmt (v : pyval) : keeps P (fmt B v).
Proof. intros s. rewrite fmt_state. reflexivity. Qed.

Lemma keeps_print_store : keeps P (print_store B).
Proof.
  intros s. unfold print_store.
  destruct (store_fault (br_max_depth B) (extracted_data s)); reflexivity.
Qed.

Lemma keeps_set_item (k v : pyval) : keeps P (set_item B k v).
Proof.
  intros s. unfold set_item, bind, lift.
  destruct (hash_key k); reflexivity.
Qed.

Lemma keeps_get_by_strategy (selector_type : pyval) :
  keeps P (get_by_strategy B selector_type).
Proof.
  unfold get_by_strategy. apply keeps_bind; [apply keeps_lift |].
  intros name. destruct (strategies name); [apply keeps_ret | apply keeps_raise].
Qed.

End Keeps.

Ltac keeps_step :=
  first
    [ apply keeps_ret | apply keeps_raise | apply keeps_lift
    | apply keeps_fmt | apply keeps_print_store
    | apply keeps_set_item | apply keeps_get_by_strategy
    | apply keeps_log; reflexivity
    | apply keeps_driver_call; reflexivity
    | apply keeps_world_call; reflexivity
    | apply keeps_time_sleep; reflexivity
    | apply keeps_bind; [| intros ?]
    | apply keeps_try; [| intros ?]
    | match goal with
      | |- keeps _ (if ?c then _ else _) => destruct c
      | |- keeps _ (match ?c with _ => _ end) => destruct c
      end ].

Ltac keeps_auto := repeat keeps_step.

(** An operation that logs its entry and then no other entry is entered
    exactly once. *)
Lemma enters_once {A} (c : call) (body : M B A) (s : state) :
  keeps is_call body ->
  count is_call (snd (bind B (log B (EvCall c)) (fun _ => body) s))
  = S (count is_call s).
Proof.
  intros H. unfold bind, log.
  specialize (H (add_event B (EvCall c) s)).
  destruct (body (add_event B (EvCall c) s)) as [[a | e] s1]; exact H.
Qed.

Lemma navigate_enters (url : pyval) (s : state) :
  count is_call (snd (navigate B url s)) = S (count is_call s).
Proof. apply enters_once. keeps_auto. Qed.

Lemma type_text_enters (st sv text enter_after : pyval) (s : state) :
  count is_call (snd (type_text B st sv text enter_after s))
  = S (count is_call s).
Proof.
  apply enters_once.
  unfold typing_target, inject, not_interactable, find_element, execute_script.
  keeps_auto.
Qed.

Lemma click_element_enters (st sv : pyval) (s : state) :
  count is_call (snd (click_element B st sv s)) = S (count is_call s).
Proof.
  apply enters_once.
  unfold native_click, js_click, find_clickable_element, find_element,
    execute_script.
  keeps_auto.
Qed.

Lemma wait_enters (seconds : Z) (s : state) :
  count is_call (snd (wait B seconds s)) = S (count is_call s).
Proof. apply enters_once. keeps_auto. Qed.

Lemma extract_text_enters (st sv variable_name : pyval) (s : state) :
  count is_call (snd (extract_text B st sv variable_name s))
  = S (count is_call s).
Proof.
  apply enters_once. unfold text_content, find_element. keeps_auto.
Qed.

Lemma scroll_window_enters (direction : pyval) (pixels : Z) (s : state) :
  count is_call (snd (scroll_window B direction pixels s))
  = S (count is_call s).
Proof. apply enters_once. unfold execute_script, fmt_amount. keeps_auto. Qed.

Lemma ask_user_enters (question : pyval) (s : state) :
  count is_call (snd (ask_user B question s)) = S (count is_call s).
Proof. apply enters_once. keeps_auto. Qed.

Ltac run_arguments H :=
  unfold bind, lift in H;
  repeat match type of H with
    | context [dict_item ?d ?k] => destruct (dict_item d k); try discriminate H
    | context [py_int ?v] => destruct (py_int v); try discriminate H
    end.

Ltac run_fmt H :=
  unfold bind, fmt, ret in H;
  repeat match type of H with
    | context [match str_fault ?b ?v with _ => _ end] =>
        let E := fresh "Hfmt" in
        destruct (str_fault b v) eqn:E; try discriminate H
    end.

Ltac run_operation H lemma :=
  match type of H with
  | context [match ?op ?s with _ => _ end] =>
      let E := fresh "E" in
      pose proof (lemma s) as E;
      destruct (op s) as [[? | ?] ?]; try discriminate H;
      injection H as <- <-; exact E
  end.

(** A step that gets a [step_success] entered exactly one operation of
    the Action Library. *)
Lemma dispatch_enters_once (i : nat) (step : pydict) (action : pyval)
    (s s' : state) (ok : bool) :
  dispatch B i step action s = (Ok (Done ok), s') ->
  count is_call s' = S (count is_call s).
Proof.
  unfold dispatch. intros H.
  destruct (py_eq_str action "navigate").
  { destruct (negb (truthy (dict_get step "url" PNone))); [discriminate H |].
    run_arguments H. run_operation H (navigate_enters (dict_get step "url" PNone)). }
  destruct (py_eq_str action "type").
  { run_arguments H.
    run_operation H (type_text_enters a a0 a1 (dict_get step "enter_after" (PBool false))). }
  destruct (py_eq_str action "click").
  { run_arguments H. run_operation H (click_element_enters a a0). }
  destruct (py_eq_str action "wait").
  { run_arguments H. run_operation H (wait_enters a0). }
  destruct (py_eq_str action "extract_text").
  { run_arguments H. run_operation H (extract_text_enters a a0 a1). }
  destruct (py_eq_str action "scroll").
  { run_arguments H.
    run_operation H (scroll_window_enters (dict_get step "direction" (PStr "down")) a). }
  destruct (py_eq_str action "ask_user").
  { run_arguments H.
    pose proof (ask_user_enters a s) as E.
    destruct (ask_user B a s) as [[answer | e] s1]; [| discriminate H].
    unfold set_item, bind, lift in H. simpl in H. injection H as _ <-.
    exact E. }
  destruct (py_eq_str action "error"); run_fmt H.
Qed.

Lemma all_succeed_calls (pre : plan) (i : nat) (s s' : state) :
  all_succeed B i pre s s' ->
  count is_call s' = (count is_call s + length pre)%nat.
Proof.
  induction 1 as [i s | i step rest s s1 s2 s' Hr Hd Hs _ IH]; simpl.
  - lia.
  - apply dispatch_enters_once in Hd.
    pose proof (keeps_time_sleep is_call 1000 eq_refl s1) as Hk.
    rewrite Hs in Hk. simpl in Hk. lia.
Qed.

(** The only steps that stop the loop without an operation are the
    [error] record and the unknown action. *)
Lemma dispatch_stop (i : nat) (step : pydict) (action : pyval)
    (s s' : state) (msg : pyval) :
  dispatch B i step action s = (Ok (Stop msg), s') ->
  s' = s
  /\ ((py_eq_str action "error" = true /\ msg = dict_get step "message" PNone)
      \/ msg = PStr ("Unknown action '" +:+ py_str action +:+ "' in plan.")).
Proof.
  unfold dispatch. intros H.
  destruct (py_eq_str action "navigate").
  { destruct (negb (truthy (dict_get step "url" PNone))); [discriminate H |].
    run_arguments H.
    destruct (navigate B (dict_get step "url" PNone) s) as [[? | ?] ?];
      discriminate H. }
  destruct (py_eq_str action "type").
  { run_arguments H.
    destruct (type_text B a a0 a1 (dict_get step "enter_after" (PBool false)) s)
      as [[? | ?] ?]; discriminate H. }
  destruct (py_eq_str action "click").
  { run_arguments H.
    destruct (click_element B a a0 s) as [[? | ?] ?]; discriminate H. }
  destruct (py_eq_str action "wait").
  { run_arguments H. destruct (wait B a0 s) as [[? | ?] ?]; discriminate H. }
  destruct (py_eq_str action "extract_text").
  { run_arguments H.
    destruct (extract_text B a a0 a1 s) as [[? | ?] ?]; discriminate H. }
  destruct (py_eq_str action "scroll").
  { run_arguments H.
    destruct (scroll_window B (dict_get step "direction" (PStr "down")) a s)
      as [[? | ?] ?]; discriminate H. }
  destruct (py_eq_str action "ask_user").
  { run_arguments H.
    destruct (ask_user B a s) as [[answer | e] s1]; [| discriminate H].
    unfold set_item, bind, lift in H. simpl in H. discriminate H. }
  destruct (py_eq_str action "error") eqn:Herr; run_fmt H.
  - injection H as <- <-. split; [reflexivity |]. left. split; reflexivity.
  - injection H as <- <-. split; [reflexivity |]. right. reflexivity.
Qed.

Lemma handler_locals_str (action : pyval) (e : exn) :
  exists m, handler_locals action e = Locals false (PStr m).
Proof.
  unfold handler_locals.
  destruct (is_instance e [KeyError]);
    [| destruct (is_instance e [ValueError])]; eexists; reflexivity.
Qed.

(** What an iteration does once the record is announced: the fields it
    renders afterwards have been rendered before. *)
Lemma step_body_run (i : nat) (step : pydict) (loc : locals) (s : state) :
  str_fault B (PDict step) = None ->
  step_body B i step loc s
  = match dispatch B i step (dict_get step "action" PNone) s with
    | (Ok (Done true), s1) => (Ok (Next, loc), add_event B (EvSleep 1000) s1)
    | (Ok (Done false), s1) =>
        (Ok (Break,
             Locals false
               (failed_message (dict_get step "action" PNone) step)), s1)
    | (Ok (Stop msg), s1) => (Ok (Break, Locals false msg), s1)
    | (Raise e, s1) =>
        (Ok (Break, handler_locals (dict_get step "action" PNone) e), s1)
    end.
Proof.
  intros Hstep.
  pose proof (str_fault_get step "action" PNone Hstep str_fault_none)
    as Haction.
  unfold step_body. cbv zeta. unfold bind at 1.
  rewrite (announce_ok step s Hstep).
  unfold try_except, step_try. unfold bind at 1.
  destruct (dispatch B i step (dict_get step "action" PNone) s)
    as [[[[ | ] | msg] | e] s1].
  - cbn [negb]. cbv beta iota. unfold bind at 1.
    rewrite (time_sleep_pause 1000 s1 (or_intror eq_refl)). reflexivity.
  - cbn [negb]. cbv beta iota. unfold bind.
    rewrite (fmt_ok _ _ Haction), (fmt_ok _ _ Hstep). reflexivity.
  - reflexivity.
  - unfold step_handler, bind. rewrite !fmt_ok by exact Haction. reflexivity.
Qed.



(** The message an iteration breaks with is a string, unless the step is
    an [error] record, whose [message] field it is. *)
Lemma step_body_break (i : nat) (step : pydict) (loc : locals)
    (s s' : state) (msg : pyval) :
  step_body B i step loc s = (Ok (Break, Locals false msg), s') ->
  (exists m, msg = PStr m)
  \/ (py_eq_str (dict_get step "action" PNone) "error" = true
      /\ msg = dict_get step "message" PNone).
Proof.
  intros Hb.
  assert (Hstep : str_fault B (PDict step) = None).
  { revert Hb. unfold step_body. cbv zeta. unfold bind at 1.
    unfold announce, bind, fmt.
    destruct (str_fault B (dict_get step "action" PNone)); [discriminate |].
    destruct (str_fault B (PDict step)); [discriminate | reflexivity]. }
  rewrite (step_body_run i step loc s Hstep) in Hb.
  destruct (dispatch B i step (dict_get step "action" PNone) s)
    as [[[[ | ] | stop] | e] s1] eqn:Hd.
  - discriminate.
  - injection Hb as <- <-. left. eexists. reflexivity.
  - injection Hb as <- <-.
    apply dispatch_stop in Hd. destruct Hd as [_ [[He Hm] | Hm]].
    + right. split; assumption.
    + left. eexists. exact Hm.
  - destruct (handler_locals_str (dict_get step "action" PNone) e) as [m Hm].
    rewrite Hm in Hb. injection Hb as <- <-. left. eexists. reflexivity.
Qed.

Lemma run_steps_message (steps : plan) :
  forall (i : nat) (loc loc' : locals) (s s' : state),
    run_steps B i steps loc s = (Ok loc', s') ->
    loc' = loc
    \/ (executed_successfully loc' = false
        /\ ((exists m, error_message_for_llm loc' = PStr m)
            \/ (exists step, In step steps
                 /\ py_eq_str (dict_get step "action" PNone) "error" = true
                 /\ error_message_for_llm loc'
                    = dict_get step "message" PNone))).
Proof.
  induction steps as [| step rest IH]; intros i loc loc' s s'; simpl.
  - unfold ret. intros [= <- <-]. left. reflexivity.
  - unfold bind.
    destruct (step_body_cases i step loc s)
      as [[s1 H] | [[msg [s1 [H _]]] | [e [s1 H]]]]; rewrite H.
    + intros Hrest. apply IH in Hrest.
      destruct Hrest as [-> | [Hf [Hm | [st [Hin [He Hm]]]]]].
      * left. reflexivity.
      * right. split; [exact Hf |]. left. exact Hm.
      * right. split; [exact Hf |]. right. exists st.
        split; [right; exact Hin |]. split; assumption.
    + unfold ret. intros [= <- <-]. right. split; [reflexivity |].
      apply step_body_break in H. destruct H as [Hm | [He Hm]].
      * left. exact Hm.
      * right. exists step. split; [left; reflexivity |]. split; assumption.
    + discriminate.
Qed.

(** *** The Plan Interpreter *)

(** Lines 216-218: without a driver no step is looked at. *)
Lemma execute_plan_closed (p : plan) (instruction : string) (s : state) :
  driver_present s = false ->
  execute_plan B p instruction s
  = (Ok (false, PStr "Browser not initialized."), s).
Proof. intros H. unfold execute_plan. rewrite H. reflexivity. Qed.


(** The steps after a prefix that succeeds, when the first of them
    breaks the loop. *)
Lemma run_steps_break (pre post : plan) (step : pydict) (s s1 s2 : state)
    (loc' : locals) :
  all_succeed B 0 pre s s1 ->
  step_body B (length pre) step (Locals true PNone) s1
  = (Ok (Break, loc'), s2) ->
  run_steps B 0 (pre ++ step :: post) (Locals true PNone) s = (Ok loc', s2).
Proof.
  intros Hpre Hstep.
  rewrite (run_steps_app pre (step :: post) 0 (Locals true PNone) s eq_refl).
  rewrite (run_steps_all_succeed pre 0 s s1 Hpre). simpl.
  unfold bind. rewrite Hstep. reflexivity.
Qed.

(** C1. First failure aborts. On a session whose store renders, when
    the steps before index [length pre] all succeed and the step at that
    index, a record that renders (so that it is announced and
    dispatched), goes to an operation that reports failure (state [s2]),
    [execute_plan] returns the verdict [(False, m)] with [m] the text
    "Action '<action>' failed. Params: <step>.", which names the failing
    action and the record with its parameters. The final state is [s2]
    itself whatever steps follow, so none of them is dispatched, and the
    Action Library has been entered [length pre + 1] times in all. *)
Theorem C1_first_failure_aborts (pre post : plan) (step : pydict)
    (instruction : string) (s s1 s2 : state) :
  driver_present s = true ->
  store_renders s ->
  all_succeed B 0 pre s s1 ->
  str_fault B (PDict step) = None ->
  dispatch B (length pre) step (dict_get step "action" PNone) s1
  = (Ok (Done false), s2) ->
  execute_plan B (pre ++ step :: post) instruction s
  = (Ok (false,
         PStr ("Action '" +:+ py_str (dict_get step "action" PNone)
               +:+ "' failed. Params: " +:+ dict_str step +:+ ".")),
     s2)
  /\ call_count (trace s2) = (call_count (trace s) + length pre + 1)%nat.
Proof.
  intros Hdrv Hstore Hpre Hstep Hfail. split.
  - apply (execute_plan_of_run _ _ _ _
             (Locals false
                (failed_message (dict_get step "action" PNone) step)) Hdrv).
    + apply (run_steps_break pre post step s s1 s2 _ Hpre).
      rewrite (step_body_run _ step _ s1 Hstep), Hfail. reflexivity.
    + pose proof (dispatch_renders (length pre) step
                    (dict_get step "action" PNone) s1) as Hk.
      rewrite Hfail in Hk. apply Hk.
      apply (all_succeed_store pre 0 s s1 Hpre Hstore).
  - apply dispatch_enters_once in Hfail.
    apply all_succeed_calls in Hpre.
    unfold count in *. unfold call_count. lia.
Qed.


(** C5, amended. A plan whose steps all succeed. On a session whose
    driver is set and whose store renders, when every step of the plan
    is announced and dispatched to an operation that reports success (so
    the plan has no [error] record, no unknown action and no step whose
    parameters are missing or invalid; the empty plan is the case of no
    step), [execute_plan] returns [(True, None)]. On a session whose
    driver is not set, it returns [(False, "Browser not initialized.")]
    for every plan and processes no step. *)
Theorem C5_all_steps_succeed (p : plan) (instruction : string) (s : state) :
  (driver_present s = true ->
   store_renders s ->
   forall s', all_succeed B 0 p s s' ->
              execute_plan B p instruction s = (Ok (true, PNone), s'))
  /\ (driver_present s = false ->
      execute_plan B p instruction s
      = (Ok (false, PStr "Browser not initialized."), s)).
Proof.
  split.
  - intros Hdrv Hstore s' Hall.
    apply (execute_plan_of_run _ _ _ _ (Locals true PNone) Hdrv).
    + apply (run_steps_all_succeed p 0 s s' Hall).
    + apply (all_succeed_store p 0 s s' Hall Hstore).
  - apply execute_plan_closed.
Qed.

(** What a run that returns went through. *)
Lemma execute_plan_returned (p : plan) (instruction : string) (s s' : state)
    (verdict : bool * pyval) :
  execute_plan B p instruction s = (Ok verdict, s') ->
  (driver_present s = false
   /\ verdict = (false, PStr "Browser not initialized.") /\ s' = s)
  \/ (driver_present s = true
      /\ exists loc,
          run_steps B 0 p (Locals true PNone) s = (Ok loc, s')
          /\ verdict = (executed_successfully loc, error_message_for_llm loc)).
Proof.
  unfold execute_plan. destruct (driver_present s); simpl negb; cbv beta iota.
  - unfold bind at 1.
    destruct (run_steps B 0 p (Locals true PNone) s) as [[loc | e] s1];
      [| discriminate].
    unfold bind.
    pose proof (report_state loc s1) as Hr.
    destruct (report B loc s1) as [[[] | e] s2]; [| discriminate].
    simpl in Hr. subst s2. unfold ret. intros [= <- <-].
    right. split; [reflexivity |]. exists loc. split; reflexivity.
  - intros [= <- <-]. left. repeat split.
Qed.

(** C9, amended. The verdict of [execute_plan] is a success only with no
    message; a failure carries a message that is a string, except when
    the run stopped at an [error] record, whose [message] field ([None]
    when absent) is returned as it is. So the verdict is coherent
    whenever no [error] record of the plan has [None] for message. *)
Theorem C9_verdict_shape (p : plan) (instruction : string) (s s' : state)
    (verdict : bool * pyval) :
  execute_plan B p instruction s = (Ok verdict, s') ->
  (fst verdict = true -> snd verdict = PNone)
  /\ (fst verdict = false ->
      (exists m, snd verdict = PStr m)
      \/ (exists step, In step p
           /\ py_eq_str (dict_get step "action" PNone) "error" = true
           /\ snd verdict = dict_get step "message" PNone))
  /\ ((forall step, In step p ->
        py_eq_str (dict_get step "action" PNone) "error" = true ->
        dict_get step "message" PNone <> PNone) ->
      coherent verdict).
Proof.
  intros H.
  assert (Hshape :
      (fst verdict = true /\ snd verdict = PNone)
      \/ (fst verdict = false
          /\ ((exists m, snd verdict = PStr m)
              \/ (exists step, In step p
                   /\ py_eq_str (dict_get step "action" PNone) "error" = true
                   /\ snd verdict = dict_get step "message" PNone)))).
  { destruct (execute_plan_returned _ _ _ _ _ H)
      as [[_ [-> _]] | [_ [loc [Hr ->]]]].
    - right. split; [reflexivity |]. left. eexists. reflexivity.
    - apply run_steps_message in Hr. destruct Hr as [-> | [Hf Hm]].
      + left. split; reflexivity.
      + right. split; assumption. }
  destruct Hshape as [[Hok Hmsg] | [Hko Hmsg]].
  - split; [intros _; exact Hmsg |]. split; [congruence |].
    intros _. unfold coherent. tauto.
  - split; [congruence |]. split; [intros _; exact Hmsg |].
    intros Hrec. unfold coherent. split; [congruence |].
    intros Hnone. exfalso.
    destruct Hmsg as [[m Hm] | [step [Hin [He Hm]]]].
    + congruence.
    + apply (Hrec step Hin He). congruence.
Qed.



(** *** The Action Library *)

Lemma world_call_frame {A} (ev : event) (f : World B -> result A * World B)
    (s s' : state) (r : result A) :
  world_call B ev f s = (r, s') ->
  extracted_data s' = extracted_data s
  /\ driver_present s' = driver_present s
  /\ trace s' = ev :: trace s.
Proof.
  unfold world_call. destruct (f (world s)) as [r0 w].
  intros [= <- <-]. repeat split.
Qed.

Lemma driver_call_frame {A} (attr : string) (ev : event)
    (f : World B -> result A * World B) (s s' : state) (r : result A) :
  driver_call B attr ev f s = (r, s') ->
  extracted_data s' = extracted_data s
  /\ driver_present s' = driver_present s
  /\ (is_ok r = true -> driver_present s = true /\ trace s' = ev :: trace s).
Proof.
  unfold driver_call. destruct (driver_present s) eqn:Hp.
  - destruct (f (world s)) as [r0 w]. intros [= <- <-]. simpl.
    split; [reflexivity |]. split; [exact Hp |]. intros _. split; reflexivity.
  - intros [= <- <-]. split; [reflexivity |]. split; [exact Hp |].
    discriminate.
Qed.

(** A lookup that answers with an element went through a driver that is
    present, and logged the one bounded wait. *)
Lemma find_element_frame (st sv : pyval) (s s' : state) (r : result element) :
  find_element B st sv s = (r, s') ->
  extracted_data s' = extracted_data s
  /\ driver_present s' = driver_present s
  /\ (is_ok r = true ->
      driver_present s = true
      /\ exists by_strategy,
          get_by_strategy B st s = (Ok by_strategy, s)
          /\ trace s' = EvFind Presence by_strategy sv 10 :: trace s).
Proof.
  unfold find_element, get_by_strategy, bind, lift.
  destruct (str_lower st) as [name | e].
  - destruct (strategies name) as [strategy |]; simpl.
    + intros H. apply driver_call_frame in H. destruct H as [Hd [Hp Ht]].
      repeat split; try assumption.
      * apply Ht; assumption.
      * exists strategy. split; [reflexivity |]. apply Ht; assumption.
    + intros [= <- <-]. repeat split; discriminate.
  - intros [= <- <-]. repeat split; discriminate.
Qed.

(** *** The operations once their arguments have rendered *)

Lemma navigate_rendered (url : pyval) (s : state) :
  str_fault B url = None ->
  navigate B url s
  = match
      bind B (driver_call B "get" (EvGet url) (br_get B url))
        (fun _ =>
           bind B (driver_call B "execute_script" (EvWaitReady 15)
                     (br_wait_ready B 15))
             (fun _ => ret B true))
        (add_event B (EvCall (CallNavigate url)) s)
    with
    | (Ok ok, s') => (Ok ok, s')
    | (Raise _, s') => (Ok false, s')
    end.
Proof.
  intros H. unfold navigate. unfold bind at 1. unfold log.
  unfold bind at 1. rewrite (fmt_ok _ _ H). unfold try_except.
  match goal with
  | |- context [match ?body ?s0 with _ => _ end] =>
      destruct (body s0) as [[ok | e] s1]
  end; [reflexivity |].
  destruct (is_instance e [TimeoutException]); unfold bind;
    rewrite (fmt_ok _ _ H); reflexivity.
Qed.

Lemma type_text_rendered (st sv text enter_after : pyval) (s : state) :
  str_fault B text = None -> str_fault B st = None -> str_fault B sv = None ->
  type_text B st sv text enter_after s
  = match
      bind B (typing_target B st sv) (fun e => inject B e text enter_after)
        (add_event B (EvCall (CallTypeText st sv text enter_after)) s)
    with
    | (Ok ok, s') => (Ok ok, s')
    | (Raise _, s') => (Ok false, s')
    end.
Proof.
  intros Ht Hst Hsv. unfold type_text. unfold bind at 1. unfold log.
  unfold bind at 1. rewrite (fmt_ok _ _ Ht).
  unfold bind at 1. rewrite (fmt_ok _ _ Hst).
  unfold bind at 1. rewrite (fmt_ok _ _ Hsv). unfold try_except.
  match goal with
  | |- context [match ?body ?s0 with _ => _ end] =>
      destruct (body s0) as [[ok | e] s1]
  end; [reflexivity |].
  destruct (is_instance e [TimeoutException; NoSuchElementException]);
    [| destruct (is_instance e [ElementNotInteractableException])];
    reflexivity.
Qed.

Lemma click_element_rendered (st sv : pyval) (s : state) :
  str_fault B st = None -> str_fault B sv = None ->
  click_element B st sv s
  = match
      native_click B st sv (add_event B (EvCall (CallClickElement st sv)) s)
    with
    | (Ok ok, s') => (Ok ok, s')
    | (Raise e, s') =>
        if is_instance e [TimeoutException; NoSuchElementException]
        then (Ok false, s')
        else if is_instance e [ElementNotInteractableException]
        then js_click B st sv s'
        else (Ok false, s')
    end.
Proof.
  intros Hst Hsv. unfold click_element. unfold bind at 1. unfold log.
  unfold bind at 1. rewrite (fmt_ok _ _ Hst).
  unfold bind at 1. rewrite (fmt_ok _ _ Hsv). unfold try_except.
  destruct (native_click B st sv
              (add_event B (EvCall (CallClickElement st sv)) s))
    as [[ok | e] s1]; [reflexivity |].
  destruct (is_instance e [TimeoutException; NoSuchElementException]);
    [reflexivity |].
  destruct (is_instance e [ElementNotInteractableException]); [reflexivity |].
  destruct (is_instance e [StaleElementReferenceException]); reflexivity.
Qed.

Lemma extract_text_rendered (st sv variable_name : pyval) (s : state) :
  str_fault B st = None -> str_fault B sv = None ->
  str_fault B variable_name = None ->
  extract_text B st sv variable_name s
  = match
      bind B (find_element B st sv)
        (fun e =>
           bind B (text_content B e)
             (fun content => set_item B variable_name (stripped content)))
        (add_event B (EvCall (CallExtractText st sv variable_name)) s)
    with
    | (Ok _, s') => (Ok true, s')
    | (Raise _, s') =>
        bind B (set_item B variable_name PNone) (fun _ => ret B false) s'
    end.
Proof.
  intros Hst Hsv Hname. unfold extract_text. unfold bind at 1. unfold log.
  unfold bind at 1. rewrite (fmt_ok _ _ Hst).
  unfold bind at 1. rewrite (fmt_ok _ _ Hsv).
  unfold bind at 1. rewrite (fmt_ok _ _ Hname). unfold try_except.
  set (entered := add_event B (EvCall (CallExtractText st sv variable_name)) s).
  unfold bind.
  destruct (find_element B st sv entered) as [[e | x] s1].
  - destruct (text_content B e s1) as [[content | x] s2].
    + destruct (set_item B variable_name (stripped content) s2)
        as [[[] | x] s3].
      * rewrite (fmt_ok _ _ Hname). reflexivity.
      * destruct (is_instance x _); reflexivity.
    + destruct (is_instance x _); reflexivity.
  - destruct (is_instance x _); reflexivity.
Qed.




(** C7, amended. For every call of [scroll_window] with a direction whose
    lower-cased form is none of down, up, to_bottom, to_top (a direction
    that is not a string included), no command is issued and the
    Extracted-Data Store maps every name as before. When the direction
    renders, the operation returns [False] without raising: the state
    after it is the state before with the entry into the operation
    logged. When it does not, the fault of rendering it is raised, with
    the same state. *)
Theorem C7_unknown_direction_fails (direction : pyval) (pixels : Z)
    (s : state) :
  unknown_direction direction = true ->
  scroll_window B direction pixels s
  = (match str_fault B direction with
     | None => Ok false
     | Some e => Raise e
     end,
     add_event B (EvCall (CallScrollWindow direction pixels)) s)
  /\ (forall name : key,
        extracted_data (snd (scroll_window B direction pixels s)) !! name
        = extracted_data s !! name).
Proof.
  intros H.
  assert (Heq : scroll_window B direction pixels s
    = (match str_fault B direction with
       | None => Ok false
       | Some e => Raise e
       end,
       add_event B (EvCall (CallScrollWindow direction pixels)) s)).
  { unfold scroll_window. unfold bind at 1. unfold log. unfold bind at 1.
    destruct (str_fault B direction) as [e |] eqn:Hf.
    - rewrite (fmt_raise _ _ _ Hf). reflexivity.
    - rewrite (fmt_ok _ _ Hf).
      assert (Hexact : py_eq_str direction "up" || py_eq_str direction "down"
                       = false).
      { unfold unknown_direction in H.
        destruct direction; try reflexivity. simpl in H |- *.
        destruct (String.eqb s0 "up") eqn:E1.
        - apply String.eqb_eq in E1. subst s0. discriminate H.
        - destruct (String.eqb s0 "down") eqn:E2; [| reflexivity].
          apply String.eqb_eq in E2. subst s0. discriminate H. }
      rewrite Hexact. cbn [andb]. cbv zeta. unfold bind at 1. unfold ret at 1.
      unfold try_except, bind at 1, lift.
      unfold unknown_direction in H.
      destruct (str_lower direction) as [d | e]; [| reflexivity].
      destruct (String.eqb d "down"); [discriminate H |].
      destruct (String.eqb d "up"); [discriminate H |].
      destruct (String.eqb d "to_bottom"); [discriminate H |].
      destruct (String.eqb d "to_top"); [discriminate H |].
      unfold bind. rewrite (fmt_ok _ _ Hf). reflexivity. }
  split; [exact Heq |]. intros name. rewrite Heq. reflexivity.
Qed.

(** C3. What [extract_text] stores, for arguments that render and a
    variable name that is hashable (a string, as the signature asks, in
    particular). When the selector does not resolve (the lookup raises,
    as the bounded wait does when it runs out), the operation returns
    [False] and the store maps the name to [None], which is not the
    empty string. When it resolves to an element whose visible text,
    [value] attribute and [innerText] attribute read as [text], [value]
    and [inner], the operation returns [True] and the store maps the
    name to the stripped first non-empty of the three, in that order, or
    to the empty string when all three are empty. *)
Theorem C3_extract_text_store (st sv variable_name : pyval) (k : key)
    (s : state) :
  str_fault B st = None -> str_fault B sv = None ->
  str_fault B variable_name = None ->
  hash_key variable_name = Ok k ->
  let entered := add_event B (EvCall (CallExtractText st sv variable_name)) s in
  (forall err s1,
      find_element B st sv entered = (Raise err, s1) ->
      exists s',
        extract_text B st sv variable_name s = (Ok false, s')
        /\ extracted_data s' = <[k := PNone]> (extracted_data s))
  /\ PNone <> PStr ""
  /\ (forall e s1 text s2 value s3 inner s4,
        find_element B st sv entered = (Ok e, s1) ->
        world_call B (EvText e) (br_text B e) s1 = (Ok text, s2) ->
        world_call B (EvGetAttribute e "value") (br_get_attribute B e "value") s2
        = (Ok value, s3) ->
        world_call B (EvGetAttribute e "innerText")
          (br_get_attribute B e "innerText") s3
        = (Ok inner, s4) ->
        exists s',
          extract_text B st sv variable_name s = (Ok true, s')
          /\ extracted_data s'
             = <[k := match first_nonempty text value inner with
                      | Some found => PStr (py_strip found)
                      | None => PStr ""
                      end]> (extracted_data s)).
Proof.
  intros Hst Hsv Hname Hk entered. split; [| split; [discriminate |]].
  - intros err s1 Hfind.
    pose proof (find_element_frame _ _ _ _ _ Hfind) as [Hd _].
    rewrite (extract_text_rendered st sv variable_name s Hst Hsv Hname).
    fold entered. unfold bind at 1. rewrite Hfind.
    unfold set_item, bind, lift. rewrite Hk.
    eexists; (split; [reflexivity |]); simpl; rewrite Hd; reflexivity.
  - intros e s1 text s2 value s3 inner s4 Hfind Htext Hvalue Hinner.
    pose proof (find_element_frame _ _ _ _ _ Hfind) as [Hd1 _].
    pose proof (world_call_frame _ _ _ _ _ Htext) as [Hd2 _].
    pose proof (world_call_frame _ _ _ _ _ Hvalue) as [Hd3 _].
    pose proof (world_call_frame _ _ _ _ _ Hinner) as [Hd4 _].
    rewrite (extract_text_rendered st sv variable_name s Hst Hsv Hname).
    fold entered. unfold bind at 1. rewrite Hfind.
    unfold text_content, bind. rewrite Htext.
    unfold first_nonempty.
    destruct (nonempty text) eqn:Et.
    + unfold ret, set_item, bind, lift. rewrite Hk. simpl. rewrite Et.
      eexists. split; [reflexivity |]. simpl. rewrite Hd2, Hd1. reflexivity.
    + rewrite Hvalue. destruct (opt_truthy value) eqn:Ev.
      * unfold ret, set_item, bind, lift. rewrite Hk.
        destruct value as [v |]; [| discriminate Ev]. simpl in Ev |- *.
        rewrite Ev. eexists. split; [reflexivity |]. simpl.
        rewrite Hd3, Hd2, Hd1. reflexivity.
      * rewrite Hinner. unfold ret, set_item, bind, lift. rewrite Hk.
        destruct inner as [v |]; simpl.
        -- destruct (nonempty v) eqn:Ei; eexists; (split; [reflexivity |]);
             simpl; rewrite Hd4, Hd3, Hd2, Hd1; reflexivity.
        -- eexists. split; [reflexivity |]. simpl.
           rewrite Hd4, Hd3, Hd2, Hd1. reflexivity.
Qed.

(** A not-interactable fault out of the native click path means the
    driver is present and the selector type names a strategy. *)
Lemma native_click_fault (st sv : pyval) (s s1 : state) (err : exn) :
  native_click B st sv s = (Raise err, s1) ->
  exn_cls err = ElementNotInteractableException ->
  driver_present s1 = true
  /\ exists name by_strategy,
      str_lower st = Ok name /\ strategies name = Some by_strategy.
Proof.
  unfold native_click, find_clickable_element, get_by_strategy, bind, lift.
  destruct (str_lower st) as [name | e0] eqn:Hlower.
  2: { simpl. intros [= <- <-] Hcls. exfalso.
       destruct st; simpl in Hlower; try discriminate Hlower;
         injection Hlower as <-; discriminate Hcls. }
  destruct (strategies name) as [strategy |] eqn:Hstrategy;
    [| simpl; intros [= <- <-]; discriminate].
  simpl. unfold driver_call at 1.
  destruct (driver_present s) eqn:Hp; [| intros [= <- <-]; discriminate].
  intros H Hcls.
  split; [| exists name, strategy; split; [reflexivity | exact Hstrategy]].
  destruct (br_find B Clickable strategy sv 10 (world s)) as [[e | x] w].
  - unfold try_except, execute_script, driver_call, bind, world_call, ret in H.
    simpl in H. rewrite Hp in H.
    destruct (br_execute_script B _ [e] w) as [[[] | x] w1]; simpl in H;
      rewrite ?(time_sleep_pause 500 _ (or_introl eq_refl)) in H; simpl in H;
      match type of H with
      | context [br_click B e ?w0] => destruct (br_click B e w0) as [[[] | y] w2]
      end;
      simpl in H; try discriminate H; injection H as _ <-; exact Hp.
  - injection H as _ <-. exact Hp.
Qed.

(** C4. The fallback of [click_element], for a selector that renders.
    When the native click path raises a not-interactable fault (state
    [s1]), what follows is one attempt and nothing else: the driver is
    asked once for the element by presence alone (the bounded wait of
    [_find_element], under the strategy the selector type names) and, if
    it answers with an element, asked once to run the click script on
    it. The operation returns [True] exactly when the driver answers
    both without a fault, and the state is the one these two requests
    left. When the native click path raises a stale-element fault, the
    operation returns [False] in the state the fault left: no fallback
    is attempted. *)
Theorem C4_click_fallback (st sv : pyval) (s s1 : state) (err : exn) :
  str_fault B st = None -> str_fault B sv = None ->
  native_click B st sv (add_event B (EvCall (CallClickElement st sv)) s)
  = (Raise err, s1) ->
  (exn_cls err = ElementNotInteractableException ->
   exists name by_strategy,
     str_lower st = Ok name
     /\ strategies name = Some by_strategy
     /\ click_element B st sv s
        = match br_find B Presence by_strategy sv 10 (world s1) with
          | (Raise _, w) =>
              (Ok false,
               set_world B w
                 (add_event B (EvFind Presence by_strategy sv 10) s1))
          | (Ok e, w) =>
              let (r, w') :=
                br_execute_script B "arguments[0].click();" [e] w in
              (Ok (is_ok r),
               set_world B w'
                 (add_event B (EvScript "arguments[0].click();" [e])
                    (set_world B w
                       (add_event B (EvFind Presence by_strategy sv 10) s1))))
          end)
  /\ (exn_cls err = StaleElementReferenceException ->
      click_element B st sv s = (Ok false, s1)).
Proof.
  intros Hst Hsv Hnat. split.
  - intros Hcls.
    destruct (native_click_fault _ _ _ _ _ Hnat Hcls)
      as [Hp [name [strategy [Hlower Hstrategy]]]].
    exists name, strategy. split; [exact Hlower |]. split; [exact Hstrategy |].
    assert (H1 : is_instance err [TimeoutException; NoSuchElementException]
                 = false)
      by (unfold is_instance; rewrite Hcls; reflexivity).
    assert (H2 : is_instance err [ElementNotInteractableException] = true)
      by (unfold is_instance; rewrite Hcls; reflexivity).
    rewrite (click_element_rendered st sv s Hst Hsv), Hnat, H1, H2.
    unfold js_click, try_except, find_element, get_by_strategy, bind, lift.
    rewrite Hlower, Hstrategy. unfold ret at 1. unfold driver_call at 1.
    rewrite Hp.
    destruct (br_find B Presence strategy sv 10 (world s1)) as [[e | x] w];
      [| reflexivity].
    unfold execute_script, driver_call. simpl. rewrite Hp.
    destruct (br_execute_script B "arguments[0].click();" [e] w)
      as [[[] | y] w1]; reflexivity.
  - intros Hcls.
    rewrite (click_element_rendered st sv s Hst Hsv), Hnat.
    unfold is_instance. rewrite Hcls. reflexivity.
Qed.

Lemma typing_target_no_submit (st sv : pyval) :
  keeps is_submit (typing_target B st sv).
Proof.
  unfold typing_target, not_interactable, find_element, execute_script.
  keeps_auto.
Qed.

(** C8, amended. The submit keystroke of [type_text]. With a false
    [enter_after] no submit keystroke is injected, whatever happens. With
    a true [enter_after] and arguments that render, in a call that
    reaches the text injection (the target [e] is resolved and cleared):
    if the injection of the text returns, exactly one submit keystroke
    is injected, right after the text, and the operation returns [True]
    exactly when the driver accepts that keystroke; if the injection of
    the text faults, the operation returns [False] in the state the
    fault left, and no submit keystroke is injected. *)
Theorem C8_submit_keystroke (st sv text enter_after : pyval) (s : state) :
  let entered :=
    add_event B (EvCall (CallTypeText st sv text enter_after)) s in
  let final := snd (type_text B st sv text enter_after s) in
  (truthy enter_after = false ->
     submit_count (trace final) = submit_count (trace s))
  /\ (forall e s1 s2 r s3,
        str_fault B text = None -> str_fault B st = None ->
        str_fault B sv = None ->
        truthy enter_after = true ->
        typing_target B st sv entered = (Ok e, s1) ->
        world_call B (EvClear e) (br_clear B e) s1 = (Ok tt, s2) ->
        world_call B (EvSendKeys e (KeysText text))
          (br_send_keys B e (KeysText text)) s2
        = (r, s3) ->
        match r with
        | Ok _ =>
            type_text B st sv text enter_after s
            = (let (r4, w4) := br_send_keys B e KeysReturn (world s3) in
               (Ok (is_ok r4),
                set_world B w4 (add_event B (EvSendKeys e KeysReturn) s3)))
            /\ trace final
               = EvSendKeys e KeysReturn :: EvSendKeys e (KeysText text)
                 :: trace s2
            /\ submit_count (trace final) = S (submit_count (trace s))
        | Raise _ =>
            type_text B st sv text enter_after s = (Ok false, s3)
            /\ submit_count (trace final) = submit_count (trace s)
        end).
Proof.
  intros entered final. split.
  - intros Hfalse. subst final.
    assert (H : keeps is_submit (type_text B st sv text enter_after)).
    { unfold type_text. apply keeps_bind; [apply keeps_log; reflexivity |].
      intros _. apply keeps_bind; [apply keeps_fmt |]. intros _.
      apply keeps_bind; [apply keeps_fmt |]. intros _.
      apply keeps_bind; [apply keeps_fmt |]. intros _.
      apply keeps_try.
      - apply keeps_bind; [apply typing_target_no_submit |].
        intros e. unfold inject. rewrite Hfalse. keeps_auto.
      - intros e. keeps_auto. }
    exact (H s).
  - intros e s1 s2 r s3 Htext Hst Hsv Htrue Htarget Hclear Hsend.
    pose proof (typing_target_no_submit st sv entered) as Hk.
    rewrite Htarget in Hk. simpl in Hk.
    pose proof (world_call_frame _ _ _ _ _ Hclear) as [_ [_ Ht2]].
    pose proof (world_call_frame _ _ _ _ _ Hsend) as [_ [_ Ht3]].
    assert (Hcount : submit_count (trace s2) = submit_count (trace s)).
    { unfold count in Hk. unfold submit_count. rewrite Ht2. simpl.
      exact Hk. }
    subst final.
    assert (Hrun :
      type_text B st sv text enter_after s
      = match r with
        | Ok _ =>
            let (r4, w4) := br_send_keys B e KeysReturn (world s3) in
            (Ok (is_ok r4),
             set_world B w4 (add_event B (EvSendKeys e KeysReturn) s3))
        | Raise _ => (Ok false, s3)
        end).
    { rewrite (type_text_rendered st sv text enter_after s Htext Hst Hsv).
      fold entered. unfold bind at 1. rewrite Htarget.
      unfold inject, bind. rewrite Hclear, Hsend, Htrue.
      destruct r as [[] | x]; [| reflexivity].
      unfold world_call.
      destruct (br_send_keys B e KeysReturn (world s3)) as [[[] | y] w4];
        reflexivity. }
    rewrite Hrun. destruct r as [[] | x].
    + destruct (br_send_keys B e KeysReturn (world s3)) as [r4 w4].
      split; [reflexivity |]. cbn [snd]. simpl. rewrite Ht3.
      split; [reflexivity |].
      unfold submit_count in *. simpl. rewrite Hcount. reflexivity.
    + split; [reflexivity |]. cbn [snd].
      unfold submit_count in *. rewrite Ht3. simpl. exact Hcount.
Qed.

End Properties.

(* ===================================================================== *)
(** ** Runs on the fake drivers *)
(* ===================================================================== *)

Example closed_session_run :
  execute_plan (fake (cooperative "")) scenario_plan "search"
    (closed_session (cooperative ""))
  = (Ok (false, PStr "Browser not initialized."),
     closed_session (cooperative "")).
Proof. apply execute_plan_closed. reflexivity. Qed.

(** A run of steps that succeed, evaluated. *)
Ltac steps_succeed :=
  repeat (econstructor;
          [ vm_compute; reflexivity | vm_compute; reflexivity
          | vm_compute; reflexivity | ]);
  constructor.

Lemma C1_witness :
  exists s2,
    execute_plan (fake hidden) scenario_plan "search" (new_session hidden)
    = (Ok (false,
           PStr "Action 'type' failed. Params: {'action': 'type', 'selector_type': 'name', 'selector_value': 'q', 'text': 'hello', 'enter_after': True}."),
       s2)
    /\ call_count (trace s2) = 2%nat.
Proof.
  eexists.
  eapply (C1_first_failure_aborts (fake hidden) [navigate_step]
           [wait_step (PInt 1); extract_step] type_step "search"
           (new_session hidden)).
  - reflexivity.
  - vm_compute. reflexivity.
  - steps_succeed.
  - vm_compute. reflexivity.
  - vm_compute. reflexivity.
Defined.



Lemma C3_witness :
  (exists s',
      extract_text (fake (cooperative "  Title ")) (PStr "xpath")
        (PStr "//h1") (PStr "title") (new_session (cooperative "  Title "))
      = (Ok true, s')
      /\ extracted_data s' !! KStr "title" = Some (PStr "Title"))
  /\ (exists s',
        extract_text (fake (cooperative "")) (PStr "xpath") (PStr "//h1")
          (PStr "title") (new_session (cooperative ""))
        = (Ok true, s')
        /\ extracted_data s' !! KStr "title" = Some (PStr ""))
  /\ (exists s',
        extract_text (fake timing_out) (PStr "xpath") (PStr "//h1")
          (PStr "title") (new_session timing_out)
        = (Ok false, s')
        /\ extracted_data s' !! KStr "title" = Some PNone).
Proof.
  split; [| split].
  - destruct (C3_extract_text_store (fake (cooperative "  Title "))
                (PStr "xpath") (PStr "//h1") (PStr "title") (KStr "title")
                (new_session (cooperative "  Title ")) eq_refl eq_refl eq_refl
                eq_refl)
      as [_ [_ Hfound]].
    edestruct Hfound as [s' [Hrun Hdata]];
      [vm_compute; reflexivity | vm_compute; reflexivity
      | vm_compute; reflexivity | vm_compute; reflexivity |].
    exists s'. split; [exact Hrun |]. rewrite Hdata. apply lookup_insert_eq.
  - destruct (C3_extract_text_store (fake (cooperative ""))
                (PStr "xpath") (PStr "//h1") (PStr "title") (KStr "title")
                (new_session (cooperative "")) eq_refl eq_refl eq_refl eq_refl)
      as [_ [_ Hfound]].
    edestruct Hfound as [s' [Hrun Hdata]];
      [vm_compute; reflexivity | vm_compute; reflexivity
      | vm_compute; reflexivity | vm_compute; reflexivity |].
    exists s'. split; [exact Hrun |]. rewrite Hdata. apply lookup_insert_eq.
  - destruct (C3_extract_text_store (fake timing_out)
                (PStr "xpath") (PStr "//h1") (PStr "title") (KStr "title")
                (new_session timing_out) eq_refl eq_refl eq_refl eq_refl)
      as [Hmissing _].
    edestruct Hmissing as [s' [Hrun Hdata]]; [vm_compute; reflexivity |].
    exists s'. split; [exact Hrun |]. rewrite Hdata. apply lookup_insert_eq.
Defined.

Lemma C4_witness :
  click_element
    (fake (click_blocked ElementNotInteractableException (Ok 9%nat)))
    (PStr "css") (PStr "#go")
    (new_session (click_blocked ElementNotInteractableException (Ok 9%nat)))
  = (Ok true,
     State (B := fake (click_blocked ElementNotInteractableException
                         (Ok 9%nat)))
       tt true ∅
       [EvScript "arguments[0].click();" [9%nat];
        EvFind Presence ByCssSelector (PStr "#go") 10;
        EvClick 7%nat; EvSleep 500;
        EvScript
          "arguments[0].scrollIntoView({behavior: 'smooth', block: 'center'});"
          [7%nat];
        EvFind Clickable ByCssSelector (PStr "#go") 10;
        EvCall (CallClickElement (PStr "css") (PStr "#go"))])
  /\ fst (click_element
            (fake (click_blocked StaleElementReferenceException (Ok 9%nat)))
            (PStr "css") (PStr "#go")
            (new_session (click_blocked StaleElementReferenceException
                            (Ok 9%nat))))
     = Ok false.
Proof.
  split.
  - destruct (native_click
                (fake (click_blocked ElementNotInteractableException
                         (Ok 9%nat)))
                (PStr "css") (PStr "#go")
                (add_event _ (EvCall (CallClickElement (PStr "css")
                                        (PStr "#go")))
                   (new_session (click_blocked ElementNotInteractableException
                                   (Ok 9%nat)))))
      as [[v | err] s1] eqn:Hnat; [vm_compute in Hnat; discriminate |].
    pose proof
      (proj1 (C4_click_fallback
                (fake (click_blocked ElementNotInteractableException
                         (Ok 9%nat)))
                (PStr "css") (PStr "#go")
                (new_session (click_blocked ElementNotInteractableException
                                (Ok 9%nat))) s1 err eq_refl eq_refl Hnat))
      as Hfallback.
    vm_compute in Hnat. injection Hnat as <- <-.
    destruct (Hfallback eq_refl) as [name [strategy [Hlower [Hby Hrun]]]].
    vm_compute in Hlower. injection Hlower as <-.
    vm_compute in Hby. injection Hby as <-.
    rewrite Hrun. vm_compute. reflexivity.
  - destruct (native_click
                (fake (click_blocked StaleElementReferenceException
                         (Ok 9%nat)))
                (PStr "css") (PStr "#go")
                (add_event _ (EvCall (CallClickElement (PStr "css")
                                        (PStr "#go")))
                   (new_session (click_blocked StaleElementReferenceException
                                   (Ok 9%nat)))))
      as [[v | err] s1] eqn:Hnat; [vm_compute in Hnat; discriminate |].
    pose proof
      (proj2 (C4_click_fallback
                (fake (click_blocked StaleElementReferenceException
                         (Ok 9%nat)))
                (PStr "css") (PStr "#go")
                (new_session (click_blocked StaleElementReferenceException
                                (Ok 9%nat))) s1 err eq_refl eq_refl Hnat))
      as Hstale.
    vm_compute in Hnat. injection Hnat as <- <-.
    rewrite (Hstale eq_refl). reflexivity.
Defined.

Lemma C5_witness :
  exists s',
    execute_plan (fake (cooperative "Title")) scenario_plan "search"
      (new_session (cooperative "Title"))
    = (Ok (true, PNone), s')
    /\ extracted_data s' !! KStr "title" = Some (PStr "Title").
Proof.
  eexists. split.
  - apply (proj1 (C5_all_steps_succeed (fake (cooperative "Title"))
                    scenario_plan "search"
                    (new_session (cooperative "Title"))));
      [reflexivity | vm_compute; reflexivity |].
    steps_succeed.
  - vm_compute. reflexivity.
Defined.

(** The claim C5 as stated fails on a session whose browser was closed:
    the empty plan has no step that fails, no [error] record and no
    unknown action, and the verdict is a failure with a message. *)
Lemma C5_counterexample :
  let s := closed_session (cooperative "") in
  all_succeed (fake (cooperative "")) 0 [] s s
  /\ execute_plan (fake (cooperative "")) [] "search" s
     = (Ok (false, PStr "Browser not initialized."), s)
  /\ execute_plan (fake (cooperative "")) [] "search" s
     <> (Ok (true, PNone), s).
Proof.
  intros s. split; [constructor |]. split; [reflexivity | discriminate].
Qed.



Lemma C7_witness :
  let s := new_session (cooperative "") in
  scroll_window (fake (cooperative "")) (PStr "left") 300 s
  = (Ok false,
     add_event _ (EvCall (CallScrollWindow (PStr "left") 300)) s)
  /\ scroll_window (fake (cooperative "")) PNone 0 s
     = (Ok false, add_event _ (EvCall (CallScrollWindow PNone 0)) s)
  /\ scroll_window (fake (cooperative "")) (PInt (10 ^ 4300)) 0 s
     = (Raise (Exn ValueError
                 "Exceeds the limit (4300 digits) for integer string conversion; use sys.set_int_max_str_digits() to increase the limit"),
        add_event _ (EvCall (CallScrollWindow (PInt (10 ^ 4300)) 0)) s).
Proof.
  intros s. split; [| split].
  - apply (C7_unknown_direction_fails (fake (cooperative "")) (PStr "left")
             300 s). reflexivity.
  - apply (C7_unknown_direction_fails (fake (cooperative "")) PNone 0 s).
    reflexivity.
  - rewrite (proj1 (C7_unknown_direction_fails (fake (cooperative ""))
                      (PInt (10 ^ 4300)) 0 s eq_refl)).
    vm_compute. reflexivity.
Defined.

(** The claim C7 as stated fails: a direction that is none of the four
    names as written, but is one of them once lower-cased, scrolls and
    succeeds. *)
Lemma C7_counterexample :
  let run :=
    scroll_window (fake (cooperative "")) (PStr "DOWN") 0
      (new_session (cooperative "")) in
  ~ In "DOWN" ["down"; "up"; "to_bottom"; "to_top"]
  /\ fst run = Ok true
  /\ trace (snd run)
     = [EvSleep 500; EvScript "window.scrollBy(0, window.innerHeight);" [];
        EvCall (CallScrollWindow (PStr "DOWN") 0)].
Proof.
  split.
  - simpl. intros [H | [H | [H | [H | []]]]]; discriminate H.
  - vm_compute. split; reflexivity.
Qed.

Lemma C8_witness :
  let s := new_session (cooperative "") in
  submit_count
    (trace (snd (type_text (fake (cooperative "")) (PStr "name") (PStr "q")
                   (PStr "hello") (PBool false) s)))
  = 0%nat
  /\ submit_count
       (trace (snd (type_text (fake (cooperative "")) (PStr "name")
                      (PStr "q") (PStr "hello") (PBool true) s)))
     = 1%nat.
Proof.
  intros s. split.
  - apply (proj1 (C8_submit_keystroke (fake (cooperative "")) (PStr "name")
                    (PStr "q") (PStr "hello") (PBool false) s)).
    reflexivity.
  - eapply proj2.
    eapply proj2.
    eapply (proj2 (C8_submit_keystroke (fake (cooperative ""))
                     (PStr "name") (PStr "q") (PStr "hello") (PBool true) s)
              7%nat _ _ (Ok tt) _);
      [reflexivity | reflexivity | reflexivity | reflexivity
      | vm_compute; reflexivity | vm_compute; reflexivity
      | vm_compute; reflexivity].
Defined.

(** The claim C8 as stated fails: a call with a true [enter_after] that
    reaches the text injection (the trace shows it) and whose text
    injection faults injects no submit keystroke. *)
Lemma C8_counterexample :
  let run :=
    type_text (fake typing_rejected) (PStr "name") (PStr "q") (PStr "hello")
      (PBool true) (new_session typing_rejected) in
  head (trace (snd run)) = Some (EvSendKeys 7%nat (KeysText (PStr "hello")))
  /\ submit_count (trace (snd run)) = 0%nat
  /\ fst run = Ok false.
Proof.
  vm_compute. repeat split.
Qed.

Lemma C9_witness :
  exists s',
    execute_plan (fake hidden) scenario_plan "search" (new_session hidden)
    = (Ok (false,
           PStr "Action 'type' failed. Params: {'action': 'type', 'selector_type': 'name', 'selector_value': 'q', 'text': 'hello', 'enter_after': True}."),
       s')
    /\ coherent
         (false,
          PStr "Action 'type' failed. Params: {'action': 'type', 'selector_type': 'name', 'selector_value': 'q', 'text': 'hello', 'enter_after': True}.").
Proof.
  eexists.
  assert (Hrun : execute_plan (fake hidden) scenario_plan "search"
                   (new_session hidden)
                 = (Ok (false,
                        PStr "Action 'type' failed. Params: {'action': 'type', 'selector_type': 'name', 'selector_value': 'q', 'text': 'hello', 'enter_after': True}."),
                    _))
    by (vm_compute; reflexivity).
  split; [exact Hrun |].
  apply (C9_verdict_shape (fake hidden) scenario_plan "search"
           (new_session hidden) _ _ Hrun).
  intros step Hin Herr. exfalso.
  destruct Hin as [<- | [<- | [<- | [<- | []]]]]; discriminate Herr.
Defined.

(** The claim C9 as stated fails: a plan that stops at an [error] record
    without a message gives a failure verdict that carries no message. *)
Lemma C9_counterexample :
  fst (execute_plan (fake (cooperative "")) [navigate_step; bare_error_step]
         "search" (new_session (cooperative "")))
  = Ok (false, PNone)
  /\ ~ coherent (false, PNone).
Proof.
  split; [vm_compute; reflexivity |].
  unfold coherent. simpl. intros [_ H]. discriminate (H eq_refl).
Qed.



(* ===================================================================== *)
(** ** Further properties of the agent *)
(* ===================================================================== *)

Section MoreProperties.

Variable B : Browser.

Abbreviation state := (state B).

(** *** The store across the operations *)

Lemma same_store_refl (s : state) : same_store s s.
Proof. split; reflexivity. Qed.

Lemma same_store_trans (s1 s2 s3 : state) :
  same_store s1 s2 -> same_store s2 s3 -> same_store s1 s3.
Proof. intros [H1 H2] [H3 H4]. split; congruence. Qed.

Lemma same_store_event (ev : event) (s : state) :
  same_store s (add_event B ev s).
Proof. split; reflexivity. Qed.

Lemma same_store_world (w : World B) (s : state) :
  same_store s (set_world B w s).
Proof. split; reflexivity. Qed.

Lemma store_grows_refl (s : state) : store_grows s s.
Proof. split; [intros k H; exact H | reflexivity]. Qed.

Lemma store_grows_trans (s1 s2 s3 : state) :
  store_grows s1 s2 -> store_grows s2 s3 -> store_grows s1 s3.
Proof.
  intros [H1 H2] [H3 H4]. split; [| congruence].
  intros k H. apply H3, H1, H.
Qed.

Lemma same_store_grows (s s' : state) : same_store s s' -> store_grows s s'.
Proof.
  intros [Hd Hp]. split; [| exact Hp]. intros k H. rewrite Hd. exact H.
Qed.

Lemma same_but_refl (k : key) (s : state) : same_but k s s.
Proof. split; reflexivity. Qed.

Lemma same_but_trans (k : key) (s1 s2 s3 : state) :
  same_but k s1 s2 -> same_but k s2 s3 -> same_but k s1 s3.
Proof.
  intros [H1 H2] [H3 H4]. split; [| congruence].
  intros k' Hne. rewrite (H3 k' Hne). apply H1, Hne.
Qed.

Lemma same_store_but (k : key) (s s' : state) :
  same_store s s' -> same_but k s s'.
Proof. intros [Hd Hp]. split; [| exact Hp]. intros k' _. rewrite Hd. reflexivity. Qed.

Ltac use_same_store :=
  pose proof same_store_refl; pose proof same_store_trans;
  pose proof same_store_event; pose proof same_store_world.

Ltac use_store_grows :=
  pose proof store_grows_refl; pose proof store_grows_trans;
  pose proof (fun ev s => same_store_grows _ _ (same_store_event ev s));
  pose proof (fun w s => same_store_grows _ _ (same_store_world w s)).

Ltac use_same_but k :=
  pose proof (same_but_refl k); pose proof (same_but_trans k);
  pose proof (fun ev s => same_store_but k _ _ (same_store_event ev s));
  pose proof (fun w s => same_store_but k _ _ (same_store_world w s)).

Lemma navigate_same_store (url : pyval) :
  respects same_store (navigate B url).
Proof. use_same_store. unfold navigate. respects_auto. Qed.

Lemma type_text_same_store (st sv text enter_after : pyval) :
  respects same_store (type_text B st sv text enter_after).
Proof.
  use_same_store.
  unfold type_text, typing_target, inject, not_interactable, find_element,
    execute_script.
  respects_auto.
Qed.

Lemma click_element_same_store (st sv : pyval) :
  respects same_store (click_element B st sv).
Proof.
  use_same_store.
  unfold click_element, native_click, js_click, find_clickable_element,
    find_element, execute_script.
  respects_auto.
Qed.

Lemma wait_same_store (seconds : Z) : respects same_store (wait B seconds).
Proof. use_same_store. unfold wait. respects_auto. Qed.

Lemma scroll_window_same_store (direction : pyval) (pixels : Z) :
  respects same_store (scroll_window B direction pixels).
Proof.
  use_same_store. unfold scroll_window, fmt_amount, execute_script. cbv zeta.
  respects_auto.
Qed.

Lemma ask_user_same_store (question : pyval) :
  respects same_store (ask_user B question).
Proof. use_same_store. unfold ask_user. respects_auto. Qed.

Lemma find_element_same_store (st sv : pyval) :
  respects same_store (find_element B st sv).
Proof. use_same_store. unfold find_element. respects_auto. Qed.

Lemma text_content_same_store (e : element) :
  respects same_store (text_content B e).
Proof. use_same_store. unfold text_content. respects_auto. Qed.

Lemma set_item_same_but (name v : pyval) (k : key) :
  hash_key name = Ok k -> respects (same_but k) (set_item B name v).
Proof.
  intros Hk s. unfold set_item, bind, lift. rewrite Hk. simpl.
  split; [| reflexivity]. intros k' Hne. simpl.
  apply lookup_insert_ne. congruence.
Qed.

Lemma set_item_grows (name v : pyval) : respects store_grows (set_item B name v).
Proof.
  intros s. unfold set_item, bind, lift.
  destruct (hash_key name) as [k | e]; simpl; [| apply store_grows_refl].
  split; [| reflexivity]. intros k' H. simpl.
  destruct (decide (k = k')) as [-> | Hne].
  - rewrite lookup_insert_eq. eexists. reflexivity.
  - rewrite lookup_insert_ne by exact Hne. exact H.
Qed.

Lemma set_item_unhashable (name v : pyval) (e : exn) (s : state) :
  hash_key name = Raise e -> set_item B name v s = (Raise e, s).
Proof. intros H. unfold set_item, bind, lift. rewrite H. reflexivity. Qed.

Lemma stripped_is_str (content : option string) :
  exists t, stripped content = PStr t.
Proof.
  destruct content as [t |]; simpl; [| eexists; reflexivity].
  destruct (nonempty t); eexists; reflexivity.
Qed.

(** *** The action boundary *)

Lemma bind_log {A} (ev : event) (k : unit -> M B A) (s : state) :
  bind B (log B ev) k s = k tt (add_event B ev s).
Proof. reflexivity. Qed.

Lemma bind_fmt_ok {A} (v : pyval) (k : unit -> M B A) (s : state) :
  str_fault B v = None -> bind B (fmt B v) k s = k tt s.
Proof. intros H. unfold bind. rewrite (fmt_ok B v s H). reflexivity. Qed.

Lemma bind_fmt_raise {A} (v : pyval) (k : unit -> M B A) (s : state)
    (e : exn) :
  str_fault B v = Some e -> bind B (fmt B v) k s = (Raise e, s).
Proof. intros H. unfold bind. rewrite (fmt_raise B v e s H). reflexivity. Qed.

Lemma guarded_safe {A} (body : M B A) (handler : exn -> M B A) :
  (forall e s, is_ok (fst (handler e s)) = true) ->
  forall s, is_ok (fst (try_except B body handler s)) = true.
Proof.
  intros H s. unfold try_except.
  destruct (body s) as [[a | e] s1]; [reflexivity | apply H].
Qed.

(** X1. No fault of the driver crosses the boundary of [navigate],
    [type_text], [click_element] and [scroll_window]: whenever the
    arguments their entry line prints render, each of them returns a
    boolean, for every session and every behaviour of the driver. The
    only exception they let through is the fault of rendering an
    argument in the entry line, which is before the [try]: it is raised
    with the operation entered and nothing asked of the driver. *)
Theorem X1_operations_boundary (url st sv text enter_after direction : pyval)
    (pixels : Z) (s : state) :
  (str_fault B url = None -> is_ok (fst (navigate B url s)) = true)
  /\ (str_fault B text = None -> str_fault B st = None ->
      str_fault B sv = None ->
      is_ok (fst (type_text B st sv text enter_after s)) = true)
  /\ (str_fault B st = None -> str_fault B sv = None ->
      is_ok (fst (click_element B st sv s)) = true)
  /\ (str_fault B direction = None -> str_fault B (PInt pixels) = None ->
      is_ok (fst (scroll_window B direction pixels s)) = true)
  /\ (forall e,
        str_fault B url = Some e ->
        navigate B url s
        = (Raise e, add_event B (EvCall (CallNavigate url)) s))
  /\ (forall e,
        first_fault [str_fault B text; str_fault B st; str_fault B sv]
        = Some e ->
        type_text B st sv text enter_after s
        = (Raise e,
           add_event B (EvCall (CallTypeText st sv text enter_after)) s))
  /\ (forall e,
        first_fault [str_fault B st; str_fault B sv] = Some e ->
        click_element B st sv s
        = (Raise e, add_event B (EvCall (CallClickElement st sv)) s))
  /\ (forall e,
        first_fault
          [str_fault B direction;
           if (py_eq_str direction "up" || py_eq_str direction "down")
              && negb (pixels =? 0)
           then str_fault B (PInt pixels) else None]
        = Some e ->
        scroll_window B direction pixels s
        = (Raise e,
           add_event B (EvCall (CallScrollWindow direction pixels)) s)).
Proof.
  split; [| split; [| split; [| split; [| split; [| split; [| split]]]]]].
  - intros Hu. rewrite (navigate_rendered B url s Hu).
    destruct (bind B _ _ _) as [[ok | e] s1]; reflexivity.
  - intros Ht Hst Hsv.
    rewrite (type_text_rendered B st sv text enter_after s Ht Hst Hsv).
    destruct (bind B _ _ _) as [[ok | e] s1]; reflexivity.
  - intros Hst Hsv. rewrite (click_element_rendered B st sv s Hst Hsv).
    destruct (native_click B st sv _) as [[ok | e] s1]; [reflexivity |].
    destruct (is_instance e [TimeoutException; NoSuchElementException]);
      [reflexivity |].
    destruct (is_instance e [ElementNotInteractableException]);
      [| reflexivity].
    apply guarded_safe. intros x s2. reflexivity.
  - intros Hd Hp. unfold scroll_window.
    rewrite bind_log. cbv beta. rewrite (bind_fmt_ok _ _ _ Hd). cbv beta.
    unfold bind at 1.
    assert (Hc : forall (c : bool) s0,
               (if c then fmt B (PInt pixels) else ret B tt) s0 = (Ok tt, s0))
      by (intros [] s0; [apply fmt_ok, Hp | reflexivity]).
    rewrite Hc. cbv zeta. apply guarded_safe. intros x s2. reflexivity.
  - intros e He. unfold navigate. rewrite bind_log. cbv beta.
    apply bind_fmt_raise, He.
  - intros e He. unfold type_text. rewrite bind_log. cbv beta. simpl in He.
    destruct (str_fault B text) as [e1 |] eqn:Ht.
    { injection He as <-. apply bind_fmt_raise, Ht. }
    rewrite (bind_fmt_ok _ _ _ Ht). cbv beta.
    destruct (str_fault B st) as [e2 |] eqn:Hst.
    { injection He as <-. apply bind_fmt_raise, Hst. }
    rewrite (bind_fmt_ok _ _ _ Hst). cbv beta.
    destruct (str_fault B sv) as [e3 |] eqn:Hsv; [| discriminate].
    injection He as <-. apply bind_fmt_raise, Hsv.
  - intros e He. unfold click_element. rewrite bind_log. cbv beta.
    simpl in He.
    destruct (str_fault B st) as [e2 |] eqn:Hst.
    { injection He as <-. apply bind_fmt_raise, Hst. }
    rewrite (bind_fmt_ok _ _ _ Hst). cbv beta.
    destruct (str_fault B sv) as [e3 |] eqn:Hsv; [| discriminate].
    injection He as <-. apply bind_fmt_raise, Hsv.
  - intros e He. unfold scroll_window. rewrite bind_log. cbv beta.
    simpl in He.
    destruct (str_fault B direction) as [e1 |] eqn:Hd.
    { injection He as <-. apply bind_fmt_raise, Hd. }
    rewrite (bind_fmt_ok _ _ _ Hd). cbv beta.
    destruct ((py_eq_str direction "up" || py_eq_str direction "down")
              && negb (pixels =? 0)); [| discriminate].
    destruct (str_fault B (PInt pixels)) as [e2 |] eqn:Hp; [| discriminate].
    injection He as <-. apply bind_fmt_raise, Hp.
Qed.

(** X2. [extract_text] leaves the variable bound, and tells by its
    result to what. When the selector and the variable name render and
    the name is hashable, it does not raise: it returns [True] with the
    name bound to a string, or [False] with the name bound to [None].
    For an unhashable name that renders it raises the [TypeError] of the
    assignment, with the store as it was. When one of the three does not
    render, the entry line raises the fault of the first that does not,
    before the [try]: nothing is looked up and nothing is bound. *)
Theorem X2_extract_text_binds (st sv variable_name : pyval) (s : state) :
  let run := extract_text B st sv variable_name s in
  (str_fault B st = None -> str_fault B sv = None ->
   str_fault B variable_name = None ->
   match hash_key variable_name with
   | Ok k =>
       (fst run = Ok true
        /\ exists t, extracted_data (snd run) !! k = Some (PStr t))
       \/ (fst run = Ok false /\ extracted_data (snd run) !! k = Some PNone)
   | Raise e =>
       fst run = Raise e /\ extracted_data (snd run) = extracted_data s
   end)
  /\ (forall e,
        first_fault [str_fault B st; str_fault B sv;
                     str_fault B variable_name] = Some e ->
        run = (Raise e,
               add_event B (EvCall (CallExtractText st sv variable_name)) s)).
Proof.
  cbv zeta. split.
  - intros Hst Hsv Hname.
    destruct (extract_text B st sv variable_name s) as [r s'] eqn:Hrun.
    cbn [fst snd].
    rewrite (extract_text_rendered B st sv variable_name s Hst Hsv Hname)
      in Hrun.
    set (entered :=
           add_event B (EvCall (CallExtractText st sv variable_name)) s)
      in Hrun.
    assert (Hentered : extracted_data entered = extracted_data s)
      by reflexivity.
    unfold bind at 1 in Hrun.
    pose proof (find_element_same_store st sv entered) as [Hf _].
    destruct (find_element B st sv entered) as [[e | x] s1]; simpl in Hf.
    + unfold bind at 1 in Hrun.
      pose proof (text_content_same_store e s1) as [Ht _].
      destruct (text_content B e s1) as [[content | x] s2]; simpl in Ht.
      * destruct (hash_key variable_name) as [k | err] eqn:Hk.
        -- left. destruct (stripped_is_str content) as [t Hs].
           unfold set_item, bind, lift in Hrun. rewrite Hk, Hs in Hrun.
           simpl in Hrun. injection Hrun as <- <-.
           split; [reflexivity |]. exists t. apply lookup_insert_eq.
        -- rewrite (set_item_unhashable _ _ _ _ Hk) in Hrun.
           unfold bind in Hrun.
           rewrite (set_item_unhashable _ _ _ _ Hk) in Hrun.
           injection Hrun as <- <-. split; [reflexivity | congruence].
      * destruct (hash_key variable_name) as [k | err] eqn:Hk.
        -- right. unfold bind, set_item, bind, lift in Hrun.
           rewrite Hk in Hrun. simpl in Hrun. injection Hrun as <- <-.
           split; [reflexivity | apply lookup_insert_eq].
        -- unfold bind in Hrun.
           rewrite (set_item_unhashable _ _ _ _ Hk) in Hrun.
           injection Hrun as <- <-. split; [reflexivity | congruence].
    + destruct (hash_key variable_name) as [k | err] eqn:Hk.
      * right. unfold bind, set_item, bind, lift in Hrun. rewrite Hk in Hrun.
        simpl in Hrun. injection Hrun as <- <-.
        split; [reflexivity | apply lookup_insert_eq].
      * unfold bind in Hrun.
        rewrite (set_item_unhashable _ _ _ _ Hk) in Hrun.
        injection Hrun as <- <-. split; [reflexivity | congruence].
  - intros e He. unfold extract_text. rewrite bind_log. cbv beta.
    simpl in He.
    destruct (str_fault B st) as [e1 |] eqn:Hst.
    { injection He as <-. apply bind_fmt_raise, Hst. }
    rewrite (bind_fmt_ok _ _ _ Hst). cbv beta.
    destruct (str_fault B sv) as [e2 |] eqn:Hsv.
    { injection He as <-. apply bind_fmt_raise, Hsv. }
    rewrite (bind_fmt_ok _ _ _ Hsv). cbv beta.
    destruct (str_fault B variable_name) as [e3 |] eqn:Hname;
      [| discriminate].
    injection He as <-. apply bind_fmt_raise, Hname.
Qed.

(** X3. Only [extract_text] writes to the store. [navigate],
    [type_text], [click_element], [wait], [scroll_window] and [ask_user]
    leave the Extracted-Data Store (and the driver slot) as they found
    it, whatever they return or raise; [extract_text] changes the store
    at the variable name at most. *)
Theorem X3_store_frame (url st sv text enter_after direction question
    variable_name : pyval) (seconds pixels : Z) (s : state) :
  same_store s (snd (navigate B url s))
  /\ same_store s (snd (type_text B st sv text enter_after s))
  /\ same_store s (snd (click_element B st sv s))
  /\ same_store s (snd (wait B seconds s))
  /\ same_store s (snd (scroll_window B direction pixels s))
  /\ same_store s (snd (ask_user B question s))
  /\ match hash_key variable_name with
     | Ok k => same_but k s (snd (extract_text B st sv variable_name s))
     | Raise _ => same_store s (snd (extract_text B st sv variable_name s))
     end.
Proof.
  split; [apply navigate_same_store |].
  split; [apply type_text_same_store |].
  split; [apply click_element_same_store |].
  split; [apply wait_same_store |].
  split; [apply scroll_window_same_store |].
  split; [apply ask_user_same_store |].
  destruct (hash_key variable_name) as [k | err] eqn:Hk.
  - revert s. change (respects (same_but k) (extract_text B st sv variable_name)).
    use_same_but k. unfold extract_text, find_element, text_content.
    repeat first [apply (set_item_same_but _ _ _ Hk) | respects_step].
  - revert s. change (respects same_store (extract_text B st sv variable_name)).
    use_same_store. unfold extract_text, find_element, text_content.
    assert (Hset : forall v, respects same_store (set_item B variable_name v)).
    { intros v s. rewrite (set_item_unhashable _ _ _ _ Hk).
      apply same_store_refl. }
    repeat first [apply Hset | respects_step].
Qed.

Lemma respects_grows {A} (m : M B A) :
  respects same_store m -> respects store_grows m.
Proof. intros H s. apply same_store_grows, H. Qed.

Lemma extract_text_grows (st sv variable_name : pyval) :
  respects store_grows (extract_text B st sv variable_name).
Proof.
  use_store_grows. unfold extract_text, find_element, text_content.
  repeat first [apply set_item_grows | respects_step].
Qed.

Lemma dispatch_grows (i : nat) (step : pydict) (action : pyval) :
  respects store_grows (dispatch B i step action).
Proof.
  use_store_grows. unfold dispatch. cbv zeta.
  repeat first
    [ apply respects_grows, navigate_same_store
    | apply respects_grows, type_text_same_store
    | apply respects_grows, click_element_same_store
    | apply respects_grows, wait_same_store
    | apply respects_grows, scroll_window_same_store
    | apply respects_grows, ask_user_same_store
    | apply extract_text_grows
    | apply set_item_grows
    | respects_step ].
Qed.

Lemma step_body_grows (i : nat) (step : pydict) (loc : locals) :
  respects store_grows (step_body B i step loc).
Proof.
  use_store_grows. unfold step_body, announce, step_try, step_handler.
  cbv zeta.
  repeat first
    [ match goal with
      | |- respects _ (dispatch _ _ _ _) => apply dispatch_grows
      end
    | respects_step ].
Qed.

Lemma run_steps_grows (steps : plan) :
  forall i loc, respects store_grows (run_steps B i steps loc).
Proof.
  use_store_grows.
  induction steps as [| step rest IH]; intros i loc; simpl.
  - respects_auto.
  - apply respects_bind; [assumption | apply step_body_grows |].
    intros [[] loc']; [apply IH | respects_auto].
Qed.

Lemma execute_plan_grows (p : plan) (instruction : string) (s : state) :
  store_grows s (snd (execute_plan B p instruction s)).
Proof.
  unfold execute_plan. destruct (negb (driver_present s)).
  - apply store_grows_refl.
  - revert s.
    change (respects store_grows
              (bind B (run_steps B 0 p (Locals true PNone))
                 (fun loc =>
                    bind B (report B loc)
                      (fun _ => ret B (executed_successfully loc,
                                       error_message_for_llm loc))))).
    use_store_grows.
    apply respects_bind; [assumption | apply run_steps_grows |].
    intros loc. unfold report. respects_auto.
Qed.

(** X4. [execute_plan] never loses an extraction and never touches the
    driver slot: for every plan, whether it completes, aborts or raises,
    every name the store bound before the run is still bound after it,
    and the driver is set after the run exactly if it was before. *)
Theorem X4_execute_plan_keeps_bindings (p : plan) (instruction : string)
    (s : state) :
  store_grows s (snd (execute_plan B p instruction s)).
Proof. apply execute_plan_grows. Qed.

(** *** Aborts of the interpreter *)

Lemma is_instance_other (e : exn) (cls : exn_class) :
  exn_cls e <> cls -> is_instance e [cls] = false.
Proof.
  intros H. unfold is_instance. simpl. rewrite orb_false_r.
  destruct (exn_cls e), cls; try reflexivity; contradiction H; reflexivity.
Qed.

(** X5. [click_element] falls back to the script-driven click on a
    not-interactable fault only. When the native click path raises any
    other exception (the wait ran out, the element went stale, anything
    else), the operation returns [False] in the state the fault left:
    no second lookup and no script follow. The selector is one that
    renders, so that the entry line is passed and the native click path
    is reached. *)
Theorem X5_fallback_only_when_not_interactable (st sv : pyval)
    (s s1 : state) (err : exn) :
  str_fault B st = None -> str_fault B sv = None ->
  native_click B st sv (add_event B (EvCall (CallClickElement st sv)) s)
  = (Raise err, s1) ->
  exn_cls err <> ElementNotInteractableException ->
  click_element B st sv s = (Ok false, s1).
Proof.
  intros Hst Hsv Hnat Hcls.
  rewrite (click_element_rendered B st sv s Hst Hsv), Hnat.
  rewrite (is_instance_other _ _ Hcls).
  destruct (is_instance err [TimeoutException; NoSuchElementException]);
    reflexivity.
Qed.

(** A plan stops where an iteration breaks, with the message of the
    break, when the store renders for the report that follows the
    loop. *)
Lemma execute_plan_break (pre post : plan) (step : pydict)
    (instruction : string) (s s1 s2 : state) (message : pyval) :
  driver_present s = true ->
  store_renders s ->
  all_succeed B 0 pre s s1 ->
  step_body B (length pre) step (Locals true PNone) s1
  = (Ok (Break, Locals false message), s2) ->
  execute_plan B (pre ++ step :: post) instruction s
  = (Ok (false, message), s2).
Proof.
  intros Hdrv Hstore Hpre Hstep.
  apply (execute_plan_of_run B (pre ++ step :: post) instruction s s2
           (Locals false message) Hdrv).
  - apply (run_steps_break B pre post step s s1 s2 _ Hpre Hstep).
  - pose proof (step_body_renders B (length pre) step (Locals true PNone) s1)
      as Hkept.
    rewrite Hstep in Hkept. apply Hkept.
    apply (all_succeed_store B pre 0 s s1 Hpre Hstore).
Qed.

(** An iteration whose record renders and whose dispatch raises breaks
    with the message of the handler, in the state the fault left. *)
Lemma step_body_raise (i : nat) (step : pydict) (loc : locals)
    (s s' : state) (e : exn) :
  str_fault B (PDict step) = None ->
  dispatch B i step (dict_get step "action" PNone) s = (Raise e, s') ->
  step_body B i step loc s
  = (Ok (Break, handler_locals (dict_get step "action" PNone) e), s').
Proof.
  intros Hr H. rewrite (step_body_run B i step loc s Hr), H. reflexivity.
Qed.

Ltac decide_actions :=
  repeat match goal with
    | |- context [py_eq_str (PStr ?a) ?b] =>
        let v := eval vm_compute in (py_eq_str (PStr a) b) in
        change (py_eq_str (PStr a) b) with v
    end;
  cbv iota.


Lemma dispatch_missing (i : nat) (step : pydict) (action field : string)
    (s : state) :
  first_missing (required_fields action) step = Some field ->
  dispatch B i step (PStr action) s = (Raise (Exn KeyError (repr_str field)), s).
Proof.
  unfold required_fields.
  destruct (String.eqb action "type") eqn:E1;
    [apply String.eqb_eq in E1; subst action |].
  { simpl first_missing. unfold dispatch. decide_actions.
    unfold bind, lift, dict_item.
    destruct (dict_find "selector_type" step);
      [| intros [= <-]; reflexivity].
    destruct (dict_find "selector_value" step);
      [| intros [= <-]; reflexivity].
    destruct (dict_find "text" step); [discriminate |].
    intros [= <-]. reflexivity. }
  destruct (String.eqb action "click") eqn:E2;
    [apply String.eqb_eq in E2; subst action |].
  { simpl first_missing. unfold dispatch. decide_actions.
    unfold bind, lift, dict_item.
    destruct (dict_find "selector_type" step);
      [| intros [= <-]; reflexivity].
    destruct (dict_find "selector_value" step); [discriminate |].
    intros [= <-]. reflexivity. }
  destruct (String.eqb action "wait") eqn:E3;
    [apply String.eqb_eq in E3; subst action |].
  { simpl first_missing. unfold dispatch. decide_actions.
    unfold bind, lift, dict_item.
    destruct (dict_find "seconds" step); [discriminate |].
    intros [= <-]. reflexivity. }
  destruct (String.eqb action "extract_text") eqn:E4;
    [apply String.eqb_eq in E4; subst action |].
  { simpl first_missing. unfold dispatch. decide_actions.
    unfold bind, lift, dict_item.
    destruct (dict_find "selector_type" step);
      [| intros [= <-]; reflexivity].
    destruct (dict_find "selector_value" step);
      [| intros [= <-]; reflexivity].
    destruct (dict_find "variable_name" step); [discriminate |].
    intros [= <-]. reflexivity. }
  destruct (String.eqb action "ask_user") eqn:E5;
    [apply String.eqb_eq in E5; subst action |].
  { simpl first_missing. unfold dispatch. decide_actions.
    unfold bind, lift, dict_item.
    destruct (dict_find "question" step); [discriminate |].
    intros [= <-]. reflexivity. }
  discriminate.
Qed.

(** X7. A missing parameter aborts the plan and is named. When the steps
    before it succeed, a [type], [click], [wait], [extract_text] or
    [ask_user] record that lacks one of the fields the interpreter reads
    with [step[...]] ends the run with [(False, "Missing parameter for
    action '<action>': '<field>'.")], where the field is the first one
    missing in the order the interpreter reads them; the operation is
    not entered and the state is the one the earlier steps left. The
    record is one that renders and the store at the start one that
    renders. *)
Theorem X7_missing_parameter_aborts (pre post : plan) (step : pydict)
    (instruction action field : string) (s s1 : state) :
  driver_present s = true ->
  store_renders s ->
  all_succeed B 0 pre s s1 ->
  str_fault B (PDict step) = None ->
  dict_get step "action" PNone = PStr action ->
  first_missing (required_fields action) step = Some field ->
  execute_plan B (pre ++ step :: post) instruction s
  = (Ok (false,
         PStr ("Missing parameter for action '" +:+ action +:+ "': "
               +:+ repr_str field +:+ ".")),
     s1).
Proof.
  intros Hdrv Hstore Hpre Hstep Haction Hmissing.
  apply (execute_plan_break pre post step instruction s s1 s1 _ Hdrv Hstore
           Hpre).
  rewrite (step_body_raise _ step _ s1 s1 (Exn KeyError (repr_str field))
             Hstep).
  - rewrite Haction. reflexivity.
  - rewrite Haction. apply dispatch_missing, Hmissing.
Qed.

(** X8. A [navigate] record without a usable [url] aborts the plan
    before the browser is asked for anything. When the steps before it
    succeed and the [url] field is missing, [None], empty or otherwise
    false, the run ends with [(False, "Invalid parameter for action
    'navigate': 'url' missing for navigate action..")] (the text of the
    exception and the full stop of the handler) in the state the earlier
    steps left. The record is one that renders and the store at the
    start one that renders. *)
Theorem X8_navigate_without_url_aborts (pre post : plan) (step : pydict)
    (instruction : string) (s s1 : state) :
  driver_present s = true ->
  store_renders s ->
  all_succeed B 0 pre s s1 ->
  str_fault B (PDict step) = None ->
  dict_get step "action" PNone = PStr "navigate" ->
  truthy (dict_get step "url" PNone) = false ->
  execute_plan B (pre ++ step :: post) instruction s
  = (Ok (false,
         PStr "Invalid parameter for action 'navigate': 'url' missing for navigate action.."),
     s1).
Proof.
  intros Hdrv Hstore Hpre Hstep Haction Hurl.
  apply (execute_plan_break pre post step instruction s s1 s1 _ Hdrv Hstore
           Hpre).
  rewrite (step_body_raise _ step _ s1 s1
             (Exn ValueError "'url' missing for navigate action.") Hstep).
  - rewrite Haction. unfold handler_locals.
    change (is_instance (Exn ValueError "'url' missing for navigate action.")
              [KeyError]) with false.
    change (is_instance (Exn ValueError "'url' missing for navigate action.")
              [ValueError]) with true.
    cbv iota. do 3 f_equal.
  - rewrite Haction. unfold dispatch. decide_actions. cbv zeta.
    rewrite Hurl. reflexivity.
Qed.

(** *** Selectors *)

Lemma get_by_strategy_unsupported (st : pyval) :
  unsupported_selector st = true ->
  exists e,
    (exn_cls e = AttributeError \/ exn_cls e = ValueError)
    /\ forall s, get_by_strategy B st s = (Raise e, s).
Proof.
  unfold unsupported_selector, get_by_strategy, bind, lift.
  destruct (str_lower st) as [name | e] eqn:Hl.
  - destruct (strategies name); [discriminate |]. intros _.
    exists (Exn ValueError ("Unsupported selector type: " +:+ py_str st)).
    split; [right; reflexivity |]. intros s. reflexivity.
  - intros _. exists e. split; [| intros s; reflexivity].
    left. destruct st; simpl in Hl; try discriminate Hl;
      injection Hl as <-; reflexivity.
Qed.

Lemma not_selenium_fault (e : exn) :
  exn_cls e = AttributeError \/ exn_cls e = ValueError ->
  is_instance e [TimeoutException; NoSuchElementException] = false
  /\ is_instance e [ElementNotInteractableException] = false
  /\ is_instance e [StaleElementReferenceException] = false.
Proof.
  unfold is_instance. intros [-> | ->]; repeat split.
Qed.

(** X9. A selector type that names no strategy makes the operation fail
    without the browser being asked for anything. When [selector_type]
    is not a string or its lower-cased form is none of css, xpath, id,
    name, link_text, partial_link_text, tag_name, then [type_text] and
    [click_element] return [False] having done nothing but enter, and
    [extract_text] returns [False] having only bound the variable to
    [None]. The [ValueError] of [_get_by_strategy] never reaches the
    interpreter. The arguments are ones that render, so that the entry
    lines are passed. *)
Theorem X9_unsupported_selector_type (st sv text enter_after variable_name
    : pyval) (k : key) (s : state) :
  unsupported_selector st = true ->
  hash_key variable_name = Ok k ->
  str_fault B st = None -> str_fault B sv = None ->
  str_fault B text = None -> str_fault B variable_name = None ->
  type_text B st sv text enter_after s
  = (Ok false, add_event B (EvCall (CallTypeText st sv text enter_after)) s)
  /\ click_element B st sv s
     = (Ok false, add_event B (EvCall (CallClickElement st sv)) s)
  /\ extract_text B st sv variable_name s
     = (Ok false,
        set_extracted_data B (<[k := PNone]> (extracted_data s))
          (add_event B (EvCall (CallExtractText st sv variable_name)) s)).
Proof.
  intros Hst Hk Hrst Hrsv Hrtext Hrname.
  destruct (get_by_strategy_unsupported st Hst) as [e [Hcls Hby]].
  destruct (not_selenium_fault e Hcls) as [H1 [H2 H3]].
  repeat split.
  - rewrite (type_text_rendered B st sv text enter_after s Hrtext Hrst Hrsv).
    unfold bind at 1, typing_target, bind at 1, find_element, bind at 1.
    rewrite Hby. reflexivity.
  - rewrite (click_element_rendered B st sv s Hrst Hrsv).
    unfold native_click, bind at 1, find_clickable_element, bind at 1.
    rewrite Hby, H1, H2. reflexivity.
  - rewrite (extract_text_rendered B st sv variable_name s Hrst Hrsv Hrname).
    unfold bind at 1, find_element, bind at 1.
    rewrite Hby. unfold bind, set_item, bind, lift. rewrite Hk.
    reflexivity.
Qed.

Lemma lower_char_idempotent (ch : ascii) :
  lower_char (lower_char ch) = lower_char ch.
Proof.
  destruct ch as [[] [] [] [] [] [] [] []]; vm_compute; reflexivity.
Qed.

Lemma py_lower_idempotent (t : string) : py_lower (py_lower t) = py_lower t.
Proof.
  induction t as [| ch rest IH]; simpl; [reflexivity |].
  rewrite lower_char_idempotent, IH. reflexivity.
Qed.

(** X10. Selector types are matched without regard to case. A selector
    type resolves to a strategy exactly when it is a string whose
    lower-cased form is one of the seven names, and then the lookups
    [_find_element] and [_find_clickable_element] behave for it exactly
    as for its lower-cased form. *)
Theorem X10_selector_type_case (name : string) (sv : pyval) (s : state) :
  (is_ok (fst (get_by_strategy B (PStr name) s))
   = negb (unsupported_selector (PStr name)))
  /\ (unsupported_selector (PStr name) = false ->
      find_element B (PStr name) sv s
      = find_element B (PStr (py_lower name)) sv s
      /\ find_clickable_element B (PStr name) sv s
         = find_clickable_element B (PStr (py_lower name)) sv s).
Proof.
  split.
  - unfold get_by_strategy, unsupported_selector, bind, lift. simpl.
    destruct (strategies (py_lower name)); reflexivity.
  - unfold unsupported_selector. simpl. intros H.
    unfold find_element, find_clickable_element, get_by_strategy, bind, lift.
    simpl. rewrite py_lower_idempotent.
    destruct (strategies (py_lower name)); [| discriminate H].
    split; reflexivity.
Qed.

(** *** Answers of the operator *)

Lemma user_response_key_inj (i j : nat) :
  user_response_key i = user_response_key j -> i = j.
Proof.
  unfold user_response_key. intros H. injection H as H.
  apply String.app_inj in H. apply pretty_Z_inj in H. lia.
Qed.

(** X11. An [ask_user] step records the answer under a key of its own.
    When the record has a [question] and the console returns an answer,
    the step succeeds and the store binds ["user_response_to_<i+1>"] to
    the answer, for [i] the index of the step, the rest of the store
    being as before; the keys of two different steps differ, so within a
    plan no answer overwrites another. The question is one that renders,
    since [ask_user] prints it before it reads the answer. *)
Theorem X11_ask_user_step (i : nat) (step : pydict) (question : pyval)
    (answer : string) (w : World B) (s : state) :
  dict_item step "question" = Ok question ->
  str_fault B question = None ->
  br_input B "Your response: " (world s) = (Ok answer, w) ->
  dispatch B i step (PStr "ask_user") s
  = (Ok (Done true),
     State w (driver_present s)
       (<[user_response_key i := PStr answer]> (extracted_data s))
       (EvInput "Your response: " :: EvCall (CallAskUser question) :: trace s))
  /\ forall j, user_response_key i = user_response_key j -> i = j.
Proof.
  intros Hq Hr Hin. split; [| apply user_response_key_inj].
  unfold dispatch. decide_actions.
  unfold bind at 1, lift. rewrite Hq.
  unfold bind at 1, ask_user. rewrite bind_log. cbv beta.
  rewrite (bind_fmt_ok _ _ _ Hr). unfold world_call. simpl.
  rewrite Hin. reflexivity.
Qed.

(** *** Typing *)

Ltac keeps_events :=
  repeat first
    [ apply keeps_ret | apply keeps_raise | apply keeps_lift
    | apply keeps_set_item | apply keeps_get_by_strategy
    | apply keeps_log; reflexivity
    | apply keeps_driver_call; reflexivity
    | apply keeps_world_call; reflexivity
    | apply keeps_time_sleep; reflexivity
    | apply keeps_fmt
    | apply keeps_bind; [| intros ?]
    | apply keeps_try; [| intros ?]
    | match goal with
      | |- keeps _ (if ?c then _ else _) => destruct c
      | |- keeps _ (match ?c with _ => _ end) => destruct c
      end ].

Lemma typing_target_types_nothing (st sv : pyval) :
  keeps is_typing (typing_target B st sv).
Proof.
  unfold typing_target, not_interactable, find_element, execute_script.
  keeps_events.
Qed.

(** X12. [type_text] touches the content of an element only after the
    target was found interactable. Resolving and checking the target
    clears nothing and types nothing, and when that fails (the element is
    not found, or is still not displayed or not enabled after the scroll)
    [type_text], called with a text and a selector that render, returns
    [False] in the state the failure left. *)
Theorem X12_type_text_target_gate (st sv text enter_after : pyval)
    (s : state) :
  let entered := add_event B (EvCall (CallTypeText st sv text enter_after)) s in
  count is_typing (snd (typing_target B st sv entered)) = count is_typing s
  /\ (forall e s1,
        str_fault B text = None -> str_fault B st = None ->
        str_fault B sv = None ->
        typing_target B st sv entered = (Raise e, s1) ->
        type_text B st sv text enter_after s = (Ok false, s1)).
Proof.
  intros entered. split.
  - rewrite (typing_target_types_nothing st sv entered). reflexivity.
  - intros e s1 Ht Hst Hsv H.
    rewrite (type_text_rendered B st sv text enter_after s Ht Hst Hsv).
    fold entered. unfold bind at 1. rewrite H. reflexivity.
Qed.

(** *** Navigation and scrolling *)

(** [navigate] returns [True] exactly when the page request and the
    wait for the ready state both return; when the request raises, the
    wait is not attempted; without a driver nothing is asked. *)
Lemma navigate_result (url : pyval) (s : state) :
  let entered := add_event B (EvCall (CallNavigate url)) s in
  str_fault B url = None ->
  navigate B url s
  = if driver_present s then
      match br_get B url (world s) with
      | (Ok _, w) =>
          let (r, w') := br_wait_ready B 15 w in
          (Ok (is_ok r),
           set_world B w'
             (add_event B (EvWaitReady 15)
                (set_world B w (add_event B (EvGet url) entered))))
      | (Raise _, w) =>
          (Ok false, set_world B w (add_event B (EvGet url) entered))
      end
    else (Ok false, entered).
Proof.
  intros entered Hr. rewrite (navigate_rendered B url s Hr).
  unfold bind, driver_call. fold entered. simpl.
  destruct (driver_present s) eqn:Hp; [| reflexivity].
  destruct (br_get B url (world s)) as [[[] | e] w]; simpl; [| reflexivity].
  rewrite Hp. destruct (br_wait_ready B 15 w) as [[[] | e] w']; reflexivity.
Qed.

(** X14. Scrolling to an edge of the page ignores the pixel count. For a
    direction whose lower-cased form is to_bottom or to_top, two calls
    that differ in [pixels] only return the same result and leave the
    world of the browser the same. *)
Theorem X14_scroll_to_edge_ignores_pixels (direction : pyval) (name : string)
    (p1 p2 : Z) (s : state) :
  str_lower direction = Ok name ->
  name = "to_bottom" \/ name = "to_top" ->
  fst (scroll_window B direction p1 s) = fst (scroll_window B direction p2 s)
  /\ world (snd (scroll_window B direction p1 s))
     = world (snd (scroll_window B direction p2 s)).
Proof.
  intros Hl Hname.
  destruct direction as [| | | | t | |]; try discriminate Hl.
  simpl in Hl. injection Hl as Hl.
  assert (Hup : String.eqb t "up" = false).
  { destruct (String.eqb_spec t "up") as [-> |]; [| reflexivity].
    subst name. destruct Hname; discriminate. }
  assert (Hdown : String.eqb t "down" = false).
  { destruct (String.eqb_spec t "down") as [-> |]; [| reflexivity].
    subst name. destruct Hname; discriminate. }
  assert (Hrun : forall p,
    scroll_window B (PStr t) p s
    = match
        bind B
          (execute_script B
             (if String.eqb name "to_bottom"
              then "window.scrollTo(0, document.body.scrollHeight);"
              else "window.scrollTo(0, 0);") [])
          (fun _ => bind B (time_sleep B 500) (fun _ => ret B true))
          (add_event B (EvCall (CallScrollWindow (PStr t) p)) s)
      with
      | (Ok ok, s') => (Ok ok, s')
      | (Raise _, s') => (Ok false, s')
      end).
  { intros p. unfold scroll_window. rewrite bind_log. cbv beta.
    rewrite (bind_fmt_ok _ _ _ (str_fault_str B t)). cbv beta.
    simpl py_eq_str. rewrite Hup, Hdown. simpl andb. cbv iota.
    unfold bind at 1. unfold ret at 1. cbv zeta.
    unfold try_except. unfold bind at 1. unfold lift. simpl str_lower.
    rewrite Hl. cbv iota beta.
    destruct Hname as [-> | ->]; reflexivity. }
  rewrite !Hrun.
  unfold bind, execute_script, driver_call. simpl.
  destruct (driver_present s); [| split; reflexivity].
  destruct (br_execute_script B _ [] (world s)) as [[[] | e] w]; simpl;
    split; reflexivity.
Qed.

End MoreProperties.

(* ===================================================================== *)
(** ** Properties of the session lifecycle *)
(* ===================================================================== *)

Section LifecycleProperties.

Variable B : Browser.
Variable launch : driver_kind -> result (World B).
Variable implicitly_wait : Z -> World B -> result unit * World B.
Variable quit : World B -> result unit * World B.

(** X15. [close_browser] always releases the driver. Whether the driver
    was set or not and whether its [quit] raises or not, the call returns
    normally, the driver slot is empty afterwards, and the store and the
    trace are as before. A second call changes nothing, and every plan
    executed afterwards is refused with ["Browser not initialized."]
    without a step being looked at. *)
Theorem X15_close_browser_releases (s : state B) :
  let closed := snd (close_browser B quit s) in
  fst (close_browser B quit s) = Ok tt
  /\ driver_present closed = false
  /\ extracted_data closed = extracted_data s
  /\ trace closed = trace s
  /\ close_browser B quit closed = (Ok tt, closed)
  /\ forall p instruction,
       execute_plan B p instruction closed
       = (Ok (false, PStr "Browser not initialized."), closed).
Proof.
  cbv zeta.
  assert (Hrun : exists s',
             close_browser B quit s = (Ok tt, s')
             /\ driver_present s' = false
             /\ extracted_data s' = extracted_data s
             /\ trace s' = trace s).
  { unfold close_browser, try_finally, try_except, release_driver.
    destruct (driver_present s) eqn:Hp.
    - destruct (quit (world s)) as [[[] | e] w]; simpl;
        eexists; repeat split.
    - exists s. repeat split. exact Hp. }
  destruct Hrun as [s' [Hrun [Hp [Hd Ht]]]]. rewrite Hrun. simpl.
  repeat split; try assumption.
  - unfold close_browser. rewrite Hp. reflexivity.
  - intros p instruction. apply execute_plan_closed, Hp.
Qed.

(** X16. An agent is built with a driver or not at all. When
    [BrowserAgent()] returns, the driver is set and the store is empty,
    so the guard of [execute_plan] passes and the empty plan succeeds. A
    driver type other than chrome or firefox (in any case of letters)
    raises the [ValueError] that names it, whatever the launchers would
    do; and a failure of the launch or of the implicit wait is raised
    again. *)
Theorem X16_new_agent_has_driver (driver_type : string) :
  (forall s,
      new_agent B launch implicitly_wait driver_type = Ok s ->
      driver_present s = true
      /\ extracted_data s = ∅
      /\ trace s = []
      /\ forall instruction,
           execute_plan B [] instruction s = (Ok (true, PNone), s))
  /\ (String.eqb (py_lower driver_type) "chrome" = false ->
      String.eqb (py_lower driver_type) "firefox" = false ->
      new_agent B launch implicitly_wait driver_type
      = Raise (Exn ValueError ("Unsupported driver type: " +:+ driver_type)))
  /\ (forall e,
        launch ChromeDriver = Raise e ->
        String.eqb (py_lower driver_type) "chrome" = true ->
        new_agent B launch implicitly_wait driver_type = Raise e).
Proof.
  split; [| split].
  - intros s. unfold new_agent.
    destruct (if String.eqb (py_lower driver_type) "chrome"
              then launch ChromeDriver
              else if String.eqb (py_lower driver_type) "firefox"
                   then launch FirefoxDriver
                   else Raise (Exn ValueError
                                 ("Unsupported driver type: " +:+ driver_type)))
      as [w | e]; [| discriminate].
    destruct (implicitly_wait 5 w) as [[[] | e] w']; [| discriminate].
    intros [= <-]. repeat split.
  - intros H1 H2. unfold new_agent. rewrite H1, H2. reflexivity.
  - intros e He H1. unfold new_agent. rewrite H1, He. reflexivity.
Qed.

End LifecycleProperties.

(* ===================================================================== *)
(** ** Properties of the site table and of the configuration *)
(* ===================================================================== *)

Lemma table_get_in (k : string) (table : list (string * string)) (v : string) :
  table_get k table = Some v -> In (k, v) table.
Proof.
  induction table as [| [k' v'] rest IH]; simpl; [discriminate |].
  destruct (String.eqb k k') eqn:E.
  - apply String.eqb_eq in E. subst k'. intros [= <-]. left. reflexivity.
  - intros H. right. apply IH, H.
Qed.

(** X17. Every site of [FAMOUS_SITES] can be looked up, under any casing
    of its name. [get_url_for_site] gives the URL of an entry for every
    name whose lower-cased form is the key of the entry (the keys are
    lower-case and distinct), it gives the same answer for a name and
    for its lower-cased form, and what it gives is always an entry of
    the table. *)
Theorem X17_famous_sites_lookup (site_name : string) :
  (forall site url,
      In (site, url) FAMOUS_SITES ->
      py_lower site_name = site ->
      get_url_for_site site_name = Some url)
  /\ get_url_for_site (py_lower site_name) = get_url_for_site site_name
  /\ (forall url,
        get_url_for_site site_name = Some url ->
        In (py_lower site_name, url) FAMOUS_SITES).
Proof.
  split; [| split].
  - intros site url Hin Hkey. unfold get_url_for_site. rewrite Hkey.
    unfold FAMOUS_SITES in Hin. simpl in Hin.
    repeat (destruct Hin as [Hin | Hin];
            [injection Hin as <- <-; reflexivity |]).
    contradiction.
  - unfold get_url_for_site. rewrite py_lower_idempotent. reflexivity.
  - intros url. unfold get_url_for_site. apply table_get_in.
Qed.

(** X18. The key check of [main] cannot fail once [llm_handler] was
    imported. When the configuration code of [llm_handler] (run at
    import) builds a client, the provider is gemini or groq, the client
    carries the non-empty key of that provider, and [check_api_keys]
    returns [True]. *)
Theorem X18_configured_implies_keys_checked (c : config) (client : llm_client) :
  configure_llm c = Ok client ->
  check_api_keys c = true
  /\ ((LLM_PROVIDER c = "gemini"
       /\ exists k, GOOGLE_API_KEY c = Some k /\ nonempty k = true
                    /\ client = GeminiModel k (GEMINI_MODEL_NAME c))
      \/ (LLM_PROVIDER c = "groq"
          /\ exists k, GROQ_API_KEY c = Some k /\ nonempty k = true
                       /\ client = GroqClient k)).
Proof.
  unfold configure_llm, check_api_keys.
  destruct (String.eqb (LLM_PROVIDER c) "gemini") eqn:Eg.
  - destruct (GOOGLE_API_KEY c) as [k |]; [| discriminate].
    destruct (nonempty k) eqn:Ek; [| discriminate].
    intros [= <-]. simpl. rewrite Ek. simpl.
    split.
    + destruct (String.eqb (LLM_PROVIDER c) "groq") eqn:Eq; [| reflexivity].
      apply String.eqb_eq in Eg, Eq. congruence.
    + left. apply String.eqb_eq in Eg. split; [exact Eg |].
      exists k. repeat split. exact Ek.
  - destruct (String.eqb (LLM_PROVIDER c) "groq") eqn:Eq; [| discriminate].
    destruct (GROQ_API_KEY c) as [k |]; [| discriminate].
    destruct (nonempty k) eqn:Ek; [| discriminate].
    intros [= <-]. simpl. rewrite Ek. simpl.
    split; [reflexivity |].
    right. apply String.eqb_eq in Eq. split; [exact Eq |].
    exists k. repeat split. exact Ek.
Qed.

(* ===================================================================== *)
(** ** Properties of the cleaning of the model's answer *)
(* ===================================================================== *)

Lemma str_app_cons (ch : ascii) (a b : string) :
  String ch a +:+ b = String ch (a +:+ b).
Proof. reflexivity. Qed.

Lemma str_app_nil_l (a : string) : "" +:+ a = a.
Proof. reflexivity. Qed.

Ltac str_simpl := rewrite ?str_app_cons, ?str_app_nil_l; simpl.

Lemma str_app_assoc (a b d : string) : (a +:+ b) +:+ d = a +:+ (b +:+ d).
Proof. induction a as [| ch a IH]; str_simpl; [reflexivity | congruence]. Qed.

Lemma str_app_nil (a : string) : a +:+ "" = a.
Proof. induction a as [| ch a IH]; str_simpl; [reflexivity | congruence]. Qed.

Lemma str_length_app (a b : string) :
  String.length (a +:+ b) = (String.length a + String.length b)%nat.
Proof. induction a as [| ch a IH]; str_simpl; [reflexivity | congruence]. Qed.

Lemma starts_with_app (p x : string) : starts_with p (p +:+ x) = true.
Proof.
  induction p as [| ch p IH]; str_simpl; [reflexivity |].
  rewrite Ascii.eqb_refl, IH. reflexivity.
Qed.

Lemma str_drop_app (p x : string) : str_drop (String.length p) (p +:+ x) = x.
Proof. induction p as [| ch p IH]; str_simpl; [reflexivity | exact IH]. Qed.

Lemma str_take_app (p x : string) : str_take (String.length p) (p +:+ x) = p.
Proof. induction p as [| ch p IH]; str_simpl; [reflexivity | congruence]. Qed.

Lemma ends_with_app (x p : string) : ends_with p (x +:+ p) = true.
Proof.
  unfold ends_with. rewrite str_length_app.
  replace (String.length x + String.length p - String.length p)%nat
    with (String.length x) by lia.
  rewrite str_drop_app, String.eqb_refl, andb_true_r.
  apply Nat.leb_le. lia.
Qed.

Lemma str_drop_last_app (x p : string) :
  str_drop_last (String.length p) (x +:+ p) = x.
Proof.
  unfold str_drop_last. rewrite str_length_app.
  replace (String.length x + String.length p - String.length p)%nat
    with (String.length x) by lia.
  apply str_take_app.
Qed.

Lemma lstrip_spaces (o x : string) :
  all_space o = true -> lstrip (o +:+ x) = lstrip x.
Proof.
  induction o as [| ch o IH]; str_simpl; [reflexivity |].
  intros H. apply andb_true_iff in H. destruct H as [Hc Ho].
  rewrite Hc. apply IH, Ho.
Qed.

Lemma rstrip_spaces_only (o : string) : all_space o = true -> rstrip o = "".
Proof.
  induction o as [| ch o IH]; str_simpl; [reflexivity |].
  intros H. apply andb_true_iff in H. destruct H as [Hc Ho].
  rewrite (IH Ho), Hc. reflexivity.
Qed.

Lemma rstrip_spaces (x o : string) :
  all_space o = true -> rstrip (x +:+ o) = rstrip x.
Proof.
  intros Ho. induction x as [| ch x IH]; str_simpl.
  - apply rstrip_spaces_only, Ho.
  - rewrite IH. reflexivity.
Qed.

Lemma lstrip_head (x : string) :
  lstrip x = ""
  \/ exists ch rest, lstrip x = String ch rest /\ is_space ch = false.
Proof.
  induction x as [| ch x IH]; str_simpl; [left; reflexivity |].
  destruct (is_space ch) eqn:E; [exact IH |].
  right. exists ch, x. split; [reflexivity | exact E].
Qed.

Lemma lstrip_app_spaces (x o : string) :
  all_space o = true ->
  lstrip (x +:+ o) = if all_space x then "" else lstrip x +:+ o.
Proof.
  intros Ho. induction x as [| ch x IH]; str_simpl.
  - replace o with (o +:+ "") by apply str_app_nil.
    rewrite (lstrip_spaces o "" Ho). reflexivity.
  - destruct (is_space ch); simpl; [exact IH | reflexivity].
Qed.

Lemma lstrip_all_space (x : string) : all_space x = true -> lstrip x = "".
Proof.
  induction x as [| ch x IH]; str_simpl; [reflexivity |].
  intros H. apply andb_true_iff in H. destruct H as [Hc Hx].
  rewrite Hc. apply IH, Hx.
Qed.

(** Padding with whitespace on both sides does not change what [strip]
    gives. *)
Lemma py_strip_padding (o1 x o2 : string) :
  all_space o1 = true -> all_space o2 = true ->
  py_strip (o1 +:+ x +:+ o2) = py_strip x.
Proof.
  intros H1 H2. unfold py_strip.
  rewrite (lstrip_spaces o1 _ H1), (lstrip_app_spaces x o2 H2).
  destruct (all_space x) eqn:Ex.
  - rewrite (lstrip_all_space x Ex). reflexivity.
  - apply rstrip_spaces, H2.
Qed.

Lemma rstrip_idempotent (x : string) : rstrip (rstrip x) = rstrip x.
Proof.
  induction x as [| ch x IH]; str_simpl; [reflexivity |].
  destruct (rstrip x) as [| ch' r] eqn:E.
  - destruct (is_space ch) eqn:Ec; simpl; [reflexivity |].
    rewrite Ec. reflexivity.
  - simpl in *. rewrite IH. reflexivity.
Qed.

Lemma rstrip_head (ch : ascii) (x : string) :
  is_space ch = false -> exists r, rstrip (String ch x) = String ch r.
Proof.
  intros H. simpl. destruct (rstrip x) as [| ch' r].
  - rewrite H. eexists. reflexivity.
  - eexists. reflexivity.
Qed.

Lemma py_strip_idempotent (x : string) : py_strip (py_strip x) = py_strip x.
Proof.
  unfold py_strip.
  destruct (lstrip_head x) as [-> | [ch [rest [-> Hc]]]]; [reflexivity |].
  destruct (rstrip_head ch rest Hc) as [r Hr]. rewrite Hr.
  simpl lstrip. rewrite Hc. rewrite <- Hr. apply rstrip_idempotent.
Qed.

Lemma rstrip_keeps_end (y z : string) :
  z <> "" -> rstrip z = z -> rstrip (y +:+ z) = y +:+ z.
Proof.
  intros Hne Hz. induction y as [| ch y IH]; str_simpl; [exact Hz |].
  rewrite IH. destruct (y +:+ z) eqn:E; [| reflexivity].
  destruct y; simpl in E; [contradiction | discriminate].
Qed.

(** X19. A fenced answer is unwrapped to its body. For an answer made of
    the opening fence with its json tag, a body and the closing fence,
    with any whitespace around the fences and around the body,
    [clean_output] returns the body as it is, provided the body itself
    has no whitespace at its ends. *)
Theorem X19_fenced_answer_unwrapped (o1 ws1 body ws2 o2 : string) :
  all_space o1 = true -> all_space ws1 = true ->
  all_space ws2 = true -> all_space o2 = true ->
  py_strip body = body ->
  clean_output (o1 +:+ (json_fence +:+ ws1 +:+ body +:+ ws2 +:+ fence) +:+ o2)
  = body.
Proof.
  intros Ho1 Hw1 Hw2 Ho2 Hbody. unfold clean_output.
  rewrite (py_strip_padding o1 _ o2 Ho1 Ho2).
  assert (Hfenced :
            py_strip (json_fence +:+ ws1 +:+ body +:+ ws2 +:+ fence)
            = json_fence +:+ ws1 +:+ body +:+ ws2 +:+ fence).
  { unfold py_strip.
    assert (Hl : lstrip (json_fence +:+ ws1 +:+ body +:+ ws2 +:+ fence)
                 = json_fence +:+ ws1 +:+ body +:+ ws2 +:+ fence)
      by reflexivity.
    rewrite Hl.
    rewrite <- !str_app_assoc.
    apply rstrip_keeps_end; [discriminate | reflexivity]. }
  rewrite Hfenced. rewrite starts_with_app.
  change 7%nat with (String.length json_fence). rewrite str_drop_app.
  rewrite <- !str_app_assoc. rewrite ends_with_app.
  change 3%nat with (String.length fence). rewrite str_drop_last_app.
  rewrite !str_app_assoc.
  rewrite (py_strip_padding ws1 body ws2 Hw1 Hw2). exact Hbody.
Qed.

(** X20. What [clean_output] hands to the parser has no whitespace at
    its ends, and an answer without fences is only stripped: when the
    stripped answer neither starts with the json fence nor ends with a
    fence, [clean_output] returns the stripped answer. *)
Theorem X20_clean_output_stripped (raw : string) :
  py_strip (clean_output raw) = clean_output raw
  /\ (starts_with json_fence (py_strip raw) = false ->
      ends_with fence (py_strip raw) = false ->
      clean_output raw = py_strip raw).
Proof.
  split.
  - unfold clean_output. apply py_strip_idempotent.
  - intros H1 H2. unfold clean_output. rewrite H1, H2.
    apply py_strip_idempotent.
Qed.

(* ===================================================================== *)
(** ** Properties of the planner *)
(* ===================================================================== *)

Section PlannerProperties.

Variable P : Planner.
Variable c : config.

Lemma error_plan_well_formed (message : string) :
  well_formed (error_plan message).
Proof. repeat constructor. Qed.

Lemma validate_steps_well_formed (steps : list pyval) :
  forall p, validate_steps steps = Some p -> well_formed p.
Proof.
  induction steps as [| v rest IH]; simpl; intros p.
  - intros [= <-]. constructor.
  - destruct v; try discriminate.
    destruct (has_action d) eqn:Hd; [| discriminate].
    destruct (validate_steps rest) as [p' |]; [| discriminate].
    intros [= <-]. constructor; [exact Hd | apply IH; reflexivity].
Qed.

Lemma use_answer_well_formed (raw : option string) (p : plan) :
  use_answer P raw = Plan p -> well_formed p.
Proof.
  unfold use_answer, parse_plan.
  destruct raw as [text |]; [| discriminate].
  destruct (nonempty text); [| discriminate].
  destruct (json_loads P (clean_output text)) as [v | f]; [| discriminate].
  destruct v; try discriminate.
  destruct (validate_steps l) as [p' |] eqn:Hv; [| discriminate].
  intros [= <-]. apply (validate_steps_well_formed l), Hv.
Qed.

Lemma attempt_body_well_formed (prompt instruction : string)
    (raw raw' : option string) (s s' : pstate P) (p : plan) :
  attempt_body P c prompt instruction raw s = (Plan p, raw', s') ->
  well_formed p.
Proof.
  unfold attempt_body.
  destruct (String.eqb (LLM_PROVIDER c) "gemini").
  - destruct (gemini_generate_content P prompt (pworld s)) as [[resp | f] w];
      [| discriminate].
    destruct (negb (has_parts resp)).
    + destruct (block_reason resp); intros [= <- _ _];
        apply error_plan_well_formed.
    + destruct (response_text resp) as [text | f]; [| discriminate].
      intros H. apply (use_answer_well_formed (Some text)). congruence.
  - destruct (String.eqb (LLM_PROVIDER c) "groq").
    + destruct (groq_create P _ _ (pworld s)) as [[content | f] w];
        [| discriminate].
      intros H. apply (use_answer_well_formed content). congruence.
    + intros H. apply (use_answer_well_formed raw). congruence.
Qed.

Lemma attempt_body_calls (prompt instruction : string) (raw : option string)
    (s : pstate P) :
  let s' := snd (attempt_body P c prompt instruction raw s) in
  (llm_calls (plog s') <= S (llm_calls (plog s)))%nat.
Proof.
  cbv zeta. unfold attempt_body, llm_calls.
  destruct (String.eqb (LLM_PROVIDER c) "gemini").
  - destruct (gemini_generate_content P prompt (pworld s)) as [[resp | f] w];
      [| simpl; lia].
    destruct (negb (has_parts resp)).
    + destruct (block_reason resp); simpl; lia.
    + destruct (response_text resp); simpl; lia.
  - destruct (String.eqb (LLM_PROVIDER c) "groq").
    + destruct (groq_create P _ _ (pworld s)) as [[content | f] w];
        simpl; lia.
    + simpl. lia.
Qed.

Lemma attempts_well_formed (prompt instruction : string) (todo : list Z) :
  forall raw s,
    well_formed (fst (attempts P c prompt instruction todo raw s))
    /\ (llm_calls (plog (snd (attempts P c prompt instruction todo raw s)))
        <= llm_calls (plog s) + length todo)%nat.
Proof.
  induction todo as [| attempt rest IH]; intros raw s; simpl.
  - split; [apply error_plan_well_formed | lia].
  - pose proof (attempt_body_calls prompt instruction raw s) as Hc.
    destruct (attempt_body P c prompt instruction raw s) as [[e raw'] s'] eqn:Ha.
    simpl in Hc.
    destruct e as [p | [text | text]].
    + simpl. split; [apply (attempt_body_well_formed _ _ _ _ _ _ _ Ha) | lia].
    + destruct (attempt =? MAX_RETRIES_LLM c - 1).
      * simpl. split; [apply error_plan_well_formed | lia].
      * destruct (IH raw' (plan_sleep P 1 s')) as [H1 H2].
        split; [exact H1 |]. unfold llm_calls in *. simpl in H2. lia.
    + destruct (attempt =? MAX_RETRIES_LLM c - 1).
      * simpl. split; [apply error_plan_well_formed | lia].
      * destruct (IH raw' (plan_sleep P 1 s')) as [H1 H2].
        split; [exact H1 |]. unfold llm_calls in *. simpl in H2. lia.
Qed.

Lemma py_range_length (n : Z) : length (py_range n) = Z.to_nat n.
Proof. unfold py_range. rewrite length_map, length_seq. reflexivity. Qed.

(** X21. The planner always returns records the interpreter can read.
    Whatever the model answers and however the attempts fail, every step
    of the plan [generate_plan_from_instruction] returns is a record with
    an ["action"] key: a plan that passed the validation, or the plan of
    one [error] record. *)
Theorem X21_planner_returns_records (instruction : string)
    (previous_actions : option (list pydict)) (error_context : option string)
    (s : pstate P) :
  Forall (fun step => has_action step = true)
    (fst (generate_plan_from_instruction P c instruction previous_actions
            error_context s)).
Proof.
  unfold generate_plan_from_instruction. apply attempts_well_formed.
Qed.

Lemma planner_requests (instruction : string)
    (previous_actions : option (list pydict)) (error_context : option string)
    (s : pstate P) :
  (llm_calls
     (plog (snd (generate_plan_from_instruction P c instruction
                   previous_actions error_context s)))
   <= llm_calls (plog s) + Z.to_nat (MAX_RETRIES_LLM c))%nat.
Proof.
  unfold generate_plan_from_instruction.
  rewrite <- (py_range_length (MAX_RETRIES_LLM c)).
  apply attempts_well_formed.
Qed.

(** X22. The planner asks the model at most [MAX_RETRIES_LLM] times in
    one call, and not at all when that bound is zero or negative. *)
Theorem X22_planner_bounded_requests (instruction : string)
    (previous_actions : option (list pydict)) (error_context : option string)
    (s : pstate P) :
  (llm_calls
     (plog (snd (generate_plan_from_instruction P c instruction
                   previous_actions error_context s)))
   <= llm_calls (plog s) + Z.to_nat (MAX_RETRIES_LLM c))%nat.
Proof. apply planner_requests. Qed.

Lemma py_range_positive (n : Z) :
  0 < n -> exists rest, py_range n = 0 :: rest.
Proof.
  intros H. unfold py_range.
  destruct (Z.to_nat n) as [| k] eqn:E; [lia |].
  simpl. eexists. reflexivity.
Qed.

(** X23. The first answer that parses and validates is the plan. When at
    least one attempt is allowed and the first attempt returns a plan
    (a validated answer, or the [error] record of a blocked or empty
    response of Gemini), [generate_plan_from_instruction] returns that
    plan in the state that attempt left: no second request and no sleep
    follow. *)
Theorem X23_first_answer_returned (instruction : string)
    (previous_actions : option (list pydict)) (error_context : option string)
    (s s' : pstate P) (p : plan) (raw : option string) :
  0 < MAX_RETRIES_LLM c ->
  attempt_body P c (full_prompt P instruction previous_actions error_context)
    instruction None s
  = (Plan p, raw, s') ->
  generate_plan_from_instruction P c instruction previous_actions
    error_context s
  = (p, s').
Proof.
  intros Hmax Hfirst. unfold generate_plan_from_instruction.
  destruct (py_range_positive _ Hmax) as [rest ->]. simpl.
  rewrite Hfirst. reflexivity.
Qed.

Lemma attempts_all_faulted (prompt instruction : string) (f : plan_fault)
    (s' : pstate P) (len : nat) :
  forall (a : nat) raw s,
    Z.of_nat (a + len) = MAX_RETRIES_LLM c ->
    all_faulted P c prompt instruction (map Z.of_nat (seq a len)) raw s f s' ->
    attempts P c prompt instruction (map Z.of_nat (seq a len)) raw s
    = (error_plan (give_up_message f), s').
Proof.
  induction len as [| len IH]; intros a raw s Hsum Hall.
  - inversion Hall.
  - change (map Z.of_nat (seq a (S len)))
      with (Z.of_nat a :: map Z.of_nat (seq (S a) len)) in *.
    remember (map Z.of_nat (seq (S a) len)) as tl eqn:Htl.
    destruct tl as [| next rest].
    + assert (Hbody : exists raw', attempt_body P c prompt instruction raw s
                                   = (Fault f, raw', s')).
      { inversion Hall; subst. eexists. eassumption. }
      destruct Hbody as [raw' Hbody]. simpl. rewrite Hbody.
      assert (Hlen : len = 0%nat) by (destruct len; [reflexivity | discriminate]).
      assert (Hlast : (Z.of_nat a =? MAX_RETRIES_LLM c - 1) = true)
        by (apply Z.eqb_eq; lia).
      rewrite Hlast. destruct f; reflexivity.
    + assert (Hbody : exists f0 raw' s1,
                 attempt_body P c prompt instruction raw s = (Fault f0, raw', s1)
                 /\ all_faulted P c prompt instruction (next :: rest) raw'
                      (plan_sleep P 1 s1) f s').
      { inversion Hall; subst. do 3 eexists. split; eassumption. }
      destruct Hbody as (f0 & raw' & s1 & Hbody & Hrest).
      simpl attempts at 1. rewrite Hbody.
      assert (Hlen : len <> 0%nat) by (destruct len; [discriminate | lia]).
      assert (Hnot : (Z.of_nat a =? MAX_RETRIES_LLM c - 1) = false)
        by (apply Z.eqb_neq; lia).
      rewrite Hnot.
      specialize (IH (S a) raw' (plan_sleep P 1 s1)). rewrite <- Htl in IH.
      destruct f0; apply IH; try lia; exact Hrest.
Qed.

(** X24. The planner gives up after its last attempt, with an [error]
    record. When the [MAX_RETRIES_LLM] attempts of a call, each made one
    second after the fault of the one before, all end with a fault, the
    call returns the plan of one [error] record whose message tells the
    kind of the last fault: the parse failure message for a
    [JSONDecodeError], the text of the exception otherwise. No sleep
    follows the last attempt. With no attempt allowed, the call returns
    the record ["LLM failed to generate a valid plan."] at once. *)
Theorem X24_planner_gives_up (instruction : string)
    (previous_actions : option (list pydict)) (error_context : option string)
    (s : pstate P) :
  (forall f s',
      all_faulted P c
        (full_prompt P instruction previous_actions error_context) instruction
        (py_range (MAX_RETRIES_LLM c)) None s f s' ->
      generate_plan_from_instruction P c instruction previous_actions
        error_context s
      = (error_plan (give_up_message f), s'))
  /\ (MAX_RETRIES_LLM c <= 0 ->
      generate_plan_from_instruction P c instruction previous_actions
        error_context s
      = (error_plan "LLM failed to generate a valid plan.", s)).
Proof.
  split.
  - intros f s' Hall. unfold generate_plan_from_instruction, py_range in *.
    apply attempts_all_faulted; [| exact Hall].
    destruct (Z.to_nat (MAX_RETRIES_LLM c)) eqn:E; [inversion Hall |]. lia.
  - intros Hmax. unfold generate_plan_from_instruction, py_range.
    replace (Z.to_nat (MAX_RETRIES_LLM c)) with 0%nat by lia. reflexivity.
Qed.

End PlannerProperties.

(* ===================================================================== *)
(** ** Properties of the operator loop *)
(* ===================================================================== *)

Section MainProperties.

Variable B : Browser.
Variable P : Planner.
Variable c : config.
Variable launch : driver_kind -> result (World B).
Variable implicitly_wait : Z -> World B -> result unit * World B.
Variable quit : World B -> result unit * World B.
Variable dumps_fault : plan -> option exn.

(** What a prompt of the console changes: the world and the trace. *)
Lemma console_input_frame (prompt : string) (m : session B P) :
  let m' := snd (console_input B P prompt m) in
  planner m' = planner m
  /\ previous_actions_history m' = previous_actions_history m
  /\ trace (agent m') = EvInput prompt :: trace (agent m)
  /\ extracted_data (agent m') = extracted_data (agent m)
  /\ driver_present (agent m') = driver_present (agent m).
Proof.
  cbv zeta. unfold console_input, world_call.
  destruct (br_input B prompt (world (agent m))) as [r w]. simpl.
  repeat split.
Qed.

Lemma console_input_answer (prompt : string) (m m1 : session B P)
    (answer : string) :
  console_input B P prompt m = (Ok answer, m1) ->
  fst (br_input B prompt (world (agent m))) = Ok answer.
Proof.
  unfold console_input, world_call.
  destruct (br_input B prompt (world (agent m))) as [r w]. simpl.
  congruence.
Qed.

Lemma confirm_and_execute_planner (p : plan) (instruction : string)
    (m : session B P) :
  planner (snd (confirm_and_execute B P p instruction m)) = planner m.
Proof.
  unfold confirm_and_execute.
  destruct (console_input_frame execute_prompt m) as [Hp _].
  destruct (console_input B P execute_prompt m) as [[confirm | e] m1];
    simpl in Hp; [| exact Hp].
  destruct (is_yes (py_lower confirm)); [| exact Hp].
  destruct (execute_plan B p instruction (agent m1))
    as [[[success message] | e] s]; [| exact Hp].
  destruct (if success then None else str_fault B message); [exact Hp |].
  match goal with
  | |- context [console_input B P finished_prompt ?m2] =>
      destruct (console_input_frame finished_prompt m2) as [Hq _];
      destruct (console_input B P finished_prompt m2) as [[a | e] m3]
  end; simpl in Hq |- *; congruence.
Qed.

Lemma main_iteration_requests (m : session B P) :
  (llm_calls (plog (planner (snd (main_iteration B P c dumps_fault m))))
   <= llm_calls (plog (planner m)) + Z.to_nat (MAX_RETRIES_LLM c))%nat.
Proof.
  unfold main_iteration.
  destruct (console_input_frame instruction_prompt m) as [Hp _].
  destruct (console_input B P instruction_prompt m) as [[instruction | e] m1];
    simpl in Hp; [| simpl; rewrite Hp; lia].
  destruct (negb (nonempty (py_strip instruction)));
    [simpl; rewrite Hp; lia |].
  destruct (String.eqb (py_lower instruction) "exit");
    [simpl; rewrite Hp; lia |].
  destruct (String.eqb (py_lower instruction) "clear");
    [simpl; rewrite Hp; lia |].
  pose proof (planner_requests P c instruction None None (planner m1)) as Hr.
  destruct (generate_plan_from_instruction P c instruction None None
              (planner m1)) as [p ps].
  simpl in Hr. rewrite Hp in Hr.
  destruct (invalid_plan p); [exact Hr |].
  destruct (dumps_fault p); [exact Hr |].
  destruct (starts_with_error p).
  { destruct (str_fault B (first_message p)); exact Hr. }
  destruct (Z.of_nat (length p) >? MAX_STEPS_PER_PLAN c).
  - match goal with
    | |- context [console_input B P long_plan_prompt ?m2] =>
        destruct (console_input_frame long_plan_prompt m2) as [Hq _];
        destruct (console_input B P long_plan_prompt m2) as [[a | e] m3]
    end; simpl in Hq.
    + destruct (is_yes (py_lower a)).
      * rewrite confirm_and_execute_planner, Hq. exact Hr.
      * simpl. rewrite Hq. exact Hr.
    + simpl. rewrite Hq. exact Hr.
  - rewrite confirm_and_execute_planner. exact Hr.
Qed.

(** X25. A session asks the model at most [MAX_RETRIES_LLM] times per
    instruction. When the loop of [main] ends within [fuel] iterations,
    by [exit] or by an exception, the planner has made at most
    [fuel * MAX_RETRIES_LLM] requests more than it had made before. *)
Theorem X25_session_requests_bounded (fuel : nat) (m m' : session B P)
    (r : result unit) :
  main_loop B P c dumps_fault fuel m = Some (r, m') ->
  (llm_calls (plog (planner m'))
   <= llm_calls (plog (planner m)) + fuel * Z.to_nat (MAX_RETRIES_LLM c))%nat.
Proof.
  revert m. induction fuel as [| fuel IH]; intros m; simpl; [discriminate |].
  pose proof (main_iteration_requests m) as Hi.
  destruct (main_iteration B P c dumps_fault m) as [[[] | e] m1]; simpl in Hi.
  - intros Hloop. specialize (IH m1 Hloop). lia.
  - intros [= _ <-]. lia.
  - intros [= _ <-]. lia.
Qed.

Lemma confirm_without_consent (p : plan) (instruction : string)
    (m : session B P) :
  (forall w answer,
      fst (br_input B execute_prompt w) = Ok answer ->
      is_yes (py_lower answer) = false) ->
  let m' := snd (confirm_and_execute B P p instruction m) in
  trace (agent m') = EvInput execute_prompt :: trace (agent m)
  /\ previous_actions_history m' = previous_actions_history m
  /\ extracted_data (agent m') = extracted_data (agent m).
Proof.
  intros Hno. cbv zeta. unfold confirm_and_execute.
  destruct (console_input_frame execute_prompt m) as (_ & Hh & Ht & Hd & _).
  destruct (console_input B P execute_prompt m) as [[confirm | e] m1] eqn:Hin;
    simpl in Hh, Ht, Hd; [| simpl; auto].
  rewrite (Hno _ _ (console_input_answer _ _ _ _ Hin)). simpl. auto.
Qed.

(** X26. Nothing is done in the browser without the operator's consent.
    With an operator who never answers [yes] or [y] (in any letter case)
    to the question whether to execute the plan, an iteration of the loop
    of [main] adds only prompts of the console to the trace of the agent:
    no operation of the Action Library is entered and no primitive of the
    driver is called, whatever the instruction and the plan are. The
    history of actions is left as it was, or emptied by [clear]. *)
Theorem X26_no_execution_without_consent (m : session B P) :
  (forall w answer,
      fst (br_input B execute_prompt w) = Ok answer ->
      is_yes (py_lower answer) = false) ->
  let m' := snd (main_iteration B P c dumps_fault m) in
  (exists prompts,
      trace (agent m') = map EvInput prompts ++ trace (agent m))
  /\ (previous_actions_history m' = previous_actions_history m
      \/ previous_actions_history m' = []).
Proof.
  intros Hno. cbv zeta. unfold main_iteration.
  destruct (console_input_frame instruction_prompt m) as (_ & Hh & Ht & _).
  destruct (console_input B P instruction_prompt m) as [[instruction | e] m1];
    simpl in Hh, Ht.
  2: { simpl. split; [exists [instruction_prompt]; exact Ht | left; exact Hh]. }
  destruct (negb (nonempty (py_strip instruction))).
  { simpl. split; [exists [instruction_prompt]; exact Ht | left; exact Hh]. }
  destruct (String.eqb (py_lower instruction) "exit").
  { simpl. split; [exists [instruction_prompt]; exact Ht | left; exact Hh]. }
  destruct (String.eqb (py_lower instruction) "clear").
  { simpl. split; [exists [instruction_prompt]; exact Ht | right; reflexivity]. }
  destruct (generate_plan_from_instruction P c instruction None None
              (planner m1)) as [p ps].
  destruct (invalid_plan p).
  { simpl. split; [exists [instruction_prompt]; exact Ht | left; exact Hh]. }
  destruct (dumps_fault p).
  { simpl. split; [exists [instruction_prompt]; exact Ht | left; exact Hh]. }
  destruct (starts_with_error p).
  { destruct (str_fault B (first_message p)); simpl;
      (split; [exists [instruction_prompt]; exact Ht | left; exact Hh]). }
  destruct (Z.of_nat (length p) >? MAX_STEPS_PER_PLAN c).
  - match goal with
    | |- context [console_input B P long_plan_prompt ?m2] =>
        destruct (console_input_frame long_plan_prompt m2) as (_ & Hh2 & Ht2 & _);
        destruct (console_input B P long_plan_prompt m2) as [[a | e] m3]
    end; simpl in Hh2, Ht2.
    + destruct (is_yes (py_lower a)).
      * destruct (confirm_without_consent p instruction m3 Hno) as (Ht3 & Hh3 & _).
        split.
        -- exists [execute_prompt; long_plan_prompt; instruction_prompt].
           simpl. rewrite Ht3, Ht2, Ht. reflexivity.
        -- left. rewrite Hh3, Hh2. exact Hh.
      * simpl. split.
        -- exists [long_plan_prompt; instruction_prompt].
           simpl. rewrite Ht2, Ht. reflexivity.
        -- left. rewrite Hh2. exact Hh.
    + simpl. split.
      * exists [long_plan_prompt; instruction_prompt].
        simpl. rewrite Ht2, Ht. reflexivity.
      * left. rewrite Hh2. exact Hh.
  - match goal with
    | |- context [confirm_and_execute B P p instruction ?m2] =>
        destruct (confirm_without_consent p instruction m2 Hno)
          as (Ht3 & Hh3 & _)
    end.
    simpl in Ht3, Hh3. split.
    + exists [execute_prompt; instruction_prompt].
      simpl. rewrite Ht3, Ht. reflexivity.
    + left. rewrite Hh3. exact Hh.
Qed.

(** What [confirm_and_execute] does to the history: nothing, or it adds
    the plan after the operator said yes to its question and the plan
    was executed from the state that answer left. *)
Lemma confirm_and_execute_history (p : plan) (instruction : string)
    (m : session B P) :
  let m' := snd (confirm_and_execute B P p instruction m) in
  previous_actions_history m' = previous_actions_history m
  \/ exists confirm m1 success message s,
       console_input B P execute_prompt m = (Ok confirm, m1)
       /\ is_yes (py_lower confirm) = true
       /\ execute_plan B p instruction (agent m1) = (Ok (success, message), s)
       /\ m' = snd (console_input B P finished_prompt
                      (Session s (planner m)
                         (previous_actions_history m ++ p)))
       /\ previous_actions_history m' = previous_actions_history m ++ p.
Proof.
  cbv zeta. unfold confirm_and_execute.
  destruct (console_input_frame execute_prompt m) as (Hp & Hh & _).
  destruct (console_input B P execute_prompt m) as [[confirm | e] m1];
    simpl in Hp, Hh; [| left; exact Hh].
  destruct (is_yes (py_lower confirm)) eqn:Hyes; [| left; exact Hh].
  destruct (execute_plan B p instruction (agent m1))
    as [[[success message] | e] s] eqn:Hrun; [| left; exact Hh].
  destruct (if success then None else str_fault B message);
    [left; exact Hh |].
  right. exists confirm, m1, success, message, s.
  rewrite Hp, Hh.
  split; [reflexivity |]. split; [exact Hyes |]. split; [exact Hrun |].
  match goal with
  | |- context [console_input B P finished_prompt ?m2] =>
      destruct (console_input_frame finished_prompt m2) as (_ & Hq & _);
      destruct (console_input B P finished_prompt m2) as [[a | e] m3]
  end; simpl in Hq |- *; (split; [reflexivity | exact Hq]).
Qed.

(** X27. The history of actions grows only by a plan the operator let
    run in this very iteration. After an iteration of the loop of [main]
    the history is as before, or it is empty together with the store of
    extracted data (after [clear]), or it is the old history followed by
    the whole plan the planner returned for the instruction read at the
    console. In that last case the plan is not empty, its first record
    has an action other than [error], a plan longer than
    [MAX_STEPS_PER_PLAN] was accepted at the question about its length,
    the operator answered [yes] or [y] to the question whether to
    execute it, asked in the state the earlier prompts of the iteration
    left, and [execute_plan] ran on the plan from the state that answer
    left and returned. *)
Theorem X27_history_of_an_iteration (m : session B P) :
  let m' := snd (main_iteration B P c dumps_fault m) in
  previous_actions_history m' = previous_actions_history m
  \/ (previous_actions_history m' = []
      /\ extracted_data (agent m') = ∅
      /\ planner m' = planner m)
  \/ exists instruction m1 p ps m3 confirm m4 success message s,
       console_input B P instruction_prompt m = (Ok instruction, m1)
       /\ generate_plan_from_instruction P c instruction None None
            (planner m) = (p, ps)
       /\ invalid_plan p = false
       /\ starts_with_error p = false
       /\ (let m2 := Session (agent m1) ps (previous_actions_history m) in
           if Z.of_nat (length p) >? MAX_STEPS_PER_PLAN c
           then exists a,
                  console_input B P long_plan_prompt m2 = (Ok a, m3)
                  /\ is_yes (py_lower a) = true
           else m3 = m2)
       /\ console_input B P execute_prompt m3 = (Ok confirm, m4)
       /\ is_yes (py_lower confirm) = true
       /\ execute_plan B p instruction (agent m4) = (Ok (success, message), s)
       /\ m' = snd (console_input B P finished_prompt
                      (Session s ps (previous_actions_history m ++ p)))
       /\ previous_actions_history m' = previous_actions_history m ++ p.
Proof.
  cbv zeta. unfold main_iteration.
  destruct (console_input_frame instruction_prompt m) as (Hp & Hh & _).
  destruct (console_input B P instruction_prompt m) as [[instruction | e] m1];
    simpl in Hp, Hh; [| left; exact Hh].
  destruct (negb (nonempty (py_strip instruction))); [left; exact Hh |].
  destruct (String.eqb (py_lower instruction) "exit"); [left; exact Hh |].
  destruct (String.eqb (py_lower instruction) "clear").
  { right. left. simpl. repeat split. exact Hp. }
  rewrite <- Hp.
  destruct (generate_plan_from_instruction P c instruction None None
              (planner m1)) as [p ps] eqn:Hplan.
  destruct (invalid_plan p) eqn:Hinv; [left; exact Hh |].
  destruct (dumps_fault p); [left; exact Hh |].
  destruct (starts_with_error p) eqn:Herr.
  { destruct (str_fault B (first_message p)); left; exact Hh. }
  rewrite <- Hh.
  destruct (Z.of_nat (length p) >? MAX_STEPS_PER_PLAN c) eqn:Hlong.
  - match goal with
    | |- context [console_input B P long_plan_prompt ?m2] =>
        destruct (console_input_frame long_plan_prompt m2)
          as (Hp2 & Hh2 & _);
        destruct (console_input B P long_plan_prompt m2)
          as [[a | e] m3] eqn:Hin
    end; simpl in Hp2, Hh2; [| left; simpl; congruence].
    destruct (is_yes (py_lower a)) eqn:Ha; [| left; simpl; congruence].
    destruct (confirm_and_execute_history p instruction m3)
      as [Hsame | (confirm & m4 & success & message & s
                   & Hc & Hyes & Hrun & Hend & Hext)].
    + left. congruence.
    + right. right.
      exists instruction, m1, p, ps, m3, confirm, m4, success, message, s.
      rewrite Hp2, Hh2 in Hend. rewrite Hh2 in Hext. rewrite Hlong.
      repeat split; try assumption; try reflexivity.
      exists a. split; [exact Hin | exact Ha].
  - match goal with
    | |- context [confirm_and_execute B P p instruction ?m2] =>
        destruct (confirm_and_execute_history p instruction m2)
          as [Hsame | (confirm & m4 & success & message & s
                       & Hc & Hyes & Hrun & Hend & Hext)];
        [left; simpl in Hsame; congruence |];
        right; right;
        exists instruction, m1, p, ps, m2, confirm, m4, success, message, s
    end.
    simpl in Hend, Hext. rewrite Hlong.
    repeat split; try assumption; reflexivity.
Qed.

(** *** The end of [main] *)

Lemma confirm_and_execute_driver (p : plan) (instruction : string)
    (m : session B P) :
  driver_present (agent (snd (confirm_and_execute B P p instruction m)))
  = driver_present (agent m).
Proof.
  unfold confirm_and_execute.
  destruct (console_input_frame execute_prompt m) as (_ & _ & _ & _ & Hd).
  destruct (console_input B P execute_prompt m) as [[confirm | e] m1];
    simpl in Hd; [| exact Hd].
  destruct (is_yes (py_lower confirm)); [| exact Hd].
  pose proof (execute_plan_grows B p instruction (agent m1)) as [_ Hg].
  destruct (execute_plan B p instruction (agent m1))
    as [[[success message] | e] s]; simpl in Hg;
    [| simpl; congruence].
  destruct (if success then None else str_fault B message);
    [simpl; congruence |].
  match goal with
  | |- context [console_input B P finished_prompt ?m2] =>
      destruct (console_input_frame finished_prompt m2)
        as (_ & _ & _ & _ & Hq);
      destruct (console_input B P finished_prompt m2) as [[a | e] m3]
  end; simpl in Hq |- *; congruence.
Qed.

Lemma main_iteration_driver (m : session B P) :
  driver_present (agent (snd (main_iteration B P c dumps_fault m)))
  = driver_present (agent m).
Proof.
  unfold main_iteration.
  destruct (console_input_frame instruction_prompt m) as (_ & _ & _ & _ & Hd).
  destruct (console_input B P instruction_prompt m) as [[instruction | e] m1];
    simpl in Hd; [| exact Hd].
  destruct (negb (nonempty (py_strip instruction))); [exact Hd |].
  destruct (String.eqb (py_lower instruction) "exit"); [exact Hd |].
  destruct (String.eqb (py_lower instruction) "clear"); [exact Hd |].
  destruct (generate_plan_from_instruction P c instruction None None
              (planner m1)) as [p ps].
  destruct (invalid_plan p); [exact Hd |].
  destruct (dumps_fault p); [exact Hd |].
  destruct (starts_with_error p).
  { destruct (str_fault B (first_message p)); exact Hd. }
  destruct (Z.of_nat (length p) >? MAX_STEPS_PER_PLAN c).
  - match goal with
    | |- context [console_input B P long_plan_prompt ?m2] =>
        destruct (console_input_frame long_plan_prompt m2)
          as (_ & _ & _ & _ & Hq);
        destruct (console_input B P long_plan_prompt m2) as [[a | e] m3]
    end; simpl in Hq; [| simpl; congruence].
    destruct (is_yes (py_lower a)); [| simpl; congruence].
    rewrite confirm_and_execute_driver. congruence.
  - rewrite confirm_and_execute_driver. exact Hd.
Qed.

Lemma main_loop_driver (fuel : nat) :
  forall (m m' : session B P) (r : result unit),
    main_loop B P c dumps_fault fuel m = Some (r, m') ->
    driver_present (agent m') = driver_present (agent m).
Proof.
  induction fuel as [| fuel IH]; intros m m' r; simpl; [discriminate |].
  pose proof (main_iteration_driver m) as Hi.
  destruct (main_iteration B P c dumps_fault m) as [[[] | e] m1];
    simpl in Hi.
  - intros Hloop. rewrite (IH m1 m' r Hloop). exact Hi.
  - intros [= _ <-]. exact Hi.
  - intros [= _ <-]. exact Hi.
Qed.

Lemma new_agent_driver (driver_type : string) (s : state B) :
  new_agent B launch implicitly_wait driver_type = Ok s ->
  driver_present s = true.
Proof.
  unfold new_agent.
  destruct (if String.eqb (py_lower driver_type) "chrome"
            then launch ChromeDriver
            else if String.eqb (py_lower driver_type) "firefox"
                 then launch FirefoxDriver
                 else Raise (Exn ValueError
                               ("Unsupported driver type: " +:+ driver_type)))
    as [w | e]; [| discriminate].
  destruct (implicitly_wait 5 w) as [[[] | e] w']; [| discriminate].
  intros [= <-]. reflexivity.
Qed.

(** X13. [main] quits the browser of the agent it built, and only that
    one. When the loop ends, by [exit] or with an exception, the
    [finally] clause still finds the driver set and calls its [quit]:
    the agent is left in the world [quit] returns for the world the loop
    ended in, with the driver slot empty and the store and the trace of
    the loop, whether the quit itself raises or not. Without the key of
    the provider nothing is started. When [BrowserAgent()] raises, no
    agent is built and nothing is quit: if the browser had started and
    it is the implicit wait that raised, that browser is left in the
    world the failed wait returned. *)
Theorem X13_main_quits_the_browser_of_the_agent (fuel : nat)
    (ps : pstate P) :
  match main B P c launch implicitly_wait quit dumps_fault fuel ps with
  | Some KeysMissing => check_api_keys c = false
  | Some (NotBuilt e running) =>
      check_api_keys c = true
      /\ new_agent B launch implicitly_wait (SELENIUM_DRIVER_TYPE c) = Raise e
      /\ (forall w',
            running = Some w' ->
            exists kind w,
              launch kind = Ok w /\ implicitly_wait 5 w = (Raise e, w'))
      /\ (forall kind w e' w',
            py_lower (SELENIUM_DRIVER_TYPE c)
            = match kind with
              | ChromeDriver => "chrome"
              | FirefoxDriver => "firefox"
              end ->
            launch kind = Ok w ->
            implicitly_wait 5 w = (Raise e', w') ->
            e = e' /\ running = Some w')
  | Some (ShutDown r closed) =>
      check_api_keys c = true
      /\ exists s0 m,
           new_agent B launch implicitly_wait (SELENIUM_DRIVER_TYPE c) = Ok s0
           /\ main_loop B P c dumps_fault fuel (Session s0 ps []) = Some (r, m)
           /\ driver_present (agent m) = true
           /\ closed
              = State (snd (quit (world (agent m)))) false
                  (extracted_data (agent m)) (trace (agent m))
  | None =>
      check_api_keys c = true
      /\ exists s0,
           new_agent B launch implicitly_wait (SELENIUM_DRIVER_TYPE c) = Ok s0
           /\ main_loop B P c dumps_fault fuel (Session s0 ps []) = None
  end.
Proof.
  unfold main. destruct (check_api_keys c); simpl negb; cbv beta iota;
    [| reflexivity].
  destruct (new_agent B launch implicitly_wait (SELENIUM_DRIVER_TYPE c))
    as [s0 | e] eqn:Hnew.
  - destruct (main_loop B P c dumps_fault fuel (Session s0 ps []))
      as [[r m] |] eqn:Hloop.
    + split; [reflexivity |]. exists s0, m.
      pose proof (main_loop_driver fuel _ _ _ Hloop) as Hd. simpl in Hd.
      rewrite (new_agent_driver _ _ Hnew) in Hd.
      split; [reflexivity |]. split; [exact Hloop |]. split; [exact Hd |].
      unfold close_browser, try_finally, try_except, release_driver.
      rewrite Hd.
      destruct (quit (world (agent m))) as [[[] | e] w]; reflexivity.
    + split; [reflexivity |]. exists s0. split; [reflexivity | exact Hloop].
  - split; [reflexivity |]. split; [reflexivity |].
    unfold new_agent in Hnew. unfold left_running. split.
    + intros w' Hrun.
      destruct (String.eqb (py_lower (SELENIUM_DRIVER_TYPE c)) "chrome").
      * destruct (launch ChromeDriver) as [w | x] eqn:Hl; [| discriminate].
        destruct (implicitly_wait 5 w) as [[[] | x] w1] eqn:Hw;
          [discriminate |].
        injection Hnew as <-. injection Hrun as <-.
        exists ChromeDriver, w. split; assumption.
      * destruct (String.eqb (py_lower (SELENIUM_DRIVER_TYPE c)) "firefox");
          [| discriminate].
        destruct (launch FirefoxDriver) as [w | x] eqn:Hl; [| discriminate].
        destruct (implicitly_wait 5 w) as [[[] | x] w1] eqn:Hw;
          [discriminate |].
        injection Hnew as <-. injection Hrun as <-.
        exists FirefoxDriver, w. split; assumption.
    + intros kind w e' w' Hkind Hl Hw. rewrite Hkind in Hnew |- *.
      destruct kind; simpl in Hnew |- *; rewrite Hl, Hw in Hnew |- *;
        injection Hnew as <-; split; reflexivity.
Qed.

End MainProperties.

(* ===================================================================== *)
(** ** Runs of the further properties on the fake drivers *)
(* ===================================================================== *)

Lemma X5_witness :
  click_element (fake timing_out) (PStr "css") (PStr "#go")
    (new_session timing_out)
  = (Ok false,
     snd (native_click (fake timing_out) (PStr "css") (PStr "#go")
            (add_event (fake timing_out)
               (EvCall (CallClickElement (PStr "css") (PStr "#go")))
               (new_session timing_out)))).
Proof.
  eapply (X5_fallback_only_when_not_interactable (fake timing_out)
            (PStr "css") (PStr "#go") (new_session timing_out) _
            (Exn TimeoutException ("Message: " +:+ newline))).
  - reflexivity.
  - reflexivity.
  - vm_compute. reflexivity.
  - discriminate.
Defined.


Lemma X7_witness :
  exists s1,
    execute_plan (fake (cooperative ""))
      ([navigate_step] ++ [("action", PStr "type"); ("selector_type", PStr "id")]
         :: [click_step]) "go" (new_session (cooperative ""))
    = (Ok (false,
           PStr "Missing parameter for action 'type': 'selector_value'."),
       s1).
Proof.
  eexists.
  eapply (X7_missing_parameter_aborts (fake (cooperative "")) [navigate_step]
            [click_step] [("action", PStr "type"); ("selector_type", PStr "id")]
            "go" "type" "selector_value" (new_session (cooperative "")) _).
  - reflexivity.
  - vm_compute. reflexivity.
  - steps_succeed.
  - vm_compute. reflexivity.
  - reflexivity.
  - vm_compute. reflexivity.
Defined.

Lemma X8_witness :
  exists s1,
    execute_plan (fake (cooperative ""))
      ([click_step] ++ [("action", PStr "navigate"); ("url", PStr "")] :: [])
      "go" (new_session (cooperative ""))
    = (Ok (false,
           PStr "Invalid parameter for action 'navigate': 'url' missing for navigate action.."),
       s1).
Proof.
  eexists.
  eapply (X8_navigate_without_url_aborts (fake (cooperative "")) [click_step]
            [] [("action", PStr "navigate"); ("url", PStr "")] "go"
            (new_session (cooperative "")) _).
  - reflexivity.
  - vm_compute. reflexivity.
  - steps_succeed.
  - vm_compute. reflexivity.
  - reflexivity.
  - reflexivity.
Defined.

Lemma X9_witness :
  unsupported_selector (PStr "class") = true
  /\ click_element (fake (cooperative "")) (PStr "class") (PStr "btn")
       (new_session (cooperative ""))
     = (Ok false,
        add_event (fake (cooperative ""))
          (EvCall (CallClickElement (PStr "class") (PStr "btn")))
          (new_session (cooperative ""))).
Proof.
  split; [reflexivity |].
  apply (X9_unsupported_selector_type (fake (cooperative "")) (PStr "class")
           (PStr "btn") (PStr "hi") (PBool false) (PStr "v") (KStr "v")
           (new_session (cooperative "")));
    reflexivity.
Defined.

Lemma X11_witness :
  dispatch (fake (cooperative "")) 2
    [("action", PStr "ask_user"); ("question", PStr "Which one?")]
    (PStr "ask_user") (new_session (cooperative ""))
  = (Ok (Done true),
     State (B := fake (cooperative "")) tt true
       (<[KStr "user_response_to_3" := PStr "yes"]> ∅)
       [EvInput "Your response: "; EvCall (CallAskUser (PStr "Which one?"))]).
Proof.
  apply (X11_ask_user_step (fake (cooperative "")) 2
           [("action", PStr "ask_user"); ("question", PStr "Which one?")]
           (PStr "Which one?") "yes" tt (new_session (cooperative "")));
    reflexivity.
Defined.

Lemma X14_witness :
  fst (scroll_window (fake (cooperative "")) (PStr "TO_TOP") 100
         (new_session (cooperative "")))
  = fst (scroll_window (fake (cooperative "")) (PStr "TO_TOP") 900
           (new_session (cooperative ""))).
Proof.
  apply (X14_scroll_to_edge_ignores_pixels (fake (cooperative ""))
           (PStr "TO_TOP") "to_top" 100 900 (new_session (cooperative ""))).
  - reflexivity.
  - right. reflexivity.
Defined.

Lemma X18_witness :
  check_api_keys (repository_config (Some "k") None) = true.
Proof.
  apply (X18_configured_implies_keys_checked
           (repository_config (Some "k") None)
           (GeminiModel "k" "gemini-1.5-flash-latest")).
  reflexivity.
Defined.

Lemma X19_witness :
  clean_output
    (" " +:+ (json_fence +:+ newline +:+ "[navigate]" +:+ newline +:+ fence)
     +:+ newline)
  = "[navigate]".
Proof.
  apply (X19_fenced_answer_unwrapped " " newline "[navigate]" newline newline);
    reflexivity.
Defined.

Lemma X23_witness :
  exists s',
    generate_plan_from_instruction scripted_planner
      (repository_config (Some "k") None) "open the example" None None
      (planner_start [Returned (Some "[navigate]")])
    = ([navigate_step], s').
Proof.
  eexists.
  eapply (X23_first_answer_returned scripted_planner
            (repository_config (Some "k") None) "open the example" None None
            (planner_start [Returned (Some "[navigate]")]) _ [navigate_step]
            (Some "[navigate]")).
  - reflexivity.
  - vm_compute. reflexivity.
Defined.

Lemma X24_witness :
  exists s',
    generate_plan_from_instruction scripted_planner
      (repository_config (Some "k") None) "open the example" None None
      (planner_start [Faulted (OtherException "quota"); Returned (Some "{")])
    = (error_plan "Failed to parse LLM JSON output after multiple retries.",
       s').
Proof.
  eexists.
  eapply (proj1 (X24_planner_gives_up scripted_planner
                   (repository_config (Some "k") None) "open the example"
                   None None
                   (planner_start [Faulted (OtherException "quota");
                                   Returned (Some "{")]))
            (JSONDecodeError "Expecting value: line 1 column 1 (char 0)") _).
  eapply (all_faulted_more _ _ _ _ 0 1 []).
  - vm_compute. reflexivity.
  - eapply all_faulted_last. vm_compute. reflexivity.
Defined.

Lemma X25_witness :
  exists m',
    main_loop scripted_console scripted_planner
      (repository_config (Some "k") None) fake_dumps 5
      (console_session ["open the example"; "yes"; ""; "exit"]
         [Returned (Some "[navigate]")])
    = Some (Ok tt, m')
    /\ (llm_calls (plog (planner m')) <= 0 + 5 * 2)%nat.
Proof.
  eexists. split.
  - vm_compute. reflexivity.
  - apply (X25_session_requests_bounded scripted_console scripted_planner
             (repository_config (Some "k") None) fake_dumps 5
             (console_session ["open the example"; "yes"; ""; "exit"]
                [Returned (Some "[navigate]")]) _ (Ok tt)).
    vm_compute. reflexivity.
Defined.

Lemma X26_witness :
  (exists prompts,
      trace (agent (snd (main_iteration (fake declining) scripted_planner
                           (repository_config (Some "k") None) fake_dumps
                           (Session (new_session declining)
                              (planner_start [Returned (Some "[navigate]")])
                              []))))
      = map EvInput prompts ++ [])
  /\ (previous_actions_history
        (snd (main_iteration (fake declining) scripted_planner
                (repository_config (Some "k") None) fake_dumps
                (Session (new_session declining)
                   (planner_start [Returned (Some "[navigate]")]) [])))
      = []
      \/ previous_actions_history
           (snd (main_iteration (fake declining) scripted_planner
                   (repository_config (Some "k") None) fake_dumps
                   (Session (new_session declining)
                      (planner_start [Returned (Some "[navigate]")]) [])))
         = []).
Proof.
  apply (X26_no_execution_without_consent (fake declining) scripted_planner
           (repository_config (Some "k") None) fake_dumps
           (Session (new_session declining)
              (planner_start [Returned (Some "[navigate]")]) [])).
  intros w answer H. injection H as <-. reflexivity.
Defined.

(** An iteration in which the operator lets the plan run: the plan is
    executed and added to the history. *)
Example iteration_extends_history :
  let m' :=
    snd (main_iteration scripted_console scripted_planner
           (repository_config (Some "k") None) fake_dumps
           (console_session ["open the example"; "yes"; ""]
              [Returned (Some "[navigate]")])) in
  previous_actions_history m' = [navigate_step]
  /\ trace (agent m')
     = [EvInput finished_prompt; EvSleep 1000; EvWaitReady 15;
        EvGet (PStr "https://example.test");
        EvCall (CallNavigate (PStr "https://example.test"));
        EvInput execute_prompt; EvInput instruction_prompt].
Proof. vm_compute. split; reflexivity. Qed.

(** A browser that starts and then fails its implicit wait: [main] ends
    with no agent, and the browser is left as the wait left it. *)
Example main_leaves_the_started_browser :
  main scripted_console scripted_planner (repository_config (Some "k") None)
    (console_launch ["exit"])
    (fun _ w => (Raise (Exn OtherError "session deleted"), w))
    console_quit fake_dumps 3 (planner_start [])
  = Some (NotBuilt (B := scripted_console)
            (Exn OtherError "session deleted") (Some ["exit"])).
Proof. vm_compute. reflexivity. Qed.

(** The same console with a browser that starts: the operator leaves at
    once and the agent ends with its driver released. *)
Example main_shuts_down :
  main scripted_console scripted_planner (repository_config (Some "k") None)
    (console_launch ["exit"]) console_implicitly_wait console_quit
    fake_dumps 3 (planner_start [])
  = Some (ShutDown (Ok tt)
            (State (B := scripted_console) [] false ∅
               [EvInput instruction_prompt])).
Proof. vm_compute. reflexivity. Qed.
